(** * auto_session_warning: session-expiry warning plugin

    A shallow embedding of [auto_session_warning.py] (class
    [AutoSessionWarningPlugin]) and the properties of its expiry evaluator,
    cooldown, delivery workflow, command handlers and polling loop.

    Conventions of the embedding.
    - Python floats are [pyfloat]: an exact rational, or one of the
      special values inf, -inf, nan, which [float()] and the JSON reader can
      produce.  The plugin is embedded with exact finite arithmetic;
      [Double] rounds to IEEE doubles as the interpreter does, and the
      hours the interpreter computes ([online_hours_double],
      [remaining_hours_double]) are compared with the exact ones where a
      property is about their values.
    - A [datetime] is the number of seconds it stands for; the UTC offset of
      the local clock is taken constant, so [datetime.fromtimestamp] is the
      identity on the timestamps it accepts.
    - Python [str] is a [string] holding the UTF-8 bytes of the text.
    - [self], the scratch directory, the configuration store and everything
      the plugin does to the outside (log lines, HTTP requests, sleeps,
      threads) live in a [World]; what the outside answers during one call
      is an [Env]. *)

From Stdlib Require Import ZArith QArith Qabs Qpower Bool List String Ascii.
From Stdlib Require Import Lia Lqa.
From Stdlib Require Import DecimalString.
Import ListNotations.

Local Open Scope string_scope.
Local Open Scope Z_scope.

(** ** Python floats *)

Module PyFloat.

Inductive pyfloat :=
| Fin (q : Q)
| PInf
| NInf
| NaN.

Definition Qlt_bool (a b : Q) : bool := negb (Qle_bool b a).

(** [a - b] *)
Definition sub (a b : pyfloat) : pyfloat :=
  match a, b with
  | NaN, _ | _, NaN => NaN
  | Fin x, Fin y => Fin (Qred (x - y))
  | Fin _, PInf => NInf
  | Fin _, NInf => PInf
  | PInf, PInf => NaN
  | PInf, _ => PInf
  | NInf, NInf => NaN
  | NInf, _ => NInf
  end.

(** [a * b] for a finite, non-zero constant [b] of positive sign. *)
Definition scale (a : pyfloat) (k : Q) : pyfloat :=
  match a with
  | Fin x => Fin (Qred (x * k))
  | other => other
  end.

(** [a < b]; every comparison with nan is false. *)
Definition lt (a b : pyfloat) : bool :=
  match a, b with
  | NaN, _ | _, NaN => false
  | Fin x, Fin y => Qlt_bool x y
  | NInf, NInf => false
  | NInf, _ => true
  | _, NInf => false
  | PInf, _ => false
  | Fin _, PInf => true
  end.

(** [a > b] *)
Definition gt (a b : pyfloat) : bool := lt b a.

(** [a >= b] *)
Definition ge (a b : pyfloat) : bool :=
  match a, b with
  | NaN, _ | _, NaN => false
  | Fin x, Fin y => Qle_bool y x
  | _, NInf => true
  | PInf, _ => true
  | NInf, _ => false
  | Fin _, PInf => false
  end.

(** [int(x)]: truncation toward zero; [ValueError] on nan and
    [OverflowError] on the infinities, both rendered as [None]. *)
Definition to_int (a : pyfloat) : option Z :=
  match a with
  | Fin x => Some (Z.quot (Qnum x) (Zpos (Qden x)))
  | _ => None
  end.

End PyFloat.
Export PyFloat.

(** ** Fixed-point display: the [:.Nf] format specification *)

Module Format.

(** Nearest integer to [a / b] for [0 <= a], [0 < b], ties to even. *)
Definition round_half_even (a b : Z) : Z :=
  let k := a / b in
  let r := a mod b in
  if 2 * r <? b then k
  else if b <? 2 * r then k + 1
  else if Z.even k then k else k + 1.

(** The magnitude of [q], in units of [10^-n], as displayed. *)
Definition fixed_units (n : nat) (q : Q) : Z :=
  round_half_even (Z.abs (Qnum q) * 10 ^ Z.of_nat n) (Zpos (Qden q)).

Definition decimal (z : Z) : string :=
  NilZero.string_of_uint (N.to_uint (Z.to_N z)).

Fixpoint zeros (n : nat) : string :=
  match n with
  | O => ""
  | S n' => String "0" (zeros n')
  end.

(** [z] written with at least [n] digits. *)
Definition padded (n : nat) (z : Z) : string :=
  let d := decimal z in
  zeros (n - String.length d)%nat ++ d.

Definition format_fixed_Q (n : nat) (q : Q) : string :=
  let u := fixed_units n q in
  let p := 10 ^ Z.of_nat n in
  (if Qnum q <? 0 then "-" else "") ++
  decimal (u / p) ++
  match n with
  | O => ""
  | _ => "." ++ padded n (u mod p)
  end.

(** [format(x, ".Nf")] *)
Definition format_fixed (n : nat) (x : pyfloat) : string :=
  match x with
  | Fin q => format_fixed_Q n q
  | PInf => "inf"
  | NInf => "-inf"
  | NaN => "nan"
  end.

End Format.
Export Format.

(** ** IEEE doubles

    The double nearest to a rational, ties to the even mantissa: what a
    quotient, a difference or the conversion of an integer gives in the
    interpreter.  The sign of a zero is not modelled. *)

Module Double.

(** The largest [k] with [2^k <= n / d], for positive [n] and [d]. *)
Definition floor_log2 (n d : Z) : Z :=
  let k := Z.log2 n - Z.log2 d in
  if 0 <=? k
  then (if d * 2 ^ k <=? n then k else k - 1)
  else (if d <=? n * 2 ^ (- k) then k else k - 1).

(** The exponent of the last of the 53 bits of the mantissa, not below
    that of the subnormal numbers. *)
Definition exponent (n d : Z) : Z := Z.max (floor_log2 n d - 52) (-1074).

(** The integer nearest to [(n / d) / 2^e], ties to even. *)
Definition mantissa (n d e : Z) : Z :=
  if 0 <=? e then round_half_even n (d * 2 ^ e)
  else round_half_even (n * 2 ^ (- e)) d.

(** The double nearest to [q]: an infinity from [2^1024 - 2^970] on. *)
Definition nearest (q : Q) : pyfloat :=
  let n := Z.abs (Qnum (Qred q)) in
  let d := Zpos (Qden (Qred q)) in
  if n =? 0 then Fin 0
  else
    let e := exponent n d in
    let v := (inject_Z (mantissa n d e) * 2 ^ e)%Q in
    if Qle_bool (2 ^ 1024) v
    then (if Qnum (Qred q) <? 0 then NInf else PInf)
    else Fin (Qred (if Qnum (Qred q) <? 0 then - v else v)).

End Double.


(** ** The [str] methods the plugin uses *)

Module PyStr.

Definition byte (n : nat) : ascii := ascii_of_nat n.

(** White space in the sense of [str.split()] and [str.strip()]: the code
    points with the Unicode White_Space property or bidirectional class
    B, S or WS, as UTF-8 byte sequences. *)
Definition whitespace : list string :=
  map (fun bs => string_of_list_ascii (map byte bs))
    [ [9]; [10]; [11]; [12]; [13]; [28]; [29]; [30]; [31]; [32];
      [194; 133]; [194; 160]; [225; 154; 128];
      [226; 128; 128]; [226; 128; 129]; [226; 128; 130]; [226; 128; 131];
      [226; 128; 132]; [226; 128; 133]; [226; 128; 134]; [226; 128; 135];
      [226; 128; 136]; [226; 128; 137]; [226; 128; 138];
      [226; 128; 168]; [226; 128; 169]; [226; 128; 175];
      [226; 129; 159]; [227; 128; 128] ]%nat.

Fixpoint drop_prefix (p s : string) : option string :=
  match p, s with
  | EmptyString, _ => Some s
  | String a p', String b s' =>
      if Ascii.eqb a b then drop_prefix p' s' else None
  | String _ _, EmptyString => None
  end.

(** [s.startswith(p)] *)
Definition startswith (s p : string) : bool :=
  match drop_prefix p s with
  | Some _ => true
  | None => false
  end.

(** The number of bytes of the white-space character [s] starts with. *)
Definition space_width (s : string) : option nat :=
  match filter (fun p => startswith s p) whitespace with
  | p :: _ => Some (String.length p)
  | [] => None
  end.

Definition flush (cur : string) (acc : list string) : list string :=
  match cur with
  | EmptyString => acc
  | _ => acc ++ [cur]
  end.

(** [skip] counts the bytes still to pass of a white-space character. *)
Fixpoint split_from (skip : nat) (cur : string) (acc : list string)
    (s : string) : list string :=
  match s with
  | EmptyString => flush cur acc
  | String c s' =>
      match skip with
      | S k => split_from k cur acc s'
      | O =>
          match space_width s with
          | Some w => split_from (pred w) "" (flush cur acc) s'
          | None => split_from O (cur ++ String c "") acc s'
          end
      end
  end.

(** [s.split()] *)
Definition split (s : string) : list string := split_from O "" [] s.

(** [pending] holds the white space seen since the last other byte. *)
Fixpoint strip_from (skip : nat) (started : bool) (pending acc : string)
    (s : string) : string :=
  match s with
  | EmptyString => acc
  | String c s' =>
      let space k :=
        strip_from k started (if started then pending ++ String c "" else "")
          acc s' in
      match skip with
      | S k => space k
      | O =>
          match space_width s with
          | Some w => space (pred w)
          | None => strip_from O true "" (acc ++ pending ++ String c "") s'
          end
      end
  end.

(** [s.strip()] *)
Definition strip (s : string) : string := strip_from O false "" "" s.

Definition lower_ascii (c : ascii) : ascii :=
  let n := nat_of_ascii c in
  if andb (65 <=? n)%nat (n <=? 90)%nat then ascii_of_nat (n + 32) else c.

(** [s.lower()], on the ASCII letters.  Lowering the other characters
    yields no final [h], no digit and none of the words [float()] reads, so
    the tests made on the result are not affected. *)
Fixpoint lower (s : string) : string :=
  match s with
  | EmptyString => EmptyString
  | String c s' => String (lower_ascii c) (lower s')
  end.

(** [s.endswith(c)] for a one-character [c]. *)
Fixpoint endswith (s : string) (c : ascii) : bool :=
  match s with
  | EmptyString => false
  | String a EmptyString => Ascii.eqb a c
  | String _ s' => endswith s' c
  end.

(** [s[:-1]] *)
Fixpoint drop_last (s : string) : string :=
  match s with
  | EmptyString => EmptyString
  | String _ EmptyString => EmptyString
  | String a s' => String a (drop_last s')
  end.

(** Truth value of a string: non-empty. *)
Definition truthy (s : string) : bool :=
  match s with
  | EmptyString => false
  | _ => true
  end.

(** *** [float(s)]

    The grammar of [float()] on ASCII text without surrounding white
    space: an optional sign, then [inf], [infinity] or [nan] in any case, or
    a decimal number with optional fraction and exponent, where single
    underscores may separate digits.  (Digits of other scripts, which
    [float()] also reads, are not recognised.) *)

Definition digit_val (c : ascii) : option Z :=
  let n := nat_of_ascii c in
  if andb (48 <=? n)%nat (n <=? 57)%nat then Some (Z.of_nat (n - 48)) else None.

Fixpoint digits_loop (acc : Z) (n : nat) (s : list ascii)
    : Z * nat * list ascii :=
  match s with
  | [] => (acc, n, [])
  | c :: s' =>
      match digit_val c with
      | Some d => digits_loop (acc * 10 + d) (S n) s'
      | None =>
          if Ascii.eqb c "_" then
            match s' with
            | c2 :: s'' =>
                match digit_val c2 with
                | Some d => digits_loop (acc * 10 + d) (S n) s''
                | None => (acc, n, s)
                end
            | [] => (acc, n, s)
            end
          else (acc, n, s)
      end
  end.

(** A run of digits: its value, the number of digits, the rest. *)
Definition digitpart (s : list ascii) : option (Z * nat * list ascii) :=
  match s with
  | c :: s' =>
      match digit_val c with
      | Some d => Some (digits_loop d 1 s')
      | None => None
      end
  | [] => None
  end.

Definition sign_of (s : list ascii) : bool * list ascii :=
  match s with
  | c :: s' =>
      if Ascii.eqb c "-" then (true, s')
      else if Ascii.eqb c "+" then (false, s')
      else (false, s)
  | [] => (false, [])
  end.

(** Mantissa as [(m, n, rest)]: the number read is [m * 10^-n]. *)
Definition mantissa (s : list ascii) : option (Z * nat * list ascii) :=
  match digitpart s with
  | Some (i, _, rest) =>
      match rest with
      | c :: rest' =>
          if Ascii.eqb c "." then
            match digitpart rest' with
            | Some (f, n, rest'') => Some (i * 10 ^ Z.of_nat n + f, n, rest'')
            | None => Some (i, O, rest')
            end
          else Some (i, O, rest)
      | [] => Some (i, O, [])
      end
  | None =>
      match s with
      | c :: rest' =>
          if Ascii.eqb c "." then
            match digitpart rest' with
            | Some (f, n, rest'') => Some (f, n, rest'')
            | None => None
            end
          else None
      | [] => None
      end
  end.

(** Exponent: [Some 0] when there is none, [None] when it is malformed or
    followed by anything. *)
Definition exponent (s : list ascii) : option Z :=
  match s with
  | [] => Some 0
  | c :: s' =>
      if Ascii.eqb (lower_ascii c) "e" then
        let '(neg, s'') := sign_of s' in
        match digitpart s'' with
        | Some (e, _, []) => Some (if neg then - e else e)
        | _ => None
        end
      else None
  end.

(** [m * 10^e] *)
Definition decimal_value (m e : Z) : Q :=
  if 0 <=? e then inject_Z (m * 10 ^ e)
  else Qred (m # Z.to_pos (10 ^ (- e))).

(** [float(s)]; [None] stands for [ValueError]. *)
Definition parse_float (s : string) : option pyfloat :=
  let '(neg, body) := sign_of (list_ascii_of_string s) in
  let word := lower (string_of_list_ascii body) in
  if orb (String.eqb word "inf") (String.eqb word "infinity")
  then Some (if neg then NInf else PInf)
  else if String.eqb word "nan" then Some NaN
  else
    match mantissa body with
    | Some (m, n, rest) =>
        match exponent rest with
        | Some e =>
            Some (Fin (decimal_value (if neg then - m else m) (e - Z.of_nat n)))
        | None => None
        end
    | None => None
    end.

End PyStr.

(** ** Data model *)

(** The persisted plugin configuration, a dict: a key may be missing. *)
Record Config := {
  auto_session_warning_enabled : option bool;
  auto_session_warning_threshold : option pyfloat;
  auto_session_warning_target : option string;
  cfg_api_host : option string;
  cfg_api_port : option Z;
  cfg_api_path_prefix : option string;
  cfg_session_duration_hours : option pyfloat;
  cfg_check_interval_hours : option pyfloat
}.

(** [dict.get(key, default)] *)
Definition get {A} (v : option A) (default : A) : A :=
  match v with
  | Some a => a
  | None => default
  end.

(** The instance attributes of [AutoSessionWarningPlugin]. *)
Record Plugin := {
  config : Config;
  warning_enabled : bool;
  warning_threshold : pyfloat;
  warning_target : string;
  api_host : string;
  api_port : Z;
  api_path_prefix : string;
  session_duration_hours : pyfloat;
  check_interval_hours : pyfloat;
  is_running : bool;
  background_thread : bool;        (* a thread object is held *)
  last_warning_time : Q;
  current_wxid : string;
  current_device_id : string
}.

Definition set_config (c : Config) (p : Plugin) : Plugin :=
  {| config := c; warning_enabled := warning_enabled p;
     warning_threshold := warning_threshold p;
     warning_target := warning_target p; api_host := api_host p;
     api_port := api_port p; api_path_prefix := api_path_prefix p;
     session_duration_hours := session_duration_hours p;
     check_interval_hours := check_interval_hours p;
     is_running := is_running p; background_thread := background_thread p;
     last_warning_time := last_warning_time p;
     current_wxid := current_wxid p;
     current_device_id := current_device_id p |}.

Definition set_warning_enabled (b : bool) (p : Plugin) : Plugin :=
  {| config := config p; warning_enabled := b;
     warning_threshold := warning_threshold p;
     warning_target := warning_target p; api_host := api_host p;
     api_port := api_port p; api_path_prefix := api_path_prefix p;
     session_duration_hours := session_duration_hours p;
     check_interval_hours := check_interval_hours p;
     is_running := is_running p; background_thread := background_thread p;
     last_warning_time := last_warning_time p;
     current_wxid := current_wxid p;
     current_device_id := current_device_id p |}.

Definition set_warning_threshold (x : pyfloat) (p : Plugin) : Plugin :=
  {| config := config p; warning_enabled := warning_enabled p;
     warning_threshold := x;
     warning_target := warning_target p; api_host := api_host p;
     api_port := api_port p; api_path_prefix := api_path_prefix p;
     session_duration_hours := session_duration_hours p;
     check_interval_hours := check_interval_hours p;
     is_running := is_running p; background_thread := background_thread p;
     last_warning_time := last_warning_time p;
     current_wxid := current_wxid p;
     current_device_id := current_device_id p |}.

Definition set_warning_target (t : string) (p : Plugin) : Plugin :=
  {| config := config p; warning_enabled := warning_enabled p;
     warning_threshold := warning_threshold p;
     warning_target := t; api_host := api_host p;
     api_port := api_port p; api_path_prefix := api_path_prefix p;
     session_duration_hours := session_duration_hours p;
     check_interval_hours := check_interval_hours p;
     is_running := is_running p; background_thread := background_thread p;
     last_warning_time := last_warning_time p;
     current_wxid := current_wxid p;
     current_device_id := current_device_id p |}.

Definition set_is_running (b : bool) (p : Plugin) : Plugin :=
  {| config := config p; warning_enabled := warning_enabled p;
     warning_threshold := warning_threshold p;
     warning_target := warning_target p; api_host := api_host p;
     api_port := api_port p; api_path_prefix := api_path_prefix p;
     session_duration_hours := session_duration_hours p;
     check_interval_hours := check_interval_hours p;
     is_running := b; background_thread := background_thread p;
     last_warning_time := last_warning_time p;
     current_wxid := current_wxid p;
     current_device_id := current_device_id p |}.

Definition set_background_thread (b : bool) (p : Plugin) : Plugin :=
  {| config := config p; warning_enabled := warning_enabled p;
     warning_threshold := warning_threshold p;
     warning_target := warning_target p; api_host := api_host p;
     api_port := api_port p; api_path_prefix := api_path_prefix p;
     session_duration_hours := session_duration_hours p;
     check_interval_hours := check_interval_hours p;
     is_running := is_running p; background_thread := b;
     last_warning_time := last_warning_time p;
     current_wxid := current_wxid p;
     current_device_id := current_device_id p |}.

Definition set_last_warning_time (t : Q) (p : Plugin) : Plugin :=
  {| config := config p; warning_enabled := warning_enabled p;
     warning_threshold := warning_threshold p;
     warning_target := warning_target p; api_host := api_host p;
     api_port := api_port p; api_path_prefix := api_path_prefix p;
     session_duration_hours := session_duration_hours p;
     check_interval_hours := check_interval_hours p;
     is_running := is_running p; background_thread := background_thread p;
     last_warning_time := t;
     current_wxid := current_wxid p;
     current_device_id := current_device_id p |}.

Definition set_login_info (wxid device_id : string) (p : Plugin) : Plugin :=
  {| config := config p; warning_enabled := warning_enabled p;
     warning_threshold := warning_threshold p;
     warning_target := warning_target p; api_host := api_host p;
     api_port := api_port p; api_path_prefix := api_path_prefix p;
     session_duration_hours := session_duration_hours p;
     check_interval_hours := check_interval_hours p;
     is_running := is_running p; background_thread := background_thread p;
     last_warning_time := last_warning_time p;
     current_wxid := wxid;
     current_device_id := device_id |}.

(** The exceptions that occur, by class. *)
Inductive exn :=
| TypeError | ValueError | OverflowError | AttributeError
| OSError | JSONDecodeError | ClientError | RuntimeError.

(** One field of an f-string: literal text (or a string variable), a float
    with a [.Nf] specification, a float without one (its [repr]), or the
    text of an exception. *)
Inductive piece :=
| Lit (s : string)
| Fixed (n : nat) (x : pyfloat)
| Repr (x : pyfloat)
| StrExn (e : exn).

(** An f-string. *)
Definition text := list piece.

(** The text as sent, when all its fields are literal or fixed-point
    ([repr] of a float and exception texts are not modelled). *)
Fixpoint render (t : text) : option string :=
  match t with
  | [] => Some ""
  | p :: t' =>
      match render t' with
      | None => None
      | Some rest =>
          match p with
          | Lit s => Some (s ++ rest)
          | Fixed n x => Some (format_fixed n x ++ rest)
          | Repr _ | StrExn _ => None
          end
      end
  end.

(** The [.Nf] specifications that occur in a text. *)
Definition decimals (t : text) : list nat :=
  flat_map (fun p => match p with Fixed n _ => [n] | _ => [] end) t.

(** [Reply] of the host framework; the plugin only makes text replies. *)
Inductive ReplyType := TEXT.

Record Reply := {
  reply_type : ReplyType;
  content : text
}.

Definition text_reply (t : text) : Reply := {| reply_type := TEXT; content := t |}.

(** The external state files, read-only to the plugin. *)
Inductive state_file :=
| wx849_device_info
| login_stat_Client
| login_stat_Client2
| login_stat_Client3.

(** The value under ["login_time"]: a JSON number ([true] and [false]
    read as 1 and 0), or anything else. *)
Inductive json_time :=
| Number (x : pyfloat)
| NotNumber.

(** The object a state file holds.  A key may be missing; [wxid] and
    [device_id] are strings (a null reads as the empty string, which it
    equals in every test the plugin makes). *)
Record login_record := {
  wxid : option string;
  device_id : option string;
  login_time : option json_time
}.

(** A file is not there, cannot be opened or parsed as a JSON object, or
    holds a record. *)
Inductive file :=
| Absent
| Unreadable (e : exn)
| Parsed (d : login_record).

(** HTTP: the request raises (refused, timed out), or a response comes
    with a status and a body that [json()] rejects or reads. *)
Inductive body (A : Type) :=
| BadBody (e : exn)
| Json (a : A).
Arguments BadBody {A} e.
Arguments Json {A} a.

Inductive http (A : Type) :=
| NoResponse (e : exn)
| Response (status : Z) (b : body A).
Arguments NoResponse {A} e.
Arguments Response {A} status b.

(** [{Success, Data: {QrUrl, Uuid}}], missing keys read with their
    defaults. *)
Record qr_data := {
  Success : bool;
  QrUrl : string;
  Uuid : string
}.

(** The message object handed to the test command. *)
Record ChatMessage := {
  from_user_id : option string;
  sender_wxid : option string
}.

(** What becomes of the scratch file of the QR image: the directory or the
    file cannot be opened; or the file is opened, and with that created,
    but writing the image into it fails; or the image is written. *)
Inductive scratch_outcome := OpenFails | WriteFails | Written.

(** What the outside answers during one handler call or one iteration of
    the polling loop. *)
Record Env := {
  state_files : state_file -> file;
  timestamp_max : Q;             (* largest timestamp [datetime] can hold *)
  datetime_now : Q;              (* [datetime.now()] *)
  time_at_check : Q;             (* [time.time()] in [_should_send_warning] *)
  time_at_download : Q;          (* [time.time()] in [_download_qr_image] *)
  time_at_fire : Q;              (* [time.time()] in [_send_auto_warning] *)
  save_config_ok : bool;
  thread_alive : bool;
  asyncio_run_ok : bool;
  random_md5 : string;           (* [hashlib.md5(s.encode()).hexdigest()] of
                                    the random letters [s] *)
  random_names : nat * nat;      (* the two draws of [random.choice] *)
  reply_SendTxt : http bool;
  reply_GetQR : http qr_data;
  reply_QrImage : http unit;
  scratch_file : scratch_outcome;
  reply_UploadImg : http bool;
  remove_ok : bool;
  stop_at_tick : option nat;     (* [is_running] is cleared by another thread
                                    before that check of the waiting loop *)
  stop_in_backoff : bool         (* ... or during the 60 second backoff *)
}.

(** The scratch file can be opened and the image written into it. *)
Definition scratch_writable (env : Env) : bool :=
  match scratch_file env with
  | Written => true
  | _ => false
  end.

Inductive level := DEBUG | INFO | WARNING | ERROR.

Inductive thread :=
| BackgroundLoop
| QrAfterDelay (to_wxid : string).

(** What the plugin does to the outside. *)
Inductive event :=
| Log (l : level) (msg : string)
| SaveConfig (c : Config)
| ThreadStart (t : thread)
| ThreadJoin (timeout : Z)
| Sleep (seconds : Z)
| PostSendTxt (from to_wxid : string) (t : text)
| PostGetQR (device_name device_id : string)
| GetImage (url : string)
| FileWrite (path : string)
| PostUploadImg (to_wxid path from : string)
| FileRemove (path : string).

Record World := {
  self : Plugin;
  config_store : option Config;    (* what [save_config] last wrote *)
  scratch : list string;           (* the files of the scratch directory *)
  events : list event              (* oldest first *)
}.

(** ** A monad for state, effects and exceptions

    A raised exception keeps the state reached so far, as in Python. *)

Inductive result (A : Type) :=
| Return (a : A)
| Raise (e : exn).
Arguments Return {A} a.
Arguments Raise {A} e.

Definition M (A : Type) : Type := World -> result A * World.

Definition ret {A} (a : A) : M A := fun w => (Return a, w).

Definition raise {A} (e : exn) : M A := fun w => (Raise e, w).

Definition bind {A B} (m : M A) (k : A -> M B) : M B :=
  fun w =>
    match m w with
    | (Return a, w') => k a w'
    | (Raise e, w') => (Raise e, w')
    end.

(** [try: m except Exception as e: h e] *)
Definition try_except {A} (m : M A) (h : exn -> M A) : M A :=
  fun w =>
    match m w with
    | (Return a, w') => (Return a, w')
    | (Raise e, w') => h e w'
    end.

Declare Scope py_scope.
Delimit Scope py_scope with py.
Notation "x <- m ;; k" := (bind m (fun x => k))
  (at level 61, m at next level, right associativity) : py_scope.
Notation "m ;; k" := (bind m (fun _ => k))
  (at level 61, right associativity) : py_scope.
Local Open Scope py_scope.

Definition get_self : M Plugin := fun w => (Return (self w), w).

Definition modify_self (f : Plugin -> Plugin) : M unit :=
  fun w => (Return tt,
            {| self := f (self w); config_store := config_store w;
               scratch := scratch w; events := events w |}).

Definition emit (e : event) : M unit :=
  fun w => (Return tt,
            {| self := self w; config_store := config_store w;
               scratch := scratch w; events := events w ++ [e] |}).

Definition logger (l : level) (msg : string) : M unit := emit (Log l msg).

Definition store_config (c : Config) : M unit :=
  fun w => (Return tt,
            {| self := self w; config_store := Some c;
               scratch := scratch w; events := events w |}).

Definition get_scratch : M (list string) := fun w => (Return (scratch w), w).

Definition set_scratch (l : list string) : M unit :=
  fun w => (Return tt,
            {| self := self w; config_store := config_store w;
               scratch := l; events := events w |}).

(** [if c: m] *)
Definition when (c : bool) (m : M unit) : M unit := if c then m else ret tt.

(** ** The plugin *)

Definition _load_default_config : Config :=
  {| auto_session_warning_enabled := Some true;
     auto_session_warning_threshold := Some (Fin 2);
     auto_session_warning_target := Some "";
     cfg_api_host := Some "127.0.0.1";
     cfg_api_port := Some 9000;
     cfg_api_path_prefix := Some "/VXAPI";
     cfg_session_duration_hours := Some (Fin 72);
     cfg_check_interval_hours := Some (Fin 2) |}.

(** [save_config] of the host framework. *)
Definition save_config (env : Env) (c : Config) : M unit :=
  emit (SaveConfig c) ;;
  if save_config_ok env then store_config c else raise OSError.

Definition _start_background_check : M unit :=
  s <- get_self ;;
  if is_running s then ret tt
  else
    modify_self (set_is_running true) ;;
    modify_self (set_background_thread true) ;;
    emit (ThreadStart BackgroundLoop) ;;
    logger INFO "后台预警检查已启动".

Definition _stop_background_check (env : Env) : M unit :=
  modify_self (set_is_running false) ;;
  s <- get_self ;;
  when (background_thread s && thread_alive env) (emit (ThreadJoin 5)) ;;
  logger INFO "后台预警检查已停止".

(** A dict without keys is false. *)
Definition config_truthy (c : option Config) : bool :=
  match c with
  | None => false
  | Some c =>
      match auto_session_warning_enabled c, auto_session_warning_threshold c,
            auto_session_warning_target c, cfg_api_host c, cfg_api_port c,
            cfg_api_path_prefix c, cfg_session_duration_hours c,
            cfg_check_interval_hours c with
      | None, None, None, None, None, None, None, None => false
      | _, _, _, _, _, _, _, _ => true
      end
  end.

(** The attributes as [__init__] sets them from the configuration. *)
Definition attributes (c : Config) : Plugin :=
  {| config := c;
     warning_enabled := get (auto_session_warning_enabled c) true;
     warning_threshold := get (auto_session_warning_threshold c) (Fin 2);
     warning_target := get (auto_session_warning_target c) "";
     api_host := get (cfg_api_host c) "127.0.0.1";
     api_port := get (cfg_api_port c) 9000;
     api_path_prefix := get (cfg_api_path_prefix c) "/VXAPI";
     session_duration_hours := get (cfg_session_duration_hours c) (Fin 72);
     check_interval_hours := get (cfg_check_interval_hours c) (Fin 2);
     is_running := false;
     background_thread := false;
     last_warning_time := 0;
     current_wxid := "";
     current_device_id := "" |}.

(** [load_config] of the host framework reads the configuration store. *)
Definition load_config : M (option Config) :=
  fun w => (Return (config_store w), w).

(** [config = load_config(); if not config: config = _load_default_config()] *)
Definition config_or_default (loaded : option Config) : Config :=
  match loaded with
  | Some c => if config_truthy loaded then c else _load_default_config
  | None => _load_default_config
  end.

Definition __init__ : M unit :=
  loaded <- load_config ;;
  let c := config_or_default loaded in
  modify_self (fun _ => attributes c) ;;
  s <- get_self ;;
  when (warning_enabled s) _start_background_check ;;
  logger INFO "插件初始化完成".

Definition reload (env : Env) : M unit :=
  _stop_background_check env ;;
  loaded <- load_config ;;
  let c := config_or_default loaded in
  modify_self (set_config c) ;;
  modify_self
    (set_warning_enabled (get (auto_session_warning_enabled c) true)) ;;
  modify_self
    (set_warning_threshold (get (auto_session_warning_threshold c) (Fin 2))) ;;
  modify_self (set_warning_target (get (auto_session_warning_target c) "")) ;;
  s <- get_self ;;
  when (warning_enabled s) _start_background_check ;;
  logger INFO "插件已重新加载".

(** *** Reading the external state *)

Definition _load_current_login_info (env : Env) : M unit :=
  try_except
    (match state_files env wx849_device_info with
     | Parsed d =>
         modify_self (set_login_info (get (wxid d) "") (get (device_id d) "")) ;;
         logger DEBUG "已加载登录信息"
     | Unreadable e => raise e
     | Absent => logger WARNING "设备信息文件不存在"
     end)
    (fun _ => logger ERROR "加载登录信息失败").

(** [datetime.fromtimestamp] *)
Definition fromtimestamp (env : Env) (x : pyfloat) : M Q :=
  match x with
  | Fin q => if Qle_bool q (timestamp_max env) then ret q else raise ValueError
  | NaN => raise ValueError
  | PInf | NInf => raise OverflowError
  end.

(** The login time one state file gives: the body of
    [if os.path.exists(path): ...]. *)
Definition read_login_time (env : Env) (f : state_file) (msg : string)
    : M (option Q) :=
  match state_files env f with
  | Absent => ret None
  | Unreadable e => raise e
  | Parsed d =>
      match get (login_time d) (Number (Fin 0)) with
      | NotNumber => raise TypeError
      | Number x =>
          if gt x (Fin 0) then
            t <- fromtimestamp env x ;;
            logger DEBUG msg ;;
            ret (Some t)
          else ret None
      end
  end.

Definition possible_paths : list state_file :=
  [login_stat_Client; login_stat_Client2; login_stat_Client3].

(** [for path in possible_paths: ...] *)
Fixpoint first_login_time (env : Env) (paths : list state_file)
    : M (option Q) :=
  match paths with
  | [] => ret None
  | path :: rest =>
      r <- read_login_time env path "从备用路径获取登录时间" ;;
      match r with
      | Some t => ret (Some t)
      | None => first_login_time env rest
      end
  end.

Definition _get_real_login_time (env : Env) : M (option Q) :=
  try_except
    (r <- read_login_time env wx849_device_info "获取到登录时间" ;;
     match r with
     | Some t => ret (Some t)
     | None =>
         r <- first_login_time env possible_paths ;;
         match r with
         | Some t => ret (Some t)
         | None => logger WARNING "无法获取登录时间" ;; ret None
         end
     end)
    (fun _ => logger ERROR "获取登录时间失败" ;; ret None).

(** *** The expiry evaluator *)

(** [(now - login_time).total_seconds() / 3600] *)
Definition online_hours_at (now login_time : Q) : Q :=
  Qred ((now - login_time) / 3600).

(** The same in the interpreter's doubles: [total_seconds()] is the double
    nearest to the seconds between the two datetimes, and its quotient by
    3600 is rounded again. *)
Definition online_hours_double (now login_time : Q) : pyfloat :=
  match Double.nearest (now - login_time) with
  | Fin seconds => Double.nearest (seconds / 3600)
  | other => other
  end.

Definition _should_send_warning (env : Env) : M bool :=
  try_except
    (s <- get_self ;;
     if negb (warning_enabled s) || negb (PyStr.truthy (warning_target s))
     then ret false
     else
       login_time <- _get_real_login_time env ;;
       match login_time with
       | None => ret false
       | Some login_time =>
           let online_hours := online_hours_at (datetime_now env) login_time in
           s <- get_self ;;
           let trigger_hours :=
             sub (session_duration_hours s) (warning_threshold s) in
           if ge (Fin online_hours) trigger_hours then
             let current_time := time_at_check env in
             if Qlt_bool 3600 (current_time - last_warning_time s)
             then ret true
             else ret false
           else ret false
       end)
    (fun _ => logger ERROR "检查预警条件失败" ;; ret false).

(** *** Delivery *)

Definition str_int (z : Z) : string :=
  if z <? 0 then "-" ++ decimal (- z) else decimal z.

Definition exists_file (path : string) : M bool :=
  l <- get_scratch ;;
  ret (existsb (String.eqb path) l).

Definition create_file (path : string) : M unit :=
  l <- get_scratch ;;
  when (negb (existsb (String.eqb path) l)) (set_scratch (l ++ [path])).

Definition remove_file (path : string) : M unit :=
  l <- get_scratch ;;
  set_scratch (filter (fun p => negb (String.eqb path p)) l).

Definition _send_text_message (env : Env) (to_wxid : string) (t : text)
    : M bool :=
  try_except
    (s <- get_self ;;
     when (negb (PyStr.truthy (current_wxid s))) (_load_current_login_info env) ;;
     s <- get_self ;;
     emit (PostSendTxt (current_wxid s) to_wxid t) ;;
     match reply_SendTxt env with
     | NoResponse e => raise e
     | Response status b =>
         if status =? 200 then
           match b with
           | BadBody e => raise e
           | Json success => ret success
           end
         else ret false
     end)
    (fun _ => logger ERROR "发送文本消息失败" ;; ret false).

(** [int(time.time())] *)
Definition int_of_time (t : Q) : Z := Z.quot (Qnum t) (Zpos (Qden t)).

Definition image_path_of (uuid : string) (t : Q) : string :=
  "tmp/qr_" ++ uuid ++ "_" ++ str_int (int_of_time t) ++ ".png".

Definition _download_qr_image (env : Env) (qr_url uuid : string)
    : M (option string) :=
  try_except
    (emit (GetImage qr_url) ;;
     match reply_QrImage env with
     | NoResponse e => raise e
     | Response status b =>
         if status =? 200 then
           let image_path := image_path_of uuid (time_at_download env) in
           (* os.makedirs, open(image_path, "wb") *)
           match scratch_file env with
           | OpenFails => raise OSError
           | _ => create_file image_path
           end ;;
           (* await response.read() *)
           match b with
           | BadBody e => raise e
           | Json _ =>
               (* f.write(...) *)
               match scratch_file env with
               | Written =>
                   emit (FileWrite image_path) ;;
                   logger INFO "二维码下载成功" ;;
                   ret (Some image_path)
               | _ => raise OSError
               end
           end
         else ret None
     end)
    (fun _ => logger ERROR "下载二维码图片失败" ;; ret None).

Definition _send_image_message (env : Env) (to_wxid image_path : string)
    : M bool :=
  try_except
    (s <- get_self ;;
     when (negb (PyStr.truthy (current_wxid s))) (_load_current_login_info env) ;;
     present <- exists_file image_path ;;
     if negb present then
       logger ERROR "图片文件不存在" ;; ret false
     else
       s <- get_self ;;
       logger DEBUG "图片上传请求" ;;
       logger DEBUG "图片大小" ;;
       logger DEBUG "参数" ;;
       emit (PostUploadImg to_wxid image_path (current_wxid s)) ;;
       match reply_UploadImg env with
       | NoResponse e => raise e
       | Response status b =>
           if negb (status =? 200) then
             logger ERROR "发送图片HTTP失败" ;; ret false
           else
             match b with
             | BadBody JSONDecodeError =>
                 logger ERROR "图片消息响应解析失败" ;;
                 logger ERROR "响应内容" ;;
                 ret false
             | BadBody e => raise e
             | Json success =>
                 logger DEBUG "图片上传响应" ;;
                 if success then
                   logger INFO "图片消息发送成功" ;; ret true
                 else
                   logger ERROR "图片消息发送失败" ;; ret false
             end
       end)
    (fun _ =>
       logger ERROR "发送图片消息异常" ;;
       logger ERROR "异常详情" ;;
       ret false).

(** The [try: ... except: pass] that cleans up the scratch file. *)
Definition cleanup (env : Env) (qr_image_path : string) : M unit :=
  try_except
    (present <- exists_file qr_image_path ;;
     when present
       (emit (FileRemove qr_image_path) ;;
        if remove_ok env then remove_file qr_image_path else raise OSError))
    (fun _ => ret tt).

Definition _create_device_id (env : Env) : string :=
  let md5_hash := random_md5 env in
  "49" ++ substring 2 (String.length md5_hash - 2) md5_hash.

Definition _create_device_name (env : Env) : string :=
  let first_names := ["Alice"; "Bob"; "Charlie"; "Diana"; "Edward"; "Fiona"] in
  let last_names := ["Smith"; "Johnson"; "Williams"; "Brown"; "Jones"; "Garcia"] in
  nth (fst (random_names env) mod 6) first_names "" ++ " " ++
  nth (snd (random_names env) mod 6) last_names "" ++ "'s iPad".

Definition _send_login_qr_code (env : Env) (to_wxid : string) : M bool :=
  try_except
    (let device_id := _create_device_id env in
     let device_name := _create_device_name env in
     emit (PostGetQR device_name device_id) ;;
     match reply_GetQR env with
     | NoResponse e => raise e
     | Response status b =>
         if negb (status =? 200) then
           logger ERROR "获取二维码HTTP失败" ;; ret false
         else
           match b with
           | BadBody e => raise e
           | Json result =>
               if Success result
                  && (PyStr.truthy (QrUrl result) && PyStr.truthy (Uuid result))
               then
                 qr_image_path <-
                   _download_qr_image env (QrUrl result) (Uuid result) ;;
                 match qr_image_path with
                 | Some qr_image_path =>
                     success <- _send_image_message env to_wxid qr_image_path ;;
                     cleanup env qr_image_path ;;
                     ret success
                 | None => ret false
                 end
               else ret false
           end
     end)
    (fun _ => logger ERROR "发送登录二维码失败" ;; ret false).

Definition _send_qr_code_after_delay (env : Env) (to_wxid : string) : M unit :=
  try_except
    (emit (Sleep 1) ;;
     success <- _send_login_qr_code env to_wxid ;;
     if success then logger INFO "测试二维码发送成功"
     else logger ERROR "测试二维码发送失败")
    (fun _ => logger ERROR "延迟发送二维码失败").

(** [session_duration_hours - online_hours] *)
Definition remaining_hours_of (s : Plugin) (online_hours : Q) : pyfloat :=
  sub (session_duration_hours s) (Fin online_hours).

(** The same in the interpreter's doubles, for a lifetime that is a double
    or an integer below [2^53]: the difference is rounded. *)
Definition remaining_hours_double (session online : pyfloat) : pyfloat :=
  match sub session online with
  | Fin d => Double.nearest d
  | other => other
  end.

Definition auto_warning_text (online_hours : Q) (remaining_hours : pyfloat)
    : text :=
  [ Lit "⚠️ 登录状态预警

";
    Lit "您已持续在线超过"; Fixed 1 (Fin online_hours); Lit "小时，";
    Lit "预计"; Fixed 1 remaining_hours; Lit "小时内即将掉线。

";
    Lit "为避免服务中断，请手动扫码重新登录！
";
    Lit "稍后将为您发送登录二维码。" ].

Definition _send_auto_warning (env : Env) : M unit :=
  try_except
    (_load_current_login_info env ;;
     login_time <- _get_real_login_time env ;;
     match login_time with
     | None => ret tt
     | Some login_time =>
         let online_hours := online_hours_at (datetime_now env) login_time in
         s <- get_self ;;
         let remaining_hours := remaining_hours_of s online_hours in
         let warning_text := auto_warning_text online_hours remaining_hours in
         text_success <- _send_text_message env (warning_target s) warning_text ;;
         if text_success then
           logger INFO "自动预警文本消息发送成功" ;;
           emit (Sleep 1) ;;
           s <- get_self ;;
           qr_success <- _send_login_qr_code env (warning_target s) ;;
           (if qr_success then logger INFO "自动预警二维码发送成功"
            else logger WARNING "自动预警二维码发送失败") ;;
           modify_self (set_last_warning_time (time_at_fire env))
         else
           logger ERROR "自动预警文本消息发送失败"
     end)
    (fun _ => logger ERROR "发送自动预警失败").

(** *** Command handlers *)

Definition no_login_info : text :=
  [Lit "❌ 无法获取当前登录信息，请确保微信已正常登录。"].

Definition no_login_time : text :=
  [Lit "❌ 无法获取登录时间信息。"].

Definition status_text (online_hours : Q) (remaining_hours : pyfloat) : text :=
  if gt remaining_hours (Fin 0) then
    [ Lit "⚠️ 当前预警状态
";
      Lit "您已持续在线超过"; Fixed 1 (Fin online_hours); Lit "小时，";
      Lit "预计"; Fixed 1 remaining_hours; Lit "小时内即将掉线。" ]
  else
    [ Lit "🔴 当前预警状态
";
      Lit "您已持续在线超过"; Fixed 1 (Fin online_hours); Lit "小时，";
      Lit "session可能已过期，建议立即重新登录！" ].

Definition _handle_status_query (env : Env) : M Reply :=
  try_except
    (_load_current_login_info env ;;
     s <- get_self ;;
     if negb (PyStr.truthy (current_wxid s)) then ret (text_reply no_login_info)
     else
       login_time <- _get_real_login_time env ;;
       match login_time with
       | None => ret (text_reply no_login_time)
       | Some login_time =>
           let online_hours := online_hours_at (datetime_now env) login_time in
           s <- get_self ;;
           let remaining_hours := remaining_hours_of s online_hours in
           ret (text_reply (status_text online_hours remaining_hours))
       end)
    (fun e =>
       logger ERROR "处理状态查询失败" ;;
       ret (text_reply [Lit "❌ 查询预警状态失败: "; StrExn e])).

(** [x or default] *)
Definition or_else (x default : string) : string :=
  if PyStr.truthy x then x else default.

Definition _handle_config_query (env : Env) : M Reply :=
  try_except
    (_load_current_login_info env ;;
     s <- get_self ;;
     ret (text_reply
       [ Lit "📋 配置信息:
";
         Lit "   API服务器: "; Lit (api_host s); Lit ":";
         Lit (str_int (api_port s)); Lit (api_path_prefix s); Lit "
";
         Lit "   登录微信ID: "; Lit (or_else (current_wxid s) "未获取到"); Lit "
";
         Lit "   设备ID: "; Lit (or_else (current_device_id s) "未获取到"); Lit "
";
         Lit "   预警接收者: "; Lit (or_else (warning_target s) "未设置"); Lit "
";
         Lit "   预警状态: ";
         Lit (if warning_enabled s then "已启用" else "已禁用"); Lit "
";
         Lit "   预警阈值: "; Repr (warning_threshold s); Lit "小时" ]))
    (fun e =>
       logger ERROR "处理配置查询失败" ;;
       ret (text_reply [Lit "❌ 查询配置信息失败: "; StrExn e])).

Definition with_enabled (b : bool) (c : Config) : Config :=
  {| auto_session_warning_enabled := Some b;
     auto_session_warning_threshold := auto_session_warning_threshold c;
     auto_session_warning_target := auto_session_warning_target c;
     cfg_api_host := cfg_api_host c; cfg_api_port := cfg_api_port c;
     cfg_api_path_prefix := cfg_api_path_prefix c;
     cfg_session_duration_hours := cfg_session_duration_hours c;
     cfg_check_interval_hours := cfg_check_interval_hours c |}.

Definition with_threshold (x : pyfloat) (c : Config) : Config :=
  {| auto_session_warning_enabled := auto_session_warning_enabled c;
     auto_session_warning_threshold := Some x;
     auto_session_warning_target := auto_session_warning_target c;
     cfg_api_host := cfg_api_host c; cfg_api_port := cfg_api_port c;
     cfg_api_path_prefix := cfg_api_path_prefix c;
     cfg_session_duration_hours := cfg_session_duration_hours c;
     cfg_check_interval_hours := cfg_check_interval_hours c |}.

Definition _handle_enable_warning (env : Env) : M Reply :=
  try_except
    (modify_self (set_warning_enabled true) ;;
     modify_self (fun s => set_config (with_enabled true (config s)) s) ;;
     s <- get_self ;;
     save_config env (config s) ;;
     _start_background_check ;;
     ret (text_reply [Lit "✅ 已启用自动掉线预警功能"]))
    (fun e =>
       logger ERROR "启用预警失败" ;;
       ret (text_reply [Lit "❌ 启用预警失败: "; StrExn e])).

Definition _handle_disable_warning (env : Env) : M Reply :=
  try_except
    (modify_self (set_warning_enabled false) ;;
     modify_self (fun s => set_config (with_enabled false (config s)) s) ;;
     s <- get_self ;;
     save_config env (config s) ;;
     _stop_background_check env ;;
     ret (text_reply [Lit "⛔️ 已禁用自动掉线预警功能"]))
    (fun e =>
       logger ERROR "禁用预警失败" ;;
       ret (text_reply [Lit "❌ 禁用预警失败: "; StrExn e])).

(** The four validation messages of the threshold command. *)
Definition bad_format : text :=
  [Lit "❌ 指令格式错误，请使用：$预警阈值 xh（如：$预警阈值 2h）"].

Definition bad_unit : text :=
  [Lit "❌ 阈值格式错误，请使用小时单位，如：2h"].

Definition not_a_number : text :=
  [Lit "❌ 阈值必须是数字，如：2h"].

Definition out_of_range : text :=
  [Lit "❌ 阈值范围必须在0-72小时之间"].

Definition _handle_threshold_setting (env : Env) (content : string) : M Reply :=
  try_except
    (let parts := PyStr.split content in
     match parts with
     | [_; part1] =>
         let threshold_str := PyStr.lower part1 in
         if negb (PyStr.endswith threshold_str "h") then ret (text_reply bad_unit)
         else
           match PyStr.parse_float (PyStr.drop_last threshold_str) with
           | None => ret (text_reply not_a_number)
           | Some threshold =>
               if lt threshold (Fin 0) || gt threshold (Fin 72)
               then ret (text_reply out_of_range)
               else
                 modify_self (set_warning_threshold threshold) ;;
                 modify_self
                   (fun s => set_config (with_threshold threshold (config s)) s) ;;
                 s <- get_self ;;
                 save_config env (config s) ;;
                 let trigger_hours := sub (Fin 72) threshold in
                 ret (text_reply
                   [ Lit "✅ 已调整预警阈值为"; Repr threshold; Lit "小时，";
                     Lit "当持续在线时长超过"; Repr trigger_hours;
                     Lit "小时时将自动触发预警。" ])
           end
     | _ => ret (text_reply bad_format)
     end)
    (fun e =>
       logger ERROR "设置阈值失败" ;;
       ret (text_reply [Lit "❌ 设置阈值失败: "; StrExn e])).

Definition test_text (online_hours : Q) (remaining_hours : pyfloat) : text :=
  [ Lit "⚠️ 掉线预警测试
";
    Lit "您已持续在线超过"; Fixed 0 (Fin online_hours); Lit "小时，";
    Lit "预计"; Fixed 0 remaining_hours; Lit "小时内即将掉线。
";
    Lit "为避免服务中断，请手动扫码重新登录！";
    Lit "稍后将为您发送登录二维码。" ].

(** [msg.from_user_id if hasattr(msg, 'from_user_id') else msg.sender_wxid],
    when the message has one of the two attributes. *)
Definition sender (msg : ChatMessage) : option string :=
  match from_user_id msg with
  | Some u => Some u
  | None => sender_wxid msg
  end.

Definition target_of (msg : ChatMessage) : M string :=
  match sender msg with
  | Some u => ret u
  | None => raise AttributeError
  end.

Definition _handle_warning_test (env : Env) (msg : ChatMessage) : M Reply :=
  try_except
    (_load_current_login_info env ;;
     s <- get_self ;;
     if negb (PyStr.truthy (current_wxid s)) then ret (text_reply no_login_info)
     else
       login_time <- _get_real_login_time env ;;
       match login_time with
       | None => ret (text_reply no_login_time)
       | Some login_time =>
           let online_hours := online_hours_at (datetime_now env) login_time in
           s <- get_self ;;
           let remaining_hours := remaining_hours_of s online_hours in
           let test_message := test_text online_hours remaining_hours in
           target_wxid <- target_of msg ;;
           emit (ThreadStart (QrAfterDelay target_wxid)) ;;
           ret (text_reply test_message)
       end)
    (fun e =>
       logger ERROR "预警测试失败" ;;
       ret (text_reply [Lit "❌ 预警测试失败: "; StrExn e])).

Inductive ContextType := CT_TEXT | CT_OTHER.

Record EventContext := {
  context_type : ContextType;
  context_content : string;
  context_msg : ChatMessage
}.

(** The reply put into [e_context], if any (with it the action becomes
    [BREAK_PASS]). *)
Definition on_handle_context (env : Env) (e_context : EventContext)
    : M (option Reply) :=
  match context_type e_context with
  | CT_OTHER => ret None
  | CT_TEXT =>
      let content := PyStr.strip (context_content e_context) in
      let msg := context_msg e_context in
      if String.eqb content "$预警状态" then
        reply <- _handle_status_query env ;; ret (Some reply)
      else if String.eqb content "$预警配置" then
        reply <- _handle_config_query env ;; ret (Some reply)
      else if String.eqb content "$预警启用" then
        reply <- _handle_enable_warning env ;; ret (Some reply)
      else if String.eqb content "$预警禁用" then
        reply <- _handle_disable_warning env ;; ret (Some reply)
      else if PyStr.startswith content "$预警阈值" then
        reply <- _handle_threshold_setting env content ;; ret (Some reply)
      else if String.eqb content "$预警测试" then
        reply <- _handle_warning_test env msg ;; ret (Some reply)
      else ret None
  end.

(** *** The polling loop *)

(** [int(x)] *)
Definition int_of (x : pyfloat) : M Z :=
  match x with
  | Fin _ => ret (get (to_int x) 0)
  | NaN => raise ValueError
  | PInf | NInf => raise OverflowError
  end.

(** [asyncio.run(m)] *)
Definition asyncio_run {A} (env : Env) (m : M A) : M A :=
  if asyncio_run_ok env then m else raise RuntimeError.

(** Another thread ([_stop_background_check]) clears the flag. *)
Definition cleared_elsewhere (c : bool) : M unit :=
  when c (modify_self (set_is_running false)).

Definition stops_at (env : Env) (k : nat) : bool :=
  match stop_at_tick env with
  | Some n => Nat.eqb n k
  | None => false
  end.

(** [for _ in range(ticks): if not self.is_running: break; time.sleep(1)],
    from the [k]-th turn on. *)
Fixpoint waiting (env : Env) (ticks k : nat) : M unit :=
  match ticks with
  | O => ret tt
  | S ticks' =>
      cleared_elsewhere (stops_at env k) ;;
      s <- get_self ;;
      if negb (is_running s) then ret tt
      else emit (Sleep 1) ;; waiting env ticks' (S k)
  end.

(** [for _ in range(int(self.check_interval_hours * 3600)): ...] *)
Definition interval_wait (env : Env) : M unit :=
  s <- get_self ;;
  n <- int_of (scale (check_interval_hours s) 3600) ;;
  waiting env (Z.to_nat n) O.

(** The [try] block of one iteration. *)
Definition iteration_body (env : Env) : M unit :=
  due <- _should_send_warning env ;;
  when due (asyncio_run env (_send_auto_warning env)) ;;
  interval_wait env.

(** The [except Exception] block. *)
Definition backoff (env : Env) (e : exn) : M unit :=
  logger ERROR "后台检查循环异常" ;;
  emit (Sleep 60) ;;
  cleared_elsewhere (stop_in_backoff env).

(** One turn of [while self.is_running]. *)
Definition iteration (env : Env) : M unit :=
  try_except (iteration_body env) (backoff env).

Inductive loop_end :=
| Exited          (* the loop condition was found false *)
| StillRunning.   (* the loop goes on, beyond the turns described *)

(** [while self.is_running: ...], one [Env] for each turn. *)
Fixpoint while_running (envs : list Env) : M loop_end :=
  s <- get_self ;;
  if negb (is_running s) then ret Exited
  else
    match envs with
    | [] => ret StillRunning
    | env :: rest => iteration env ;; while_running rest
    end.

Definition _background_check_loop (envs : list Env) : M loop_end :=
  logger INFO "后台预警检查线程已启动" ;;
  while_running envs.

(** ** Notions used in the statements *)

(** [w] with the events [evs] added. *)
Definition log_to (evs : list event) (w : World) : World :=
  {| self := self w; config_store := config_store w;
     scratch := scratch w; events := events w ++ evs |}.

(** [m] leaves what [view] shows of the world as it was. *)
Definition keeps {A V : Type} (view : World -> V) (m : M A) : Prop :=
  forall w, view (snd (m w)) = view w.

(** No exception leaves [m]. *)
Definition total {A : Type} (m : M A) : Prop :=
  forall w, exists a w', m w = (Return a, w').

(** [m] reads nothing of the world and only adds events to it. *)
Definition logs_only {A : Type} (m : M A) : Prop :=
  exists r evs, forall w, m w = (r, log_to evs w).

(** The state files give the login time [t]. *)
Definition login_time_known (env : Env) (t : Q) : Prop :=
  forall w, fst (_get_real_login_time env w) = Return (Some t).

(** No login time can be had from the state files. *)
Definition login_time_unknown (env : Env) : Prop :=
  forall w, fst (_get_real_login_time env w) = Return None.

(** [online_hours >= session_duration_hours - warning_threshold] *)
Definition reaches_trigger (s : Plugin) (online_hours : Q) : Prop :=
  ge (Fin online_hours)
     (sub (session_duration_hours s) (warning_threshold s)) = true.

(** More than an hour has passed since the last warning. *)
Definition cooled_down (env : Env) (s : Plugin) : Prop :=
  (3600 < time_at_check env - last_warning_time s)%Q.

(** The evaluator says the warning is due. *)
Definition due (env : Env) (w : World) : Prop :=
  fst (_should_send_warning env w) = Return true.

(** [w] with [self] changed by [f]. *)
Definition with_self (f : Plugin -> Plugin) (w : World) : World :=
  {| self := f (self w); config_store := config_store w;
     scratch := scratch w; events := events w |}.

(** The identity the plugin holds once [_load_current_login_info] has run:
    that of the device file, or the cached one when the file cannot be
    read. *)
Definition identity (env : Env) (w : World) : string :=
  match state_files env wx849_device_info with
  | Parsed d => get (wxid d) ""
  | _ => current_wxid (self w)
  end.

(** The settings of the evaluator. *)
Definition settings (w : World) : bool * pyfloat * string * pyfloat * pyfloat :=
  (warning_enabled (self w), warning_threshold (self w),
   warning_target (self w), session_duration_hours (self w),
   check_interval_hours (self w)).

(** The texts handed to [SendTxt] so far. *)
Definition texts_sent (w : World) : list text :=
  flat_map (fun e => match e with PostSendTxt _ _ t => [t] | _ => [] end)
    (events w).

(** The deletions of scratch files attempted so far. *)
Definition removals (w : World) : list event :=
  filter (fun e => match e with FileRemove _ => true | _ => false end)
    (events w).

(** The scratch files written so far. *)
Definition writes (w : World) : list event :=
  filter (fun e => match e with FileWrite _ => true | _ => false end)
    (events w).

(** The line the automatic workflow logs when its text message has gone
    through: the workflow has fired. *)
Definition fire_event : event := Log INFO "自动预警文本消息发送成功".

Definition is_fire (e : event) : bool :=
  match e with
  | Log INFO msg => String.eqb msg "自动预警文本消息发送成功"
  | _ => false
  end.

(** How often the automatic workflow has fired. *)
Definition fires (w : World) : nat :=
  List.length (filter is_fire (events w)).

(** The steps of the QR-image part of the workflow. *)
Definition is_qr_step (e : event) : bool :=
  match e with
  | PostGetQR _ _ | GetImage _ | FileWrite _ | PostUploadImg _ _ _ => true
  | _ => false
  end.

(** The text step of the workflow fails: the request raises, the status is
    not 200, the body is not JSON, or it does not say [Success]. *)
Definition text_fails (env : Env) : bool :=
  match reply_SendTxt env with
  | Response status (Json true) => negb (status =? 200)
  | _ => true
  end.

(** The QR-image steps taken so far. *)
Definition qr_steps (w : World) : list event :=
  filter is_qr_step (events w).

(** What goes on in the process, in some order: turns of the polling
    loop, commands, the thread the test command starts, and reloads of the
    plugin. *)
Inductive action :=
| Turn (env : Env)
| Command (env : Env) (e_context : EventContext)
| QrThread (env : Env) (to_wxid : string)
| Reload (env : Env).

Definition perform (a : action) : M unit :=
  match a with
  | Turn env => iteration env
  | Command env e_context => on_handle_context env e_context ;; ret tt
  | QrThread env to_wxid => _send_qr_code_after_delay env to_wxid
  | Reload env => reload env
  end.

Fixpoint run (acts : list action) : M unit :=
  match acts with
  | [] => ret tt
  | a :: rest => perform a ;; run rest
  end.

(** The evaluation times of the turns among [acts] that fire, the course
    starting in [w]. *)
Fixpoint fired_times (acts : list action) (w : World) : list Q :=
  match acts with
  | [] => []
  | a :: rest =>
      let w1 := snd (perform a w) in
      (match a with
       | Turn env => if Nat.eqb (fires w1) (fires w) then []
                     else [time_at_check env]
       | _ => []
       end ++ fired_times rest w1)%list
  end.

(** [t'] comes more than an hour after [t]. *)
Definition an_hour_apart (t t' : Q) : Prop := (3600 < t' - t)%Q.

(** The times at which the turns among [acts] evaluate the cooldown. *)
Definition check_times (acts : list action) : list Q :=
  flat_map (fun a => match a with Turn env => [time_at_check env] | _ => [] end)
    acts.

(** [time.time()] does not go back within a turn. *)
Definition clock_ok (a : action) : Prop :=
  match a with
  | Turn env => (time_at_check env <= time_at_fire env)%Q
  | _ => True
  end.

(** No state file is there. *)
Definition no_state_files (env : Env) : Prop :=
  forall f, state_files env f = Absent.

(** Nothing clears [is_running] during the turn. *)
Definition undisturbed (env : Env) : bool :=
  match stop_at_tick env with
  | Some _ => false
  | None => negb (stop_in_backoff env)
  end.

(** Between [w] and [w'] the automatic workflow fired once: one text
    message went through and the time was recorded. *)
Definition fired (env : Env) (w w' : World) : Prop :=
  last_warning_time (self w') = time_at_fire env /\
  filter is_fire (events w') = (filter is_fire (events w) ++ [fire_event])%list /\
  is_running (self w') = is_running (self w).

(** What the cooldown depends on, and the flag of the loop. *)
Definition calm (w : World) : bool * Q * list event :=
  (is_running (self w), last_warning_time (self w),
   filter is_fire (events w)).

(** What the cooldown depends on. *)
Definition quiet (w : World) : Q * list event :=
  (last_warning_time (self w), filter is_fire (events w)).

(** The flag of the loop. *)
Definition running (w : World) : bool := is_running (self w).

(** The validation messages, in the order of the checks. *)
Definition validation_messages : list text :=
  [bad_format; bad_unit; not_a_number; out_of_range].

(** *** What a state file has to say about the login time *)

(** The file holds a login time that is positive and that [datetime] can
    hold. *)
Definition offers (env : Env) (f : state_file) (t : Q) : Prop :=
  exists d,
    state_files env f = Parsed d /\
    login_time d = Some (Number (Fin t)) /\
    (0 < t)%Q /\ (t <= timestamp_max env)%Q.

(** The file is not there, or holds no login time, or one that is not above
    zero: the search goes on. *)
Definition silent (env : Env) (f : state_file) : Prop :=
  state_files env f = Absent \/
  exists d,
    state_files env f = Parsed d /\
    (login_time d = None \/
     exists x, login_time d = Some (Number x) /\ gt x (Fin 0) = false).

(** The file cannot be read, or its login time is no number, or a number
    above zero that [datetime] cannot hold: reading it raises. *)
Definition broken (env : Env) (f : state_file) : Prop :=
  (exists e, state_files env f = Unreadable e) \/
  exists d,
    state_files env f = Parsed d /\
    (login_time d = Some NotNumber \/
     login_time d = Some (Number PInf) \/
     exists t, login_time d = Some (Number (Fin t)) /\
               (0 < t)%Q /\ ~ (t <= timestamp_max env)%Q).

(** The files in the order in which [_get_real_login_time] consults them. *)
Definition consulted : list state_file := wx849_device_info :: possible_paths.

(** How many polling threads have been started. *)
Definition loops_started (w : World) : nat :=
  List.length
    (filter (fun e => match e with
                      | ThreadStart BackgroundLoop => true
                      | _ => false
                      end) (events w)).

(** The polling loop is wanted exactly when the warning is enabled. *)
Definition in_step (w : World) : Prop :=
  is_running (self w) = warning_enabled (self w).

(** What has been sent to the backend for delivery: the texts and the steps
    of the QR-image part. *)
Definition sent (w : World) : list text * list event :=
  (texts_sent w, qr_steps w).

(** The two gates of the evaluator that only the configuration opens. *)
Definition gates (w : World) : bool * string :=
  (warning_enabled (self w), warning_target (self w)).

(** The recipients of the QR threads started so far. *)
Definition qr_threads (w : World) : list string :=
  flat_map (fun e => match e with
                     | ThreadStart (QrAfterDelay to) => [to]
                     | _ => []
                     end) (events w).

(** The backend takes the uploaded image. *)
Definition upload_ok (env : Env) : bool :=
  match reply_UploadImg env with
  | Response status (Json success) => (status =? 200) && success
  | _ => false
  end.

(** The image comes and can be written to the scratch directory. *)
Definition download_ok (env : Env) : bool :=
  match reply_QrImage env with
  | Response status (Json _) => (status =? 200) && scratch_writable env
  | _ => false
  end.

(** The backend hands out a QR code with its address and identifier. *)
Definition qr_code_ok (env : Env) : bool :=
  match reply_GetQR env with
  | Response status (Json qr) =>
      (status =? 200) && Success qr &&
      (PyStr.truthy (QrUrl qr) && PyStr.truthy (Uuid qr))
  | _ => false
  end.

(** The requests for a text message made so far. *)
Definition text_requests (w : World) : list event :=
  filter (fun e => match e with PostSendTxt _ _ _ => true | _ => false end)
    (events w).

(** What has left the process for the backend, and the scratch
    directory. *)
Definition outward (w : World) : list text * list event * list string :=
  (texts_sent w, qr_steps w, scratch w).

(** ** Sample inputs *)

Definition device_file (t : Q) : file :=
  Parsed {| wxid := Some "wxid_bot"; device_id := Some "49c0ffee";
            login_time := Some (Number (Fin t)) |}.

(** A device file with login time [login], a backend that accepts every
    request, the clocks at [now] when the turn starts and at [fired] when
    the workflow ends. *)
Definition sample_env (login now fired : Q) : Env :=
  {| state_files := fun f => match f with
                             | wx849_device_info => device_file login
                             | _ => Absent
                             end;
     timestamp_max := 253402300799;
     datetime_now := now;
     time_at_check := now;
     time_at_download := now;
     time_at_fire := fired;
     save_config_ok := true;
     thread_alive := true;
     asyncio_run_ok := true;
     random_md5 := "d41d8cd98f00b204e9800998ecf8427e";
     random_names := (0%nat, 0%nat);
     reply_SendTxt := Response 200 (Json true);
     reply_GetQR := Response 200 (Json {| Success := true;
                                          QrUrl := "http://127.0.0.1/qr.png";
                                          Uuid := "u1" |});
     reply_QrImage := Response 200 (Json tt);
     scratch_file := Written;
     reply_UploadImg := Response 200 (Json true);
     remove_ok := true;
     stop_at_tick := None;
     stop_in_backoff := false |}.

(** The plugin as constructed from the default configuration, with a
    warning target and a last warning at [last]. *)
Definition sample_world (target : string) (last : Q) : World :=
  {| self := set_last_warning_time last
               (set_warning_target target (attributes _load_default_config));
     config_store := None; scratch := []; events := [] |}.

(** A short check interval, so that the loop polls often. *)
Definition polling_every (hours : pyfloat) (w : World) : World :=
  {| self :=
       {| config := config (self w);
          warning_enabled := warning_enabled (self w);
          warning_threshold := warning_threshold (self w);
          warning_target := warning_target (self w);
          api_host := api_host (self w); api_port := api_port (self w);
          api_path_prefix := api_path_prefix (self w);
          session_duration_hours := session_duration_hours (self w);
          check_interval_hours := hours;
          is_running := true; background_thread := true;
          last_warning_time := last_warning_time (self w);
          current_wxid := current_wxid (self w);
          current_device_id := current_device_id (self w) |};
     config_store := config_store w; scratch := scratch w;
     events := events w |}.

(** Two turns 50 minutes apart with a status query and a new threshold in
    between, the session 70 hours old. *)
Definition two_turns : list action :=
  [ Turn (sample_env 1799748000 1800000000 1800000004);
    Command (sample_env 1799748000 1800001000 1800001000)
      {| context_type := CT_TEXT; context_content := "$预警状态";
         context_msg := {| from_user_id := Some "wxid_admin";
                           sender_wxid := None |} |};
    Command (sample_env 1799748000 1800002000 1800002000)
      {| context_type := CT_TEXT; context_content := "$预警阈值 3h";
         context_msg := {| from_user_id := Some "wxid_admin";
                           sender_wxid := None |} |};
    Turn (sample_env 1799748000 1800003000 1800003004) ].

(** The sample backend, except that [SendTxt] answers [reply]. *)
Definition with_SendTxt (reply : http bool) (env : Env) : Env :=
  {| state_files := state_files env; timestamp_max := timestamp_max env;
     datetime_now := datetime_now env; time_at_check := time_at_check env;
     time_at_download := time_at_download env;
     time_at_fire := time_at_fire env;
     save_config_ok := save_config_ok env; thread_alive := thread_alive env;
     asyncio_run_ok := asyncio_run_ok env;
     random_md5 := random_md5 env;
     random_names := random_names env;
     reply_SendTxt := reply;
     reply_GetQR := reply_GetQR env; reply_QrImage := reply_QrImage env;
     scratch_file := scratch_file env;
     reply_UploadImg := reply_UploadImg env; remove_ok := remove_ok env;
     stop_at_tick := stop_at_tick env;
     stop_in_backoff := stop_in_backoff env |}.

(** ... except that [UploadImg] answers [reply]. *)
Definition with_UploadImg (reply : http bool) (env : Env) : Env :=
  {| state_files := state_files env; timestamp_max := timestamp_max env;
     datetime_now := datetime_now env; time_at_check := time_at_check env;
     time_at_download := time_at_download env;
     time_at_fire := time_at_fire env;
     save_config_ok := save_config_ok env; thread_alive := thread_alive env;
     asyncio_run_ok := asyncio_run_ok env;
     random_md5 := random_md5 env;
     random_names := random_names env;
     reply_SendTxt := reply_SendTxt env;
     reply_GetQR := reply_GetQR env; reply_QrImage := reply_QrImage env;
     scratch_file := scratch_file env;
     reply_UploadImg := reply; remove_ok := remove_ok env;
     stop_at_tick := stop_at_tick env;
     stop_in_backoff := stop_in_backoff env |}.

(** The sample inputs, with no state file there. *)
Definition without_state_files (env : Env) : Env :=
  {| state_files := fun _ => Absent; timestamp_max := timestamp_max env;
     datetime_now := datetime_now env; time_at_check := time_at_check env;
     time_at_download := time_at_download env;
     time_at_fire := time_at_fire env;
     save_config_ok := save_config_ok env; thread_alive := thread_alive env;
     asyncio_run_ok := asyncio_run_ok env;
     random_md5 := random_md5 env;
     random_names := random_names env;
     reply_SendTxt := reply_SendTxt env;
     reply_GetQR := reply_GetQR env; reply_QrImage := reply_QrImage env;
     scratch_file := scratch_file env;
     reply_UploadImg := reply_UploadImg env; remove_ok := remove_ok env;
     stop_at_tick := stop_at_tick env;
     stop_in_backoff := stop_in_backoff env |}.

(** The sample inputs with other state files. *)
Definition with_state_files (files : state_file -> file) (env : Env) : Env :=
  {| state_files := files; timestamp_max := timestamp_max env;
     datetime_now := datetime_now env; time_at_check := time_at_check env;
     time_at_download := time_at_download env;
     time_at_fire := time_at_fire env;
     save_config_ok := save_config_ok env; thread_alive := thread_alive env;
     asyncio_run_ok := asyncio_run_ok env;
     random_md5 := random_md5 env;
     random_names := random_names env;
     reply_SendTxt := reply_SendTxt env;
     reply_GetQR := reply_GetQR env; reply_QrImage := reply_QrImage env;
     scratch_file := scratch_file env;
     reply_UploadImg := reply_UploadImg env; remove_ok := remove_ok env;
     stop_at_tick := stop_at_tick env;
     stop_in_backoff := stop_in_backoff env |}.

(** A device file that names the account but has a login time of 0, no
    file for Client, and a login at 1799748000 recorded for Client2. *)
Definition login_in_Client2 : state_file -> file :=
  fun f =>
    match f with
    | wx849_device_info =>
        Parsed {| wxid := Some "wxid_bot"; device_id := Some "49c0ffee";
                  login_time := Some (Number (Fin 0)) |}
    | login_stat_Client => Absent
    | login_stat_Client2 =>
        Parsed {| wxid := None; device_id := None;
                  login_time := Some (Number (Fin 1799748000)) |}
    | login_stat_Client3 => Unreadable JSONDecodeError
    end.

(** A device file whose login time is a string, and a good record for
    Client. *)
Definition login_time_as_string : state_file -> file :=
  fun f =>
    match f with
    | wx849_device_info =>
        Parsed {| wxid := Some "wxid_bot"; device_id := Some "49c0ffee";
                  login_time := Some NotNumber |}
    | _ =>
        Parsed {| wxid := None; device_id := None;
                  login_time := Some (Number (Fin 1799748000)) |}
    end.

(** The sample inputs with a configuration store that cannot be written. *)
Definition with_failing_save (env : Env) : Env :=
  {| state_files := state_files env; timestamp_max := timestamp_max env;
     datetime_now := datetime_now env; time_at_check := time_at_check env;
     time_at_download := time_at_download env;
     time_at_fire := time_at_fire env;
     save_config_ok := false; thread_alive := thread_alive env;
     asyncio_run_ok := asyncio_run_ok env;
     random_md5 := random_md5 env;
     random_names := random_names env;
     reply_SendTxt := reply_SendTxt env;
     reply_GetQR := reply_GetQR env; reply_QrImage := reply_QrImage env;
     scratch_file := scratch_file env;
     reply_UploadImg := reply_UploadImg env; remove_ok := remove_ok env;
     stop_at_tick := stop_at_tick env;
     stop_in_backoff := stop_in_backoff env |}.

(** The sample inputs with [is_running] cleared by another thread after [n]
    seconds of waiting. *)
Definition stopped_after (n : nat) (env : Env) : Env :=
  {| state_files := state_files env; timestamp_max := timestamp_max env;
     datetime_now := datetime_now env; time_at_check := time_at_check env;
     time_at_download := time_at_download env;
     time_at_fire := time_at_fire env;
     save_config_ok := save_config_ok env; thread_alive := thread_alive env;
     asyncio_run_ok := asyncio_run_ok env;
     random_md5 := random_md5 env;
     random_names := random_names env;
     reply_SendTxt := reply_SendTxt env;
     reply_GetQR := reply_GetQR env; reply_QrImage := reply_QrImage env;
     scratch_file := scratch_file env;
     reply_UploadImg := reply_UploadImg env; remove_ok := remove_ok env;
     stop_at_tick := Some n;
     stop_in_backoff := stop_in_backoff env |}.

(** ... except that the download of the image answers [reply]. *)
Definition with_QrImage (reply : http unit) (env : Env) : Env :=
  {| state_files := state_files env; timestamp_max := timestamp_max env;
     datetime_now := datetime_now env; time_at_check := time_at_check env;
     time_at_download := time_at_download env;
     time_at_fire := time_at_fire env;
     save_config_ok := save_config_ok env; thread_alive := thread_alive env;
     asyncio_run_ok := asyncio_run_ok env;
     random_md5 := random_md5 env;
     random_names := random_names env;
     reply_SendTxt := reply_SendTxt env;
     reply_GetQR := reply_GetQR env; reply_QrImage := reply;
     scratch_file := scratch_file env;
     reply_UploadImg := reply_UploadImg env; remove_ok := remove_ok env;
     stop_at_tick := stop_at_tick env;
     stop_in_backoff := stop_in_backoff env |}.

(** ... except for what becomes of the scratch file. *)
Definition with_scratch_file (o : scratch_outcome) (env : Env) : Env :=
  {| state_files := state_files env; timestamp_max := timestamp_max env;
     datetime_now := datetime_now env; time_at_check := time_at_check env;
     time_at_download := time_at_download env;
     time_at_fire := time_at_fire env;
     save_config_ok := save_config_ok env; thread_alive := thread_alive env;
     asyncio_run_ok := asyncio_run_ok env;
     random_md5 := random_md5 env;
     random_names := random_names env;
     reply_SendTxt := reply_SendTxt env;
     reply_GetQR := reply_GetQR env; reply_QrImage := reply_QrImage env;
     scratch_file := o;
     reply_UploadImg := reply_UploadImg env; remove_ok := remove_ok env;
     stop_at_tick := stop_at_tick env;
     stop_in_backoff := stop_in_backoff env |}.

(** ... except for whether [os.remove] succeeds. *)
Definition with_remove_ok (ok : bool) (env : Env) : Env :=
  {| state_files := state_files env; timestamp_max := timestamp_max env;
     datetime_now := datetime_now env; time_at_check := time_at_check env;
     time_at_download := time_at_download env;
     time_at_fire := time_at_fire env;
     save_config_ok := save_config_ok env; thread_alive := thread_alive env;
     asyncio_run_ok := asyncio_run_ok env;
     random_md5 := random_md5 env;
     random_names := random_names env;
     reply_SendTxt := reply_SendTxt env;
     reply_GetQR := reply_GetQR env; reply_QrImage := reply_QrImage env;
     scratch_file := scratch_file env;
     reply_UploadImg := reply_UploadImg env; remove_ok := ok;
     stop_at_tick := stop_at_tick env;
     stop_in_backoff := stop_in_backoff env |}.

(** Two polling threads whose turns overlap.  The first thread finds the
    warning due (line 635) and sets out to deliver it.  Meanwhile the
    warning is disabled and enabled again: [_stop_background_check] gives
    up its [join] after 5 seconds, the first thread being busy, and
    [_start_background_check] starts a second thread.  That thread
    evaluates while the first has not yet recorded its fire time (line
    721, the last step of the delivery, which is shown here where it
    ends); then it delivers too. *)
Definition overlapping_turns (first toggling second : Env) : M (bool * bool) :=
  due1 <- _should_send_warning first ;;
  _handle_disable_warning toggling ;;
  _handle_enable_warning toggling ;;
  due2 <- _should_send_warning second ;;
  when due1 (asyncio_run first (_send_auto_warning first)) ;;
  when due2 (asyncio_run second (_send_auto_warning second)) ;;
  ret (due1, due2).

(** * Properties *)

(** ** The monad *)

Lemma bind_run {A B} (m : M A) (k : A -> M B) (w : World) :
  bind m k w =
  match m w with
  | (Return a, w') => k a w'
  | (Raise e, w') => (Raise e, w')
  end.
Proof. reflexivity. Qed.

Lemma try_except_run {A} (m : M A) (h : exn -> M A) (w : World) :
  try_except m h w =
  match m w with
  | (Return a, w') => (Return a, w')
  | (Raise e, w') => h e w'
  end.
Proof. reflexivity. Qed.

Section Frame.

Context {V : Type} (view : World -> V).

Lemma keeps_ret {A} (a : A) : keeps view (ret a).
Proof. intros w. reflexivity. Qed.

Lemma keeps_raise {A} (e : exn) : keeps view (@raise A e).
Proof. intros w. reflexivity. Qed.

Lemma keeps_get_self : keeps view get_self.
Proof. intros w. reflexivity. Qed.

Lemma keeps_get_scratch : keeps view get_scratch.
Proof. intros w. reflexivity. Qed.

Lemma keeps_load_config : keeps view load_config.
Proof. intros w. reflexivity. Qed.

Lemma keeps_bind {A B} (m : M A) (k : A -> M B) :
  keeps view m -> (forall a, keeps view (k a)) -> keeps view (bind m k).
Proof.
  intros Hm Hk w. rewrite bind_run. specialize (Hm w).
  destruct (m w) as [[a | e] w1]; simpl in *.
  - rewrite Hk. exact Hm.
  - exact Hm.
Qed.

Lemma keeps_try_except {A} (m : M A) (h : exn -> M A) :
  keeps view m -> (forall e, keeps view (h e)) -> keeps view (try_except m h).
Proof.
  intros Hm Hh w. rewrite try_except_run. specialize (Hm w).
  destruct (m w) as [[a | e] w1]; simpl in *.
  - exact Hm.
  - rewrite Hh. exact Hm.
Qed.

Lemma keeps_when (c : bool) (m : M unit) :
  (c = true -> keeps view m) -> keeps view (when c m).
Proof. destruct c; simpl; intros H; [auto | apply keeps_ret]. Qed.

Lemma keeps_asyncio_run {A} (env : Env) (m : M A) :
  keeps view m -> keeps view (asyncio_run env m).
Proof.
  unfold asyncio_run. destruct (asyncio_run_ok env); intros H;
    [exact H | apply keeps_raise].
Qed.

End Frame.

(** Totality. *)

Lemma total_ret {A} (a : A) : total (ret a).
Proof. intros w. exists a, w. reflexivity. Qed.

Lemma total_bind {A B} (m : M A) (k : A -> M B) :
  total m -> (forall a, total (k a)) -> total (bind m k).
Proof.
  intros Hm Hk w. rewrite bind_run.
  destruct (Hm w) as (a & w1 & ->). apply Hk.
Qed.

Lemma total_try_except {A} (m : M A) (h : exn -> M A) :
  (forall e, total (h e)) -> total (try_except m h).
Proof.
  intros Hh w. rewrite try_except_run.
  destruct (m w) as [[a | e] w1].
  - exists a, w1. reflexivity.
  - apply Hh.
Qed.

Lemma total_emit (e : event) : total (emit e).
Proof. intros w. eexists _, _. reflexivity. Qed.

Lemma total_modify_self (f : Plugin -> Plugin) : total (modify_self f).
Proof. intros w. eexists _, _. reflexivity. Qed.

Lemma total_get_self : total get_self.
Proof. intros w. eexists _, _. reflexivity. Qed.

Lemma total_when (c : bool) (m : M unit) : total m -> total (when c m).
Proof. destruct c; simpl; intros H; [exact H | apply total_ret]. Qed.

Create HintDb total discriminated.
#[local] Hint Resolve total_ret total_emit total_modify_self total_get_self
  total_when : total.

Ltac total_step :=
  first
    [ apply total_try_except; intros
    | apply total_bind; [| intros]
    | apply total_when
    | solve [unfold logger; auto with total] ].

Lemma total_load_current_login_info env : total (_load_current_login_info env).
Proof. unfold _load_current_login_info. repeat total_step. Qed.

Lemma total_get_real_login_time env : total (_get_real_login_time env).
Proof. unfold _get_real_login_time. repeat total_step. Qed.

Lemma total_should_send_warning env : total (_should_send_warning env).
Proof. unfold _should_send_warning. repeat total_step. Qed.

Lemma total_send_text_message env to t : total (_send_text_message env to t).
Proof. unfold _send_text_message. repeat total_step. Qed.

Lemma total_send_login_qr_code env to : total (_send_login_qr_code env to).
Proof. unfold _send_login_qr_code. repeat total_step. Qed.

Lemma total_send_auto_warning env : total (_send_auto_warning env).
Proof. unfold _send_auto_warning. repeat total_step. Qed.

Lemma total_backoff env e : total (backoff env e).
Proof. unfold backoff, cleared_elsewhere. repeat total_step. Qed.

Lemma total_iteration env : total (iteration env).
Proof. unfold iteration. apply total_try_except, total_backoff. Qed.

(** ** Frame properties *)

Lemma calm_quiet {A} (m : M A) : keeps calm m -> keeps quiet m.
Proof.
  intros H w. specialize (H w). unfold calm in H. unfold quiet.
  congruence.
Qed.

Lemma calm_running {A} (m : M A) : keeps calm m -> keeps running m.
Proof.
  intros H w. specialize (H w). unfold calm in H. unfold running.
  congruence.
Qed.

Create HintDb frame discriminated.
#[local] Hint Resolve calm_quiet calm_running : frame.

Create HintDb views.
#[local] Hint Unfold calm quiet running qr_steps settings texts_sent removals
  writes sent gates qr_threads : views.

Ltac frame_prim :=
  let w := fresh "w" in
  intros w; unfold logger, emit, modify_self, store_config, set_scratch;
  autounfold with views; cbn -[String.eqb];
  rewrite ?filter_app, ?flat_map_app; cbn; rewrite ?app_nil_r; reflexivity.

Ltac frame :=
  repeat first
    [ apply keeps_ret | apply keeps_raise | apply keeps_get_self
    | apply keeps_get_scratch | apply keeps_load_config
    | solve [auto with frame]
    | apply keeps_bind; [| intros]
    | apply keeps_try_except; [| intros]
    | apply keeps_when; intros
    | apply keeps_asyncio_run
    | match goal with
      | |- keeps _ (match ?x with _ => _ end) => destruct x
      end
    | progress lazy zeta
    | solve [frame_prim] ].

Lemma calm_load_current_login_info env : keeps calm (_load_current_login_info env).
Proof. unfold _load_current_login_info. frame. Qed.
#[local] Hint Resolve calm_load_current_login_info : frame.

Lemma calm_read_login_time env f msg : keeps calm (read_login_time env f msg).
Proof. unfold read_login_time, fromtimestamp. frame. Qed.
#[local] Hint Resolve calm_read_login_time : frame.

Lemma calm_first_login_time env paths : keeps calm (first_login_time env paths).
Proof. induction paths; simpl; frame. Qed.
#[local] Hint Resolve calm_first_login_time : frame.

Lemma calm_get_real_login_time env : keeps calm (_get_real_login_time env).
Proof. unfold _get_real_login_time. frame. Qed.
#[local] Hint Resolve calm_get_real_login_time : frame.

Lemma calm_should_send_warning env : keeps calm (_should_send_warning env).
Proof. unfold _should_send_warning. frame. Qed.
#[local] Hint Resolve calm_should_send_warning : frame.

Lemma calm_send_text_message env to t : keeps calm (_send_text_message env to t).
Proof. unfold _send_text_message. frame. Qed.
#[local] Hint Resolve calm_send_text_message : frame.

Lemma calm_download_qr_image env url uuid :
  keeps calm (_download_qr_image env url uuid).
Proof. unfold _download_qr_image, create_file. frame. Qed.
#[local] Hint Resolve calm_download_qr_image : frame.

Lemma calm_send_image_message env to path :
  keeps calm (_send_image_message env to path).
Proof. unfold _send_image_message, exists_file. frame. Qed.
#[local] Hint Resolve calm_send_image_message : frame.

Lemma calm_cleanup env path : keeps calm (cleanup env path).
Proof. unfold cleanup, exists_file, remove_file. frame. Qed.
#[local] Hint Resolve calm_cleanup : frame.

Lemma calm_send_login_qr_code env to : keeps calm (_send_login_qr_code env to).
Proof. unfold _send_login_qr_code. frame. Qed.
#[local] Hint Resolve calm_send_login_qr_code : frame.

Lemma calm_send_qr_code_after_delay env to :
  keeps calm (_send_qr_code_after_delay env to).
Proof. unfold _send_qr_code_after_delay. frame. Qed.
#[local] Hint Resolve calm_send_qr_code_after_delay : frame.

Lemma calm_handle_status_query env : keeps calm (_handle_status_query env).
Proof. unfold _handle_status_query. frame. Qed.

Lemma calm_handle_config_query env : keeps calm (_handle_config_query env).
Proof. unfold _handle_config_query. frame. Qed.

Lemma calm_save_config env c : keeps calm (save_config env c).
Proof. unfold save_config. frame. Qed.
#[local] Hint Resolve calm_save_config : frame.

Lemma calm_handle_threshold_setting env content :
  keeps calm (_handle_threshold_setting env content).
Proof. unfold _handle_threshold_setting. frame. Qed.

Lemma calm_handle_warning_test env msg : keeps calm (_handle_warning_test env msg).
Proof. unfold _handle_warning_test, target_of. frame. Qed.

#[local] Hint Resolve calm_handle_status_query calm_handle_config_query
  calm_handle_threshold_setting calm_handle_warning_test : frame.

Lemma quiet_handle_enable_warning env : keeps quiet (_handle_enable_warning env).
Proof. unfold _handle_enable_warning, _start_background_check. frame. Qed.

Lemma quiet_handle_disable_warning env : keeps quiet (_handle_disable_warning env).
Proof. unfold _handle_disable_warning, _stop_background_check. frame. Qed.

#[local] Hint Resolve quiet_handle_enable_warning quiet_handle_disable_warning
  : frame.

Lemma quiet_on_handle_context env e : keeps quiet (on_handle_context env e).
Proof. unfold on_handle_context. frame. Qed.
#[local] Hint Resolve quiet_on_handle_context : frame.

Lemma quiet_reload env : keeps quiet (reload env).
Proof.
  unfold reload, _stop_background_check, _start_background_check. frame.
Qed.

Lemma quiet_waiting env ticks k : keeps quiet (waiting env ticks k).
Proof.
  revert k. induction ticks; intros k; simpl; unfold cleared_elsewhere; frame.
Qed.
#[local] Hint Resolve quiet_waiting : frame.

Lemma running_send_auto_warning env : keeps running (_send_auto_warning env).
Proof. unfold _send_auto_warning. frame. Qed.
#[local] Hint Resolve running_send_auto_warning : frame.

(** Reading the login time only logs: it keeps every view that no log
    line changes. *)
Section LogBlind.

Context {V : Type} (view : World -> V).
Hypothesis blind : forall l msg, keeps view (logger l msg).

Lemma blind_read_login_time env f msg :
  keeps view (read_login_time env f msg).
Proof. unfold read_login_time, fromtimestamp. frame. Qed.
#[local] Hint Resolve blind_read_login_time : frame.

Lemma blind_first_login_time env paths :
  keeps view (first_login_time env paths).
Proof. induction paths; simpl; frame. Qed.
#[local] Hint Resolve blind_first_login_time : frame.

Lemma blind_get_real_login_time env : keeps view (_get_real_login_time env).
Proof. unfold _get_real_login_time. frame. Qed.

End LogBlind.

Lemma self_get_real_login_time env : keeps self (_get_real_login_time env).
Proof. apply blind_get_real_login_time. intros l msg w. reflexivity. Qed.

(** ** Reading the login time does not depend on the plugin *)

Lemma log_to_nil w : log_to [] w = w.
Proof. destruct w. unfold log_to. simpl. rewrite app_nil_r. reflexivity. Qed.

Lemma log_to_app evs1 evs2 w : log_to evs2 (log_to evs1 w) = log_to (evs1 ++ evs2) w.
Proof. unfold log_to. simpl. rewrite app_assoc. reflexivity. Qed.

Lemma logs_only_ret {A} (a : A) : logs_only (ret a).
Proof. exists (Return a), []. intros w. rewrite log_to_nil. reflexivity. Qed.

Lemma logs_only_raise {A} (e : exn) : logs_only (@raise A e).
Proof. exists (Raise e), []. intros w. rewrite log_to_nil. reflexivity. Qed.

Lemma logs_only_logger l msg : logs_only (logger l msg).
Proof. exists (Return tt), [Log l msg]. intros w. reflexivity. Qed.

Lemma logs_only_bind {A B} (m : M A) (k : A -> M B) :
  logs_only m -> (forall a, logs_only (k a)) -> logs_only (bind m k).
Proof.
  intros (r & evs & Hm) Hk. destruct r as [a | e].
  - destruct (Hk a) as (r' & evs' & Hka).
    exists r', (evs ++ evs')%list. intros w.
    rewrite bind_run, Hm, Hka, log_to_app. reflexivity.
  - exists (Raise e), evs. intros w. rewrite bind_run, Hm. reflexivity.
Qed.

Lemma logs_only_try_except {A} (m : M A) (h : exn -> M A) :
  logs_only m -> (forall e, logs_only (h e)) -> logs_only (try_except m h).
Proof.
  intros (r & evs & Hm) Hh. destruct r as [a | e].
  - exists (Return a), evs. intros w. rewrite try_except_run, Hm. reflexivity.
  - destruct (Hh e) as (r' & evs' & Hhe).
    exists r', (evs ++ evs')%list. intros w.
    rewrite try_except_run, Hm, Hhe, log_to_app. reflexivity.
Qed.

Create HintDb logs_only discriminated.

Ltac logs_only :=
  repeat first
    [ apply logs_only_ret | apply logs_only_raise | apply logs_only_logger
    | solve [auto with logs_only]
    | apply logs_only_bind; [| intros]
    | apply logs_only_try_except; [| intros]
    | match goal with
      | |- logs_only (match ?x with _ => _ end) => destruct x
      end ].

Lemma logs_only_read_login_time env f msg :
  logs_only (read_login_time env f msg).
Proof. unfold read_login_time, fromtimestamp. logs_only. Qed.
#[local] Hint Resolve logs_only_read_login_time : logs_only.

Lemma logs_only_first_login_time env paths :
  logs_only (first_login_time env paths).
Proof. induction paths; simpl; logs_only. Qed.
#[local] Hint Resolve logs_only_first_login_time : logs_only.

Lemma logs_only_get_real_login_time env : logs_only (_get_real_login_time env).
Proof. unfold _get_real_login_time. logs_only. Qed.

Lemma login_time_any_world env w w' :
  fst (_get_real_login_time env w) = fst (_get_real_login_time env w').
Proof.
  destruct (logs_only_get_real_login_time env) as (r & evs & H).
  rewrite !H. reflexivity.
Qed.

Lemma login_time_cases env :
  (exists t, login_time_known env t) \/ login_time_unknown env.
Proof.
  destruct (logs_only_get_real_login_time env) as (r & evs & H).
  destruct r as [[t |] | e].
  - left. exists t. intros w. rewrite H. reflexivity.
  - right. intros w. rewrite H. reflexivity.
  - exfalso.
    destruct (total_get_real_login_time env
                {| self := attributes _load_default_config;
                   config_store := None; scratch := []; events := [] |})
      as (a & w' & Ha).
    rewrite H in Ha. discriminate.
Qed.

(** ** The expiry evaluator *)

Lemma Qlt_bool_iff (a b : Q) : Qlt_bool a b = true <-> (a < b)%Q.
Proof.
  unfold Qlt_bool. rewrite negb_true_iff.
  split.
  - intros H. apply Qnot_le_lt. intros Hle.
    apply Qle_bool_iff in Hle. congruence.
  - intros H. destruct (Qle_bool b a) eqn:E; [| reflexivity].
    apply Qle_bool_iff in E. exfalso. exact (Qlt_not_le _ _ H E).
Qed.

(** The value [_should_send_warning] returns. *)
Lemma should_send_warning_value env w :
  fst (_should_send_warning env w) =
  Return
    (warning_enabled (self w) && PyStr.truthy (warning_target (self w)) &&
     match fst (_get_real_login_time env w) with
     | Return (Some login_time) =>
         ge (Fin (online_hours_at (datetime_now env) login_time))
            (sub (session_duration_hours (self w)) (warning_threshold (self w)))
         && Qlt_bool 3600 (time_at_check env - last_warning_time (self w))
     | _ => false
     end).
Proof.
  unfold _should_send_warning.
  rewrite try_except_run, bind_run. cbn [get_self].
  destruct (warning_enabled (self w)); cbn [negb orb andb]; [| reflexivity].
  destruct (PyStr.truthy (warning_target (self w))); cbn [negb andb];
    [| reflexivity].
  rewrite bind_run.
  pose proof (self_get_real_login_time env w) as Hself.
  destruct (total_get_real_login_time env w) as (r & w1 & Hr).
  rewrite Hr in *. cbn [fst snd] in *.
  destruct r as [login_time |]; [| reflexivity].
  rewrite bind_run. cbn [get_self]. rewrite Hself.
  destruct (ge _ _); cbn [andb]; [| reflexivity].
  destruct (Qlt_bool _ _); reflexivity.
Qed.

Lemma truthy_iff (s : string) : PyStr.truthy s = true <-> s <> "".
Proof. destruct s; simpl; split; congruence. Qed.

Lemma due_iff env w :
  due env w <->
  warning_enabled (self w) = true /\
  warning_target (self w) <> "" /\
  exists login_time,
    login_time_known env login_time /\
    reaches_trigger (self w) (online_hours_at (datetime_now env) login_time) /\
    cooled_down env (self w).
Proof.
  unfold due, reaches_trigger, cooled_down.
  rewrite should_send_warning_value. split.
  - intros H. injection H as H.
    apply andb_true_iff in H as [H Hdue].
    apply andb_true_iff in H as [Hen Htarget].
    split; [exact Hen |]. split; [apply truthy_iff; exact Htarget |].
    destruct (fst (_get_real_login_time env w)) as [[t |] | e] eqn:Ht;
      try discriminate.
    apply andb_true_iff in Hdue as [Hge Hcool].
    exists t. split; [| split].
    + intros w'. rewrite <- Ht. apply login_time_any_world.
    + exact Hge.
    + apply Qlt_bool_iff. exact Hcool.
  - intros (Hen & Htarget & t & Ht & Hge & Hcool).
    rewrite Hen, (proj2 (truthy_iff _) Htarget), (Ht w), Hge.
    rewrite (proj2 (Qlt_bool_iff _ _) Hcool). reflexivity.
Qed.




(** ** The delivery workflow *)

Lemma run_total_keeps {A V} (view : World -> V) (m : M A) (w : World) :
  total m -> keeps view m ->
  exists a w1, m w = (Return a, w1) /\ view w1 = view w.
Proof.
  intros Ht Hk. destruct (Ht w) as (a & w1 & E).
  exists a, w1. split; [exact E |].
  specialize (Hk w). rewrite E in Hk. exact Hk.
Qed.

Lemma calm_inv w w' :
  calm w' = calm w ->
  is_running (self w') = is_running (self w) /\
  last_warning_time (self w') = last_warning_time (self w) /\
  filter is_fire (events w') = filter is_fire (events w).
Proof. unfold calm. intros H. injection H as H1 H2 H3. auto. Qed.

Lemma calm_quiet_eq w w' : calm w' = calm w -> quiet w' = quiet w.
Proof. unfold calm, quiet. intros H. injection H as _ H2 H3. congruence. Qed.

Lemma qr_steps_load_current_login_info env :
  keeps qr_steps (_load_current_login_info env).
Proof. unfold _load_current_login_info. frame. Qed.
#[local] Hint Resolve qr_steps_load_current_login_info : frame.

Lemma qr_steps_get_real_login_time env :
  keeps qr_steps (_get_real_login_time env).
Proof. apply blind_get_real_login_time. intros l msg. frame. Qed.
#[local] Hint Resolve qr_steps_get_real_login_time : frame.

Lemma qr_steps_send_text_message env to t :
  keeps qr_steps (_send_text_message env to t).
Proof. unfold _send_text_message. frame. Qed.

Lemma total_when_load env c : total (when c (_load_current_login_info env)).
Proof. apply total_when, total_load_current_login_info. Qed.

(** The text step succeeds exactly when the backend answers 200 with a
    body that says [Success]. *)
Lemma send_text_message_value env to t w :
  fst (_send_text_message env to t w) = Return (negb (text_fails env)).
Proof.
  unfold _send_text_message, text_fails.
  rewrite try_except_run, bind_run. cbn [get_self]. rewrite bind_run.
  match goal with
  | |- context [when ?c (_load_current_login_info env) w] =>
      destruct (total_when_load env c w) as ([] & w1 & E1); rewrite E1
  end.
  rewrite bind_run. cbn [get_self]. rewrite bind_run. cbn [emit].
  destruct (reply_SendTxt env) as [e | status b]; [reflexivity |].
  destruct (status =? 200); [| destruct b as [e | []]; reflexivity].
  destruct b as [e | []]; reflexivity.
Qed.

(** The workflow either stops before the QR-image part, leaving the
    cooldown record and the count of firings alone, because the text step
    failed or no login time was to be had; or the text step succeeded and
    it fires once. *)
Lemma send_auto_warning_effect env w :
  let w' := snd (_send_auto_warning env w) in
  (calm w' = calm w /\ qr_steps w' = qr_steps w /\
   (text_fails env = true \/ login_time_unknown env)) \/
  (fired env w w' /\ text_fails env = false).
Proof.
  unfold _send_auto_warning. rewrite try_except_run, bind_run.
  destruct (run_total_keeps calm _ w (total_load_current_login_info env)
              (calm_load_current_login_info env)) as ([] & w1 & E1 & H1).
  pose proof (qr_steps_load_current_login_info env w) as Q1.
  rewrite E1 in *. cbn [snd] in Q1. rewrite bind_run.
  destruct (run_total_keeps calm _ w1 (total_get_real_login_time env)
              (calm_get_real_login_time env)) as (r & w2 & E2 & H2).
  pose proof (qr_steps_get_real_login_time env w1) as Q2.
  rewrite E2 in *. cbn [snd] in Q2.
  destruct r as [login_time |]; cbn [ret snd].
  2:{ left. split; [congruence |]. split; [congruence |].
      right. intros w0.
      rewrite (login_time_any_world env w0 w1), E2. reflexivity. }
  cbv zeta. rewrite bind_run. cbn [get_self]. rewrite bind_run.
  match goal with
  | |- context [_send_text_message env ?to ?t w2] =>
      destruct (run_total_keeps calm _ w2 (total_send_text_message env to t)
                  (calm_send_text_message env to t))
        as (text_success & w3 & E3 & H3);
      pose proof (qr_steps_send_text_message env to t w2) as Q3;
      pose proof (send_text_message_value env to t w2) as V3;
      rewrite E3 in *
  end.
  cbn [fst snd] in Q3, V3. injection V3 as V3.
  apply calm_inv in H1 as (R1 & L1 & F1).
  apply calm_inv in H2 as (R2 & L2 & F2).
  apply calm_inv in H3 as (R3 & L3 & F3).
  destruct text_success.
  - right. split; [| destruct (text_fails env); [discriminate | reflexivity]].
    unfold logger at 1. rewrite bind_run. cbn [emit].
    rewrite bind_run. cbn [emit]. rewrite bind_run. cbn [get_self self].
    rewrite bind_run.
    match goal with
    | |- context [_send_login_qr_code env ?to ?w4] =>
        destruct (run_total_keeps calm _ w4 (total_send_login_qr_code env to)
                    (calm_send_login_qr_code env to))
          as (qr_success & w5 & E5 & H5); rewrite E5
    end.
    apply calm_inv in H5 as (R5 & L5 & F5).
    cbn [self events] in R5, L5, F5.
    rewrite !filter_app in F5. cbn in F5. rewrite app_nil_r in F5.
    destruct qr_success; unfold logger; rewrite bind_run; cbn;
      unfold fired, fire_event; cbn; rewrite filter_app; cbn;
      rewrite app_nil_r; repeat split; congruence.
  - left. unfold logger. cbn. unfold calm, qr_steps in *. cbn.
    rewrite !filter_app. cbn. rewrite !app_nil_r.
    split; [congruence |]. split; [congruence |].
    left. destruct (text_fails env); [reflexivity | discriminate].
Qed.

(** ** Cooldown *)

Lemma quiet_interval_wait env : keeps quiet (interval_wait env).
Proof. unfold interval_wait, int_of. frame. Qed.

Lemma quiet_backoff env e : keeps quiet (backoff env e).
Proof. unfold backoff, cleared_elsewhere. frame. Qed.

#[local] Hint Resolve quiet_interval_wait quiet_backoff : frame.

Lemma quiet_wait_or_backoff env :
  keeps quiet (try_except (interval_wait env) (backoff env)).
Proof. frame. Qed.

(** One turn, step by step. *)
Lemma iteration_run env w :
  iteration env w =
  match _should_send_warning env w with
  | (Return true, w1) =>
      if asyncio_run_ok env then
        match _send_auto_warning env w1 with
        | (Return _, w2) => try_except (interval_wait env) (backoff env) w2
        | (Raise e, w2) => backoff env e w2
        end
      else backoff env RuntimeError w1
  | (Return false, w1) => try_except (interval_wait env) (backoff env) w1
  | (Raise e, w1) => backoff env e w1
  end.
Proof.
  unfold iteration, iteration_body.
  rewrite try_except_run, bind_run.
  destruct (_should_send_warning env w) as [[[|] | e] w1]; try reflexivity.
  rewrite bind_run. unfold when, asyncio_run.
  destruct (asyncio_run_ok env); [| reflexivity].
  destruct (_send_auto_warning env w1) as [[[] | e] w2]; reflexivity.
Qed.

Lemma fires_fired env w w' : fired env w w' -> fires w' = S (fires w).
Proof.
  intros (_ & H & _). unfold fires. rewrite H, length_app. simpl. lia.
Qed.

Lemma quiet_fires w w' : quiet w' = quiet w -> fires w' = fires w.
Proof. unfold quiet, fires. intros H. injection H as _ H. rewrite H. reflexivity. Qed.

Lemma quiet_last w w' :
  quiet w' = quiet w ->
  last_warning_time (self w') = last_warning_time (self w).
Proof. unfold quiet. intros H. injection H as H _. exact H. Qed.

(** A turn leaves the cooldown record and the firings alone, or the
    cooldown had elapsed and it fires once, recording the time. *)
Lemma iteration_effect env w :
  let w' := snd (iteration env w) in
  quiet w' = quiet w \/
  (cooled_down env (self w) /\
   last_warning_time (self w') = time_at_fire env /\
   fires w' = S (fires w)).
Proof.
  cbv zeta. rewrite iteration_run.
  pose proof (should_send_warning_value env w) as Hv.
  destruct (run_total_keeps calm _ w (total_should_send_warning env)
              (calm_should_send_warning env)) as (b & w1 & E1 & H1).
  rewrite E1 in *. cbn [fst] in Hv.
  apply calm_quiet_eq in H1.
  destruct b.
  - assert (Hcool : cooled_down env (self w)).
    { assert (Hdue : due env w) by (unfold due; rewrite E1; reflexivity).
      apply due_iff in Hdue. destruct Hdue as (_ & _ & t & _ & _ & Hc).
      exact Hc. }
    destruct (asyncio_run_ok env).
    + pose proof (send_auto_warning_effect env w1) as Heff. cbv zeta in Heff.
      destruct (total_send_auto_warning env w1) as ([] & w2 & E2).
      rewrite E2 in *. cbn [snd] in Heff.
      pose proof (quiet_wait_or_backoff env w2) as H3.
      destruct Heff as [(Hcalm & _) | (Hfired & _)].
      * left. apply calm_quiet_eq in Hcalm. congruence.
      * right. split; [exact Hcool |].
        split.
        -- rewrite (quiet_last _ _ H3). apply Hfired.
        -- rewrite (quiet_fires _ _ H3), (fires_fired _ _ _ Hfired).
           rewrite (quiet_fires _ _ H1). reflexivity.
    + left. rewrite (quiet_backoff env RuntimeError w1). exact H1.
  - left. rewrite (quiet_wait_or_backoff env w1). exact H1.
Qed.

Lemma perform_effect a w :
  let w1 := snd (perform a w) in
  quiet w1 = quiet w \/
  (exists env, a = Turn env /\ cooled_down env (self w) /\
               last_warning_time (self w1) = time_at_fire env /\
               fires w1 = S (fires w)).
Proof.
  destruct a as [env | env e | env to | env]; cbn [perform].
  - destruct (iteration_effect env w) as [H | H]; [left; exact H |].
    right. exists env. split; [reflexivity | exact H].
  - left. apply (keeps_bind quiet); [apply quiet_on_handle_context |].
    intros. apply keeps_ret.
  - left. apply calm_quiet, calm_send_qr_code_after_delay.
  - left. apply quiet_reload.
Qed.

Lemma run_cons a rest w :
  snd (run (a :: rest) w) =
  match perform a w with
  | (Return _, w1) => snd (run rest w1)
  | (Raise _, w1) => w1
  end.
Proof.
  cbn [run]. rewrite bind_run.
  destruct (perform a w) as [[[] | e] w1]; reflexivity.
Qed.

(** While every evaluation comes within an hour of the recorded time,
    nothing fires. *)
Lemma run_within_cooldown acts : forall w,
  (forall t, In t (check_times acts) ->
             (t - last_warning_time (self w) <= 3600)%Q) ->
  quiet (snd (run acts w)) = quiet w.
Proof.
  induction acts as [| a rest IH]; intros w Hwin; [reflexivity |].
  rewrite run_cons.
  pose proof (perform_effect a w) as Heff. cbv zeta in Heff.
  destruct (perform a w) as [[[] | e] w1]; cbn [snd] in Heff.
  - destruct Heff as [Hq | (env & -> & Hcool & _)].
    + rewrite IH; [exact Hq |].
      intros t Ht. rewrite (quiet_last _ _ Hq). apply Hwin.
      unfold check_times. cbn [flat_map]. apply in_or_app. right. exact Ht.
    + exfalso. unfold cooled_down in Hcool.
      specialize (Hwin (time_at_check env)).
      apply (Qlt_not_le _ _ Hcool), Hwin. cbn. left. reflexivity.
  - destruct Heff as [Hq | (env & -> & Hcool & _)]; [exact Hq |].
    exfalso. unfold cooled_down in Hcool.
    specialize (Hwin (time_at_check env)).
    apply (Qlt_not_le _ _ Hcool), Hwin. cbn. left. reflexivity.
Qed.

Lemma fires_at_most_once acts : forall w,
  Forall clock_ok acts ->
  (forall t t', In t (check_times acts) -> In t' (check_times acts) ->
                (t' - t <= 3600)%Q) ->
  (fires (snd (run acts w)) <= S (fires w))%nat.
Proof.
  induction acts as [| a rest IH]; intros w Hclock Hwin; [cbn; lia |].
  rewrite run_cons.
  pose proof (perform_effect a w) as Heff. cbv zeta in Heff.
  inversion Hclock as [| ? ? Ha Hrest]; subst.
  assert (Hwin_rest : forall t t', In t (check_times rest) ->
            In t' (check_times rest) -> (t' - t <= 3600)%Q).
  { intros t t' Ht Ht'. apply Hwin; unfold check_times; cbn [flat_map];
      apply in_or_app; right; assumption. }
  destruct Heff as [Hq | (env & -> & Hcool & Hlast & Hfires)].
  - destruct (perform a w) as [[[] | e] w1]; cbn [snd] in Hq.
    + rewrite <- (quiet_fires _ _ Hq). apply IH; assumption.
    + rewrite (quiet_fires _ _ Hq). lia.
  - destruct (perform (Turn env) w) as [[[] | e] w1];
      cbn [snd] in Hlast, Hfires; [| lia].
    assert (Hnone : forall t, In t (check_times rest) ->
              (t - last_warning_time (self w1) <= 3600)%Q);
      [| rewrite (quiet_fires _ _ (run_within_cooldown rest w1 Hnone)); lia].
    intros t Ht. rewrite Hlast.
    cbn [clock_ok] in Ha.
    assert (H : (t - time_at_check env <= 3600)%Q).
    { apply Hwin; cbn; [left; reflexivity | right; exact Ht]. }
    apply Qle_trans with (y := (t - time_at_check env)%Q); [| exact H].
    unfold Qminus. apply Qplus_le_r. apply Qopp_le_compat. exact Ha.
Qed.

(** Any two turns that fire evaluate more than an hour apart, and each of
    them more than an hour after the time recorded before the course. *)
Lemma fired_times_spaced acts : forall w,
  Forall clock_ok acts ->
  ForallOrdPairs an_hour_apart (fired_times acts w) /\
  Forall (an_hour_apart (last_warning_time (self w))) (fired_times acts w).
Proof.
  induction acts as [| a rest IH]; intros w Hclock; cbn [fired_times].
  { split; constructor. }
  inversion Hclock as [| ? ? Ha Hrest]; subst.
  pose proof (perform_effect a w) as Heff. cbv zeta in Heff.
  destruct (IH (snd (perform a w)) Hrest) as [Hpairs Hlast].
  destruct Heff as [Hq | (env & -> & Hcool & Hl & Hf)].
  - assert (Hnone : match a with
                    | Turn env =>
                        if Nat.eqb (fires (snd (perform a w))) (fires w)
                        then [] else [time_at_check env]
                    | _ => []
                    end = []).
    { destruct a; try reflexivity.
      rewrite (quiet_fires _ _ Hq), Nat.eqb_refl. reflexivity. }
    rewrite Hnone. cbn [app]. rewrite (quiet_last _ _ Hq) in Hlast.
    split; assumption.
  - rewrite Hf. replace (Nat.eqb (S (fires w)) (fires w)) with false
      by (symmetry; apply Nat.eqb_neq; lia).
    cbn [app]. cbn [clock_ok] in Ha. unfold cooled_down in Hcool.
    rewrite Hl in Hlast.
    split; constructor.
    + eapply Forall_impl; [| exact Hlast].
      unfold an_hour_apart. intros t Ht. lra.
    + exact Hpairs.
    + unfold an_hour_apart. lra.
    + eapply Forall_impl; [| exact Hlast].
      unfold an_hour_apart. intros t Ht. lra.
Qed.




(** Fifty minutes after a warning the next turn stays silent; two hours
    after it, with the session still about to expire, it warns again. *)
Example second_turn_in_and_out_of_cooldown :
  let w := polling_every (Fin (1 # 100)) (sample_world "wxid_admin" 0) in
  fired_times two_turns w = [1800000000%Q] /\
  fired_times
    [ Turn (sample_env 1799748000 1800000000 1800000004);
      Turn (sample_env 1799748000 1800007200 1800007204) ] w
  = [1800000000%Q; 1800007200%Q].
Proof. split; vm_compute; reflexivity. Qed.

(** ** Failure of the text step *)

(** C3: when the text step fails (the request raises, the status is not
    200, the body is not JSON or does not say [Success]), the workflow
    takes no step of the QR-image part and leaves the recorded fire time as
    it was; a fire time is recorded only when the text step succeeded; and
    once a login time is known and the text step succeeds the fire time is
    recorded whatever becomes of the QR image. *)
Theorem text_failure_stops_workflow env w :
  let w' := snd (_send_auto_warning env w) in
  (text_fails env = true ->
   qr_steps w' = qr_steps w /\
   last_warning_time (self w') = last_warning_time (self w) /\
   fires w' = fires w) /\
  (fired env w w' -> text_fails env = false) /\
  (forall login_time,
     login_time_known env login_time -> text_fails env = false ->
     fired env w w').
Proof.
  cbv zeta.
  destruct (send_auto_warning_effect env w)
    as [(Hcalm & Hqr & Hwhy) | (Hfired & Htext)].
  - split; [| split].
    + intros _. split; [exact Hqr |].
      apply calm_quiet_eq in Hcalm.
      split; [apply quiet_last | apply quiet_fires]; exact Hcalm.
    + intros Hfired. exfalso.
      apply fires_fired in Hfired.
      apply calm_quiet_eq, quiet_fires in Hcalm. lia.
    + intros t Hknown Htext. exfalso.
      destruct Hwhy as [Hfail | Hunknown]; [congruence |].
      specialize (Hknown w). specialize (Hunknown w). congruence.
  - split; [| split].
    + intros Hfail. congruence.
    + intros _. exact Htext.
    + intros _ _ _. exact Hfired.
Qed.

Lemma text_failure_stops_workflow_witness :
  let failing := with_SendTxt (Response 500 (BadBody JSONDecodeError))
                   (sample_env 1799748000 1800000000 1800000004) in
  let no_image := with_UploadImg (Response 500 (BadBody JSONDecodeError))
                    (sample_env 1799748000 1800000000 1800000004) in
  let w := sample_world "wxid_admin" 0 in
  (qr_steps (snd (_send_auto_warning failing w)) = qr_steps w /\
   last_warning_time (self (snd (_send_auto_warning failing w)))
   = last_warning_time (self w) /\
   fires (snd (_send_auto_warning failing w)) = fires w) /\
  fired no_image w (snd (_send_auto_warning no_image w)).
Proof.
  intros failing no_image w. split.
  - apply (proj1 (text_failure_stops_workflow failing w)). reflexivity.
  - apply (proj2 (proj2 (text_failure_stops_workflow no_image w))
             1799748000%Q).
    + intros w'. reflexivity.
    + reflexivity.
Defined.

(** ** The threshold command *)

(** Every call of the handler either rejects the input with one of the
    four messages and changes nothing, or takes a threshold that is not
    below 0 and not above 72. *)
Lemma threshold_setting_cases env content w :
  (exists msg, In msg validation_messages /\
     _handle_threshold_setting env content w = (Return (text_reply msg), w)) \/
  (exists x reply,
     lt x (Fin 0) = false /\ gt x (Fin 72) = false /\
     fst (_handle_threshold_setting env content w) = Return reply /\
     warning_threshold (self (snd (_handle_threshold_setting env content w)))
     = x).
Proof.
  unfold _handle_threshold_setting, validation_messages.
  rewrite try_except_run. cbv zeta.
  destruct (PyStr.split content) as [| p0 [| p1 [| p2 parts]]];
    try (left; exists bad_format; split; [cbn; tauto | reflexivity]).
  destruct (PyStr.endswith (PyStr.lower p1) "h"); cbn [negb];
    [| left; exists bad_unit; split; [cbn; tauto | reflexivity]].
  destruct (PyStr.parse_float _) as [x |];
    [| left; exists not_a_number; split; [cbn; tauto | reflexivity]].
  destruct (lt x (Fin 0)) eqn:Hlt; cbn [orb];
    [left; exists out_of_range; split; [cbn; tauto | reflexivity] |].
  destruct (gt x (Fin 72)) eqn:Hgt;
    [left; exists out_of_range; split; [cbn; tauto | reflexivity] |].
  right. exists x.
  unfold save_config. rewrite !bind_run. cbn [modify_self get_self emit self].
  rewrite !bind_run. cbn [emit].
  destruct (save_config_ok env); cbn; eexists; repeat split;
    first [assumption | reflexivity].
Qed.

(** An accepted threshold is set and written to the configuration store. *)
Lemma threshold_setting_accepts env content p0 p1 x w :
  PyStr.split content = [p0; p1] ->
  PyStr.endswith (PyStr.lower p1) "h" = true ->
  PyStr.parse_float (PyStr.drop_last (PyStr.lower p1)) = Some x ->
  lt x (Fin 0) = false -> gt x (Fin 72) = false ->
  save_config_ok env = true ->
  let w' := snd (_handle_threshold_setting env content w) in
  warning_threshold (self w') = x /\
  config (self w') = with_threshold x (config (self w)) /\
  config_store w' = Some (with_threshold x (config (self w))).
Proof.
  intros Hsplit Hend Hparse Hlt Hgt Hsave.
  unfold _handle_threshold_setting, save_config.
  rewrite try_except_run. cbv zeta.
  rewrite Hsplit, Hend, Hparse, Hlt, Hgt. cbn [negb orb].
  rewrite !bind_run. cbn [modify_self get_self emit self].
  rewrite !bind_run. cbn [emit]. rewrite Hsave. cbn. auto.
Qed.

(** C4: on ["2h"] the handler sets the threshold to 2.0 and persists it;
    on ["abcs"], ["90h"], ["2"] and ["2h extra"] it answers with the message
    for a missing [h], a value out of range, a missing [h] and a wrong
    number of words, and changes nothing; a value that is not a number
    (["abch"]) has its own message; the four messages are distinct; and on
    every input the handler returns a reply, no exception leaves it, and it
    either rejects with one of the four messages, changing nothing, or
    takes a threshold that is neither below 0 nor above 72. *)
Theorem threshold_command env content w :
  (save_config_ok env = true ->
   let w' := snd (_handle_threshold_setting env "$预警阈值 2h" w) in
   warning_threshold (self w') = Fin 2 /\
   config_store w' = Some (with_threshold (Fin 2) (config (self w))) /\
   option_map auto_session_warning_threshold (config_store w')
   = Some (Some (Fin 2))) /\
  _handle_threshold_setting env "$预警阈值 abcs" w
  = (Return (text_reply bad_unit), w) /\
  _handle_threshold_setting env "$预警阈值 90h" w
  = (Return (text_reply out_of_range), w) /\
  _handle_threshold_setting env "$预警阈值 2" w
  = (Return (text_reply bad_unit), w) /\
  _handle_threshold_setting env "$预警阈值 2h extra" w
  = (Return (text_reply bad_format), w) /\
  _handle_threshold_setting env "$预警阈值 abch" w
  = (Return (text_reply not_a_number), w) /\
  NoDup validation_messages /\
  ((exists msg, In msg validation_messages /\
      _handle_threshold_setting env content w = (Return (text_reply msg), w)) \/
   (exists x reply,
      lt x (Fin 0) = false /\ gt x (Fin 72) = false /\
      fst (_handle_threshold_setting env content w) = Return reply /\
      warning_threshold (self (snd (_handle_threshold_setting env content w)))
      = x)).
Proof.
  split.
  { intros Hsave.
    destruct (threshold_setting_accepts env "$预警阈值 2h" "$预警阈值" "2h" (Fin 2) w)
      as (H1 & _ & H3); try reflexivity; [exact Hsave |].
    split; [exact H1 |]. split; [exact H3 |]. rewrite H3. reflexivity. }
  repeat (split; [reflexivity |]).
  split; [| apply threshold_setting_cases].
  unfold validation_messages, bad_format, bad_unit, not_a_number, out_of_range.
  repeat constructor; cbn; intuition discriminate.
Qed.

Lemma threshold_command_witness :
  let env := sample_env 1799748000 1800000000 1800000004 in
  let w := sample_world "wxid_admin" 0 in
  let w' := snd (_handle_threshold_setting env "$预警阈值 2h" w) in
  warning_threshold (self w') = Fin 2 /\
  config_store w' = Some (with_threshold (Fin 2) (config (self w))) /\
  option_map auto_session_warning_threshold (config_store w')
  = Some (Some (Fin 2)).
Proof.
  intros env w.
  apply (proj1 (threshold_command env "$预警阈值 2h" w)). reflexivity.
Defined.

(** ** Status and test replies *)

Lemma settings_load_current_login_info env :
  keeps settings (_load_current_login_info env).
Proof. unfold _load_current_login_info. frame. Qed.

Lemma load_current_login_info_run env w :
  exists w1,
    _load_current_login_info env w = (Return tt, w1) /\
    current_wxid (self w1) = identity env w /\
    settings w1 = settings w.
Proof.
  pose proof (settings_load_current_login_info env w) as Hs.
  unfold identity. revert Hs. unfold _load_current_login_info.
  rewrite try_except_run.
  destruct (state_files env wx849_device_info) as [| e | d];
    cbn; intros Hs; eexists; repeat split; try reflexivity; exact Hs.
Qed.

Lemma get_real_login_time_run env w :
  exists w1,
    _get_real_login_time env w
    = (fst (_get_real_login_time env w), w1) /\ self w1 = self w.
Proof.
  pose proof (self_get_real_login_time env w) as H.
  destruct (_get_real_login_time env w) as [r w1].
  exists w1. split; [reflexivity | exact H].
Qed.

Lemma settings_session w w' :
  settings w' = settings w ->
  session_duration_hours (self w') = session_duration_hours (self w).
Proof. unfold settings. intros H. injection H. auto. Qed.

(** What the status command answers. *)
Lemma status_query_value env w :
  fst (_handle_status_query env w) =
  Return (text_reply
    (if PyStr.truthy (identity env w) then
       match fst (_get_real_login_time env w) with
       | Return (Some login_time) =>
           let online_hours := online_hours_at (datetime_now env) login_time in
           status_text online_hours (remaining_hours_of (self w) online_hours)
       | _ => no_login_time
       end
     else no_login_info)).
Proof.
  unfold _handle_status_query. rewrite try_except_run, bind_run.
  destruct (load_current_login_info_run env w) as (w1 & E1 & Hid & Hset).
  rewrite E1, bind_run. cbn [get_self]. rewrite Hid.
  destruct (PyStr.truthy (identity env w)); cbn [negb]; [| reflexivity].
  rewrite bind_run.
  destruct (get_real_login_time_run env w1) as (w2 & E2 & Hself).
  rewrite E2, (login_time_any_world env w1 w).
  destruct (total_get_real_login_time env w) as (r & w' & Er).
  rewrite Er. cbn [fst].
  destruct r as [login_time |]; [| reflexivity].
  cbv zeta. rewrite bind_run. cbn [get_self fst ret].
  unfold remaining_hours_of. rewrite Hself, (settings_session _ _ Hset).
  reflexivity.
Qed.

(** What the test command answers. *)
Lemma warning_test_value env msg w :
  fst (_handle_warning_test env msg w) =
  Return (text_reply
    (if PyStr.truthy (identity env w) then
       match fst (_get_real_login_time env w) with
       | Return (Some login_time) =>
           let online_hours := online_hours_at (datetime_now env) login_time in
           match sender msg with
           | Some _ =>
               test_text online_hours (remaining_hours_of (self w) online_hours)
           | None => [Lit "❌ 预警测试失败: "; StrExn AttributeError]
           end
       | _ => no_login_time
       end
     else no_login_info)).
Proof.
  unfold _handle_warning_test. rewrite try_except_run, bind_run.
  destruct (load_current_login_info_run env w) as (w1 & E1 & Hid & Hset).
  rewrite E1, bind_run. cbn [get_self]. rewrite Hid.
  destruct (PyStr.truthy (identity env w)); cbn [negb]; [| reflexivity].
  rewrite bind_run.
  destruct (get_real_login_time_run env w1) as (w2 & E2 & Hself).
  rewrite E2, (login_time_any_world env w1 w).
  destruct (total_get_real_login_time env w) as (r & w' & Er).
  rewrite Er. cbn [fst].
  destruct r as [login_time |]; [| reflexivity].
  cbv zeta. rewrite bind_run. cbn [get_self]. unfold target_of.
  destruct (sender msg); cbn; [| reflexivity].
  unfold remaining_hours_of. rewrite Hself, (settings_session _ _ Hset).
  reflexivity.
Qed.
(** ** Display

    The display rounds to the nearest unit of the last digit shown. *)

Lemma round_half_even_near (a b : Z) :
  0 <= a -> 0 < b ->
  2 * Z.abs (a - round_half_even a b * b) <= b.
Proof.
  intros Ha Hb. unfold round_half_even.
  pose proof (Z.div_mod a b ltac:(lia)) as Hdm.
  pose proof (Z.mod_pos_bound a b Hb) as Hr.
  destruct (2 * (a mod b) <? b) eqn:E1.
  - apply Z.ltb_lt in E1. nia.
  - apply Z.ltb_ge in E1.
    destruct (b <? 2 * (a mod b)) eqn:E2.
    + apply Z.ltb_lt in E2. nia.
    + apply Z.ltb_ge in E2. destruct (Z.even (a / b)); nia.
Qed.

(** The digits [format_fixed] writes are those of [fixed_units]: the
    integer nearest to [|q| * 10^n]. *)
Lemma fixed_units_near (n : nat) (q : Q) :
  (Qabs ((fixed_units n q # Z.to_pos (10 ^ Z.of_nat n)) - Qabs q)
   <= 1 # (2 * Z.to_pos (10 ^ Z.of_nat n)))%Q.
Proof.
  unfold fixed_units.
  destruct q as [num den]. cbn [Qnum Qden].
  assert (HP : 0 < 10 ^ Z.of_nat n) by (apply Z.pow_pos_nonneg; lia).
  set (P := 10 ^ Z.of_nat n) in *.
  pose proof (round_half_even_near (Z.abs num * P) (Zpos den)
                ltac:(nia) ltac:(lia)) as Hnear.
  set (u := round_half_even (Z.abs num * P) (Zpos den)) in *.
  unfold Qle, Qabs, Qminus, Qplus, Qopp. cbn [Qnum Qden].
  rewrite !Pos2Z.inj_mul. rewrite Z2Pos.id by lia.
  nia.
Qed.

(** ** The text of the automatic warning *)

Lemma texts_load_current_login_info env :
  keeps texts_sent (_load_current_login_info env).
Proof. unfold _load_current_login_info. frame. Qed.

Lemma texts_get_real_login_time env : keeps texts_sent (_get_real_login_time env).
Proof. apply blind_get_real_login_time. intros l msg. frame. Qed.

Lemma texts_send_text_message env to t w :
  texts_sent (snd (_send_text_message env to t w)) = (texts_sent w ++ [t])%list.
Proof.
  unfold _send_text_message.
  rewrite try_except_run, bind_run. cbn [get_self]. rewrite bind_run.
  match goal with
  | |- context [when ?c (_load_current_login_info env) w] =>
      destruct (run_total_keeps texts_sent _ w (total_when_load env c)
                  (keeps_when texts_sent c _
                     (fun _ => texts_load_current_login_info env)))
        as ([] & w1 & E1 & H1); rewrite E1
  end.
  rewrite bind_run. cbn [get_self]. rewrite bind_run. cbn [emit].
  rewrite <- H1.
  destruct (reply_SendTxt env) as [e | status [e | success]];
    try destruct (status =? 200); cbn; unfold texts_sent; cbn;
    rewrite ?flat_map_app; cbn; rewrite ?app_nil_r; reflexivity.
Qed.

Lemma texts_download_qr_image env url uuid :
  keeps texts_sent (_download_qr_image env url uuid).
Proof. unfold _download_qr_image, create_file. frame. Qed.

Lemma texts_send_image_message env to path :
  keeps texts_sent (_send_image_message env to path).
Proof.
  pose proof (texts_load_current_login_info env).
  unfold _send_image_message, exists_file. frame.
Qed.

Lemma texts_cleanup env path : keeps texts_sent (cleanup env path).
Proof. unfold cleanup, exists_file, remove_file. frame. Qed.

Lemma texts_send_login_qr_code env to :
  keeps texts_sent (_send_login_qr_code env to).
Proof.
  pose proof (texts_download_qr_image env).
  pose proof (texts_send_image_message env).
  pose proof (texts_cleanup env).
  unfold _send_login_qr_code. frame.
Qed.

(** The automatic workflow hands [SendTxt] one text, with the hours of
    the evaluator, when a login time is known, and none otherwise. *)
Lemma send_auto_warning_texts env w :
  texts_sent (snd (_send_auto_warning env w)) =
  (texts_sent w ++
   match fst (_get_real_login_time env w) with
   | Return (Some login_time) =>
       let online_hours := online_hours_at (datetime_now env) login_time in
       [auto_warning_text online_hours
          (remaining_hours_of (self w) online_hours)]
   | _ => []
   end)%list.
Proof.
  unfold _send_auto_warning. rewrite try_except_run, bind_run.
  destruct (load_current_login_info_run env w) as (w1 & E1 & _ & Hset).
  pose proof (texts_load_current_login_info env w) as T1.
  rewrite E1 in *. cbn [snd] in T1. rewrite bind_run.
  destruct (get_real_login_time_run env w1) as (w2 & E2 & Hself).
  pose proof (texts_get_real_login_time env w1) as T2.
  rewrite E2 in *. cbn [snd] in T2.
  rewrite (login_time_any_world env w1 w).
  destruct (total_get_real_login_time env w) as (r & w0 & Er).
  rewrite Er. cbn [fst].
  destruct r as [login_time |];
    [| cbn; rewrite app_nil_r; congruence].
  cbv zeta. rewrite bind_run. cbn [get_self]. rewrite bind_run.
  unfold remaining_hours_of at 1.
  rewrite Hself, (settings_session _ _ Hset).
  fold (remaining_hours_of (self w)
          (online_hours_at (datetime_now env) login_time)).
  match goal with
  | |- context [_send_text_message env ?to ?t w2] =>
      pose proof (texts_send_text_message env to t w2) as T3;
      destruct (total_send_text_message env to t w2)
        as (text_success & w3 & E3);
      rewrite E3 in *
  end.
  cbn [snd] in T3. cbv beta iota.
  match goal with
  | |- context [?m w3] =>
      assert (Hk : keeps texts_sent
                     (try_except m (fun _ => logger ERROR "发送自动预警失败")));
      [| etransitivity; [exact (Hk w3) | congruence]]
  end.
  pose proof (texts_send_login_qr_code env).
  destruct text_success; frame.
Qed.

(** ** Remaining hours *)

Lemma online_hours_at_exact now login_time :
  (online_hours_at now login_time == (now - login_time) / 3600)%Q.
Proof. unfold online_hours_at. apply Qred_correct. Qed.

Lemma online_hours_at_hours now login_time h :
  (now - login_time == h * 3600)%Q -> online_hours_at now login_time = Qred h.
Proof.
  intros H. unfold online_hours_at. apply Qred_complete.
  rewrite H. field.
Qed.

(** *** Rounding to doubles *)

Section Rounding.
Local Open Scope Q_scope.

Lemma pow2_pos (k : Z) : 0 < 2 ^ k.
Proof. apply Qpower_0_lt. reflexivity. Qed.

Lemma pow2_add (a b : Z) : 2 ^ (a + b) == 2 ^ a * 2 ^ b.
Proof. apply Qpower_plus. discriminate. Qed.

Lemma pow2_succ (a : Z) : 2 ^ (a + 1) == 2 * 2 ^ a.
Proof. rewrite pow2_add. change (2 ^ 1) with 2. ring. Qed.

Lemma pow2_pred (a : Z) : 2 * 2 ^ (a - 1) == 2 ^ a.
Proof. rewrite <- pow2_succ. replace (a - 1 + 1)%Z with a by lia. reflexivity. Qed.

Lemma pow2_inject (a : Z) : (0 <= a)%Z -> inject_Z (2 ^ a) == 2 ^ a.
Proof. intros H. rewrite Zpower_Qpower by exact H. reflexivity. Qed.

Lemma pow2_opp (a : Z) : 2 ^ a * 2 ^ (- a) == 1.
Proof. rewrite <- pow2_add. replace (a + - a)%Z with 0%Z by lia. reflexivity. Qed.

Lemma log2_bounds (n : Z) :
  (0 < n)%Z ->
  2 ^ Z.log2 n <= inject_Z n /\ inject_Z n < 2 * 2 ^ Z.log2 n.
Proof.
  intros Hn. destruct (Z.log2_spec n Hn) as [Hlo Hhi].
  pose proof (Z.log2_nonneg n) as H0.
  rewrite <- pow2_succ, <- !pow2_inject by lia.
  split; [rewrite <- Zle_Qle; exact Hlo | rewrite <- Zlt_Qlt].
  replace (Z.log2 n + 1)%Z with (Z.succ (Z.log2 n)) by lia. exact Hhi.
Qed.

(** [floor_log2] is the exponent of the power of two at or below
    [n / d]. *)
Lemma floor_log2_spec (n d : Z) :
  (0 < n)%Z -> (0 < d)%Z ->
  2 ^ Double.floor_log2 n d * inject_Z d <= inject_Z n /\
  inject_Z n < 2 * 2 ^ Double.floor_log2 n d * inject_Z d.
Proof.
  intros Hn Hd.
  destruct (log2_bounds n Hn) as [Hn1 Hn2].
  destruct (log2_bounds d Hd) as [Hd1 Hd2].
  unfold Double.floor_log2.
  set (k := (Z.log2 n - Z.log2 d)%Z).
  assert (Hk : 2 ^ Z.log2 n == 2 ^ k * 2 ^ Z.log2 d).
  { rewrite <- pow2_add. unfold k.
    replace (Z.log2 n - Z.log2 d + Z.log2 d)%Z with (Z.log2 n) by lia.
    reflexivity. }
  pose proof (pow2_pos k) as Hpk.
  pose proof (pow2_pos (Z.log2 d)) as Hpd.
  pose proof (pow2_pred k) as Hpred.
  pose proof (pow2_pos (k - 1)) as Hpk1.
  assert (HD : 0 < inject_Z d) by (rewrite Zlt_Qlt in Hd; exact Hd).
  assert (Htest : forall b : bool,
            b = (if (0 <=? k)%Z then (d * 2 ^ k <=? n)%Z
                 else (d <=? n * 2 ^ (- k))%Z) ->
            if b then 2 ^ k * inject_Z d <= inject_Z n
            else inject_Z n < 2 ^ k * inject_Z d).
  { intros b ->. destruct (0 <=? k)%Z eqn:Ek.
    - apply Z.leb_le in Ek.
      destruct (d * 2 ^ k <=? n)%Z eqn:Et.
      + apply Z.leb_le in Et. rewrite Zle_Qle, inject_Z_mult in Et.
        rewrite pow2_inject in Et by exact Ek. lra.
      + apply Z.leb_gt in Et. rewrite Zlt_Qlt, inject_Z_mult in Et.
        rewrite pow2_inject in Et by exact Ek. lra.
    - apply Z.leb_gt in Ek.
      pose proof (pow2_opp k) as Hopp. pose proof (pow2_pos (- k)) as Hpo.
      destruct (d <=? n * 2 ^ (- k))%Z eqn:Et.
      + apply Z.leb_le in Et. rewrite Zle_Qle, inject_Z_mult in Et.
        rewrite pow2_inject in Et by lia. nra.
      + apply Z.leb_gt in Et. rewrite Zlt_Qlt, inject_Z_mult in Et.
        rewrite pow2_inject in Et by lia. nra. }
  specialize (Htest _ eq_refl).
  destruct (0 <=? k)%Z;
    match goal with
    | |- context [if ?c then k else (k - 1)%Z] => destruct c
    end; split; nra.
Qed.


(** The mantissa is within half a unit of [(n / d) / 2^e]. *)
Lemma mantissa_near (n d e : Z) :
  (0 < n)%Z -> (0 < d)%Z ->
  let m := inject_Z (Double.mantissa n d e) in
  - (2 ^ e * inject_Z d) <= 2 * (inject_Z n - m * 2 ^ e * inject_Z d) /\
  2 * (inject_Z n - m * 2 ^ e * inject_Z d) <= 2 ^ e * inject_Z d.
Proof.
  intros Hn Hd. unfold Double.mantissa.
  assert (HD : 0 < inject_Z d) by (rewrite Zlt_Qlt in Hd; exact Hd).
  destruct (0 <=? e)%Z eqn:Ee.
  - apply Z.leb_le in Ee.
    assert (Hp : (0 < 2 ^ e)%Z) by (apply Z.pow_pos_nonneg; lia).
    pose proof (round_half_even_near n (d * 2 ^ e) ltac:(lia) ltac:(nia))
      as Hnear.
    set (m := round_half_even n (d * 2 ^ e)) in *.
    assert (H1 : (- (d * 2 ^ e) <= 2 * (n - m * (d * 2 ^ e)))%Z) by lia.
    assert (H2 : (2 * (n - m * (d * 2 ^ e)) <= d * 2 ^ e)%Z) by lia.
    unfold Z.sub in H1, H2. rewrite Zle_Qle in H1, H2.
    repeat first [ rewrite inject_Z_opp in H1 | rewrite inject_Z_mult in H1
                 | rewrite inject_Z_plus in H1 ].
    repeat first [ rewrite inject_Z_opp in H2 | rewrite inject_Z_mult in H2
                 | rewrite inject_Z_plus in H2 ].
    change (inject_Z 2) with 2 in H1, H2.
    rewrite !pow2_inject in H1, H2 by exact Ee.
    cbv zeta. split; lra.
  - apply Z.leb_gt in Ee.
    assert (Hp : (0 < 2 ^ (- e))%Z) by (apply Z.pow_pos_nonneg; lia).
    pose proof (round_half_even_near (n * 2 ^ (- e)) d ltac:(nia) Hd)
      as Hnear.
    set (m := round_half_even (n * 2 ^ (- e)) d) in *.
    assert (H1 : (- d <= 2 * (n * 2 ^ (- e) - m * d))%Z) by lia.
    assert (H2 : (2 * (n * 2 ^ (- e) - m * d) <= d)%Z) by lia.
    unfold Z.sub in H1, H2. rewrite Zle_Qle in H1, H2.
    repeat first [ rewrite inject_Z_opp in H1 | rewrite inject_Z_mult in H1
                 | rewrite inject_Z_plus in H1 ].
    repeat first [ rewrite inject_Z_opp in H2 | rewrite inject_Z_mult in H2
                 | rewrite inject_Z_plus in H2 ].
    change (inject_Z 2) with 2 in H1, H2.
    rewrite !pow2_inject in H1, H2 by lia.
    pose proof (pow2_opp e) as Hopp. pose proof (pow2_pos e) as Hpe.
    pose proof (pow2_pos (- e)) as Hpo.
    cbv zeta.
    set (P := 2 ^ e) in *. set (P' := 2 ^ (- e)) in *.
    set (N := inject_Z n) in *. set (D := inject_Z d) in *.
    set (M := inject_Z m) in *.
    assert (E1 : P * (2 * (N * P' - M * D)) == 2 * (N - M * P * D)).
    { transitivity (2 * (N * (P * P') - M * P * D)); [ring |].
      rewrite Hopp. ring. }
    split.
    + rewrite <- E1. 
      assert (P * - D <= P * (2 * (N * P' - M * D))).
      { apply Qmult_le_l; [exact Hpe | exact H1]. }
      lra.
    + rewrite <- E1.
      assert (P * (2 * (N * P' - M * D)) <= P * D).
      { apply Qmult_le_l; [exact Hpe | exact H2]. }
      lra.
Qed.


(** The rounding error of a positive number: at most its [2^-53]th part,
    or [2^-1075] among the subnormal numbers. *)
Lemma nearest_pos_near (n d : Z) (q : Q) :
  (0 < n)%Z -> (0 < d)%Z -> q * inject_Z d == inject_Z n ->
  let e := Double.exponent n d in
  let v := inject_Z (Double.mantissa n d e) * 2 ^ e in
  q - (q * 2 ^ (-53) + 2 ^ (-1075)) <= v /\
  v <= q + (q * 2 ^ (-53) + 2 ^ (-1075)).
Proof.
  intros Hn Hd Hq e v.
  destruct (mantissa_near n d e Hn Hd) as [H1 H2].
  destruct (floor_log2_spec n d Hn Hd) as [F1 _].
  fold v in H1, H2.
  assert (HD : 0 < inject_Z d) by (rewrite Zlt_Qlt in Hd; exact Hd).
  assert (HN : 0 < inject_Z n) by (rewrite Zlt_Qlt in Hn; exact Hn).
  set (N := inject_Z n) in *. set (D := inject_Z d) in *.
  set (u := 2 ^ (-53)). set (t := 2 ^ (-1075)).
  assert (Hu : 0 < u) by apply pow2_pos.
  assert (Ht : 0 < t) by apply pow2_pos.
  assert (HtD : 0 < t * D) by (apply Qmult_lt_0_compat; assumption).
  assert (HuN : 0 < N * u) by (apply Qmult_lt_0_compat; assumption).
  assert (HP : 2 ^ e * D <= 2 * (N * u) + 2 * (t * D)).
  { unfold e, Double.exponent.
    destruct (Z.max_spec (Double.floor_log2 n d - 52) (-1074))
      as [[Hlt ->] | [Hge ->]].
    - assert (E : 2 ^ (-1074) == 2 * t).
      { unfold t. rewrite <- pow2_succ. reflexivity. }
      rewrite E. lra.
    - assert (E : 2 ^ (Double.floor_log2 n d - 52)
                  == 2 ^ Double.floor_log2 n d * (2 * u)).
      { unfold u. rewrite <- pow2_succ, <- pow2_add.
        replace (Double.floor_log2 n d + (-53 + 1))%Z
          with (Double.floor_log2 n d - 52)%Z by lia.
        reflexivity. }
      rewrite E.
      assert (2 * u * (2 ^ Double.floor_log2 n d * D) <= 2 * u * N)
        by (apply Qmult_le_l; [lra | exact F1]).
      lra. }
  split; apply (Qmult_lt_0_le_reg_r _ _ D HD).
  - setoid_replace ((q - (q * u + t)) * D) with (N - (N * u + t * D))
      by (rewrite <- Hq; ring).
    lra.
  - setoid_replace ((q + (q * u + t)) * D) with (N + (N * u + t * D))
      by (rewrite <- Hq; ring).
    lra.
Qed.


Lemma pow2_1024 : 2 ^ 1024 == 2 * 2 ^ 1023.
Proof. rewrite <- pow2_succ. reflexivity. Qed.

Lemma pow2_le_1 (k : Z) : (k <= 0)%Z -> 2 ^ k <= 1.
Proof.
  intros H. change 1 with (2 ^ 0).
  apply Qpower_le_compat_l; [exact H | discriminate].
Qed.

Lemma pow2_ge_1 (k : Z) : (0 <= k)%Z -> 1 <= 2 ^ k.
Proof.
  intros H. change 1 with (2 ^ 0) at 1.
  apply Qpower_le_compat_l; [exact H | discriminate].
Qed.

(** Up to [2^1023] the double nearest to [q] is finite, and differs from
    [q] by at most its [2^-53]th part, or by [2^-1075] among the subnormal
    numbers. *)
Lemma nearest_near (q : Q) :
  Qabs q <= 2 ^ 1023 ->
  exists v, Double.nearest q = Fin v /\
            Qabs (v - q) <= Qabs q * 2 ^ (-53) + 2 ^ (-1075).
Proof.
  intros Hbound. unfold Double.nearest.
  pose proof (Qred_correct q) as Hred.
  destruct (Qred q) as [n d] eqn:Er. cbn [Qnum Qden].
  pose proof (Qmake_Qdiv n d) as Hdiv. rewrite Hred in Hdiv.
  assert (HD : 0 < inject_Z (Z.pos d)) by reflexivity.
  assert (Hq : q * inject_Z (Z.pos d) == inject_Z n).
  { rewrite Hdiv. field. intros H. rewrite H in HD. discriminate. }
  pose proof (pow2_pos (-53)) as Hu. pose proof (pow2_pos (-1075)) as Ht.
  pose proof (pow2_le_1 (-53) ltac:(lia)) as Hu1.
  pose proof (pow2_le_1 (-1075) ltac:(lia)) as Ht1.
  pose proof (pow2_ge_1 1023 ltac:(lia)) as Hbig.
  pose proof pow2_1024 as H1024.
  assert (Hu2 : 2 ^ (-53) <= 1 # 2).
  { change (1 # 2) with (2 ^ (-1)).
    apply Qpower_le_compat_l; [lia | discriminate]. }
  destruct (Z.abs n =? 0)%Z eqn:E0.
  - apply Z.eqb_eq in E0. assert (n = 0%Z) by lia. subst n.
    exists 0. split; [reflexivity |].
    assert (Hz : q == 0) by (rewrite <- Hred; reflexivity).
    rewrite Hz. change (Qabs (0 - 0)) with 0. change (Qabs 0) with 0. lra.
  - apply Z.eqb_neq in E0.
    destruct (Z.ltb_spec n 0) as [Hneg | Hpos].
    + assert (Hq' : (- q) * inject_Z (Z.pos d) == inject_Z (Z.abs n)).
      { rewrite Z.abs_neq by lia. rewrite inject_Z_opp, <- Hq. ring. }
      destruct (nearest_pos_near (Z.abs n) (Z.pos d) (- q)
                  ltac:(lia) ltac:(lia) Hq') as [L U].
      cbv zeta in L, U.
      set (v := inject_Z (Double.mantissa (Z.abs n) (Z.pos d)
                            (Double.exponent (Z.abs n) (Z.pos d)))
                * 2 ^ Double.exponent (Z.abs n) (Z.pos d)) in *.
      assert (Hqneg : q < 0).
      { assert (inject_Z n < 0) by (rewrite Zlt_Qlt in Hneg; exact Hneg).
        apply (Qmult_lt_r _ _ _ HD). rewrite Hq. lra. }
      assert (Habs : Qabs q == - q) by (apply Qabs_neg; lra).
      rewrite Habs in Hbound.
      assert (Hno : Qle_bool (2 ^ 1024) v = false).
      { destruct (Qle_bool (2 ^ 1024) v) eqn:Eo; [| reflexivity].
        apply Qle_bool_iff in Eo.
        assert (- q * 2 ^ (-53) <= - q * (1 # 2))
          by (apply Qmult_le_l; [lra | exact Hu2]).
        lra. }
      rewrite Hno. eexists. split; [reflexivity |].
      rewrite Qred_correct, Habs.
      apply Qabs_Qle_condition. split; lra.
    + assert (Hn : (0 < n)%Z) by lia.
      assert (Hq' : q * inject_Z (Z.pos d) == inject_Z (Z.abs n)).
      { rewrite Z.abs_eq by lia. exact Hq. }
      destruct (nearest_pos_near (Z.abs n) (Z.pos d) q
                  ltac:(lia) ltac:(lia) Hq') as [L U].
      cbv zeta in L, U.
      set (v := inject_Z (Double.mantissa (Z.abs n) (Z.pos d)
                            (Double.exponent (Z.abs n) (Z.pos d)))
                * 2 ^ Double.exponent (Z.abs n) (Z.pos d)) in *.
      assert (Hqpos : 0 < q).
      { assert (0 < inject_Z n) by (rewrite Zlt_Qlt in Hn; exact Hn).
        apply (Qmult_lt_r _ _ _ HD). rewrite Hq. lra. }
      assert (Habs : Qabs q == q) by (apply Qabs_pos; lra).
      rewrite Habs in Hbound.
      assert (Hno : Qle_bool (2 ^ 1024) v = false).
      { destruct (Qle_bool (2 ^ 1024) v) eqn:Eo; [| reflexivity].
        apply Qle_bool_iff in Eo.
        assert (q * 2 ^ (-53) <= q * (1 # 2))
          by (apply Qmult_le_l; [lra | exact Hu2]).
        lra. }
      rewrite Hno. eexists. split; [reflexivity |].
      rewrite Qred_correct, Habs.
      apply Qabs_Qle_condition. split; lra.
Qed.


Lemma nearest_wd (q q' : Q) : q == q' -> Double.nearest q = Double.nearest q'.
Proof.
  intros H. unfold Double.nearest. rewrite (Qred_complete q q' H). reflexivity.
Qed.

End Rounding.

Section Hours.
Local Open Scope Q_scope.

Lemma div_3600 (x : Q) : x / 3600 == x * (1 # 3600).
Proof. field. Qed.

Lemma Qabs_bounds (x : Q) : x <= Qabs x /\ - x <= Qabs x.
Proof.
  split; [apply Qle_Qabs |]. rewrite <- Qabs_opp. apply Qle_Qabs.
Qed.

Lemma hours_double_near (now login_time session : Q) :
  Qabs (now - login_time) <= 2 ^ 1000 -> Qabs session <= 2 ^ 1000 ->
  let exact := (now - login_time) / 3600 in
  exists online remaining,
    online_hours_double now login_time = Fin online /\
    remaining_hours_double (Fin session) (Fin online) = Fin remaining /\
    Qabs (online - exact) <= 3 * 2 ^ (-53) * Qabs exact + 2 * 2 ^ (-1075) /\
    Qabs (remaining - (session - exact))
    <= 5 * 2 ^ (-53) * (Qabs session + Qabs exact) + 4 * 2 ^ (-1075).
Proof.
  intros HD HS exact.
  assert (Hu : 2 ^ (-53) == 1 # 9007199254740992) by reflexivity.
  pose proof (pow2_pos (-1075)) as Ht.
  pose proof (pow2_le_1 (-1075) ltac:(lia)) as Ht1.
  assert (Hbig : 2 ^ 1023 == 8388608 * 2 ^ 1000).
  { change 8388608 with (2 ^ 23). rewrite <- pow2_add. reflexivity. }
  pose proof (pow2_ge_1 1000 ltac:(lia)) as H1000.
  unfold online_hours_double, remaining_hours_double.
  destruct (nearest_near (now - login_time)) as (s1 & E1 & H1);
    [rewrite Hbig; lra |].
  rewrite E1. rewrite Hu in H1. clear E1. unfold exact. clear exact.
  set (D := now - login_time) in *. clearbody D.
  (* the seconds, and their sign *)
  assert (Ha : exists a, 0 <= a /\ a <= 2 ^ 1000 /\ Qabs D == a /\
                         Qabs (D * (1 # 3600)) == a * (1 # 3600)).
  { exists (Qabs D). split; [apply Qabs_nonneg |]. split; [exact HD |].
    split; [reflexivity |]. rewrite Qabs_Qmult. reflexivity. }
  destruct Ha as (a & Ha0 & HaB & HaD & HaE).
  rewrite HaD in H1. apply Qabs_Qle_condition in H1.
  assert (HDa : - a <= D /\ D <= a)
    by (apply Qabs_Qle_condition; rewrite HaD; lra).
  apply Qabs_Qle_condition in HS.
  (* the quotient *)
  assert (Hs1 : Qabs (s1 * (1 # 3600))
                <= (a + a * (1 # 9007199254740992) + 2 ^ (-1075))
                   * (1 # 3600))
    by (apply Qabs_Qle_condition; split; lra).
  destruct (nearest_near (s1 / 3600)) as (o & E2 & H2);
    [rewrite div_3600, Hbig; lra |].
  rewrite E2. rewrite Hu, !div_3600 in H2. clear E2.
  assert (H2' : Qabs (o - s1 * (1 # 3600))
                <= (a + a * (1 # 9007199254740992) + 2 ^ (-1075))
                   * (1 # 3600) * (1 # 9007199254740992) + 2 ^ (-1075))
    by lra.
  clear H2 Hs1. apply Qabs_Qle_condition in H2'.
  exists o. cbn [sub].
  (* the difference *)
  destruct (Qabs_bounds session) as [Hx1 Hx2].
  assert (Hso : Qabs (session - o)
                <= Qabs session + a * (1 # 3600) * (1 + (3 # 9007199254740992))
                   + 2 * 2 ^ (-1075))
    by (apply Qabs_Qle_condition; split; lra).
  assert (HSa : Qabs session <= 2 ^ 1000) by (apply Qabs_Qle_condition; lra).
  destruct (nearest_near (Qred (session - o))) as (r & E3 & H3);
    [rewrite Qred_correct, Hbig; lra |].
  rewrite Hu, Qred_correct in H3.
  assert (H3' : Qabs (r - (session - o))
                <= (Qabs session
                    + a * (1 # 3600) * (1 + (3 # 9007199254740992))
                    + 2 * 2 ^ (-1075)) * (1 # 9007199254740992)
                   + 2 ^ (-1075))
    by lra.
  clear H3 Hso. apply Qabs_Qle_condition in H3'.
  exists r. split; [reflexivity |]. split; [exact E3 |]. clear E3.
  rewrite Hu, !div_3600, HaE.
  split; apply Qabs_Qle_condition; split; lra.
Qed.

End Hours.

(** Twenty-one minutes into a session of 72 hours the interpreter holds
    the doubles next to 0.35 and 71.65, and shows 0.3 and 71.7. *)
Example hours_after_21_minutes :
  online_hours_double 1800000000 1799998740
  = Fin (3152519739159347 # 9007199254740992) /\
  remaining_hours_double (Fin 72)
    (online_hours_double 1800000000 1799998740)
  = Fin (2520960260164813 # 35184372088832) /\
  format_fixed 1 (online_hours_double 1800000000 1799998740) = "0.3" /\
  format_fixed 1 (remaining_hours_double (Fin 72)
                    (online_hours_double 1800000000 1799998740)) = "71.7".
Proof. repeat split; vm_compute; reflexivity. Qed.




(** ** Decimals shown *)

Lemma decimals_status_text o r :
  decimals (status_text o r) = if gt r (Fin 0) then [1; 1]%nat else [1]%nat.
Proof. unfold status_text. destruct (gt r (Fin 0)); reflexivity. Qed.

(** C6, as stated, fails for the automatic warning: the text it sends 70
    hours into the session shows the hours with one decimal place, not
    with none. *)
Lemma auto_warning_shows_one_decimal :
  let env := sample_env 1799748000 1800000000 1800000004 in
  let w := sample_world "wxid_admin" 0 in
  ~ (forall t, In t (texts_sent (snd (_send_auto_warning env w))) ->
               decimals t = [0; 0]%nat).
Proof.
  intros env w H.
  specialize (H (auto_warning_text 70 (Fin 2))).
  discriminate H. vm_compute. left. reflexivity.
Qed.

(** C6 (amended): the hours are shown with one decimal place in the reply
    to the status query and in the automatic warning, and with no decimal
    place in the reply to the test command. *)
Theorem display_decimals env w msg login_time :
  login_time_known env login_time ->
  (PyStr.truthy (identity env w) = true ->
   exists o r,
     fst (_handle_status_query env w) = Return (text_reply (status_text o r)) /\
     decimals (status_text o r)
     = if gt r (Fin 0) then [1; 1]%nat else [1]%nat) /\
  (PyStr.truthy (identity env w) = true -> sender msg <> None ->
   exists t,
     fst (_handle_warning_test env msg w) = Return (text_reply t) /\
     decimals t = [0; 0]%nat) /\
  (exists t,
     texts_sent (snd (_send_auto_warning env w)) = (texts_sent w ++ [t])%list /\
     decimals t = [1; 1]%nat).
Proof.
  intros Hknown. split; [| split].
  - intros Hid. rewrite status_query_value, Hid, (Hknown w). cbv zeta.
    eexists _, _. split; [reflexivity | apply decimals_status_text].
  - intros Hid Hto. rewrite warning_test_value, Hid, (Hknown w). cbv zeta.
    destruct (sender msg); [| congruence].
    eexists. split; reflexivity.
  - rewrite send_auto_warning_texts, (Hknown w). cbv zeta.
    eexists. split; reflexivity.
Qed.

Lemma display_decimals_witness :
  let env := sample_env 1799748000 1800000000 1800000004 in
  let w := sample_world "wxid_admin" 0 in
  let msg := {| from_user_id := Some "wxid_admin"; sender_wxid := None |} in
  (exists o r,
     fst (_handle_status_query env w) = Return (text_reply (status_text o r)) /\
     decimals (status_text o r)
     = if gt r (Fin 0) then [1; 1]%nat else [1]%nat) /\
  (exists t,
     fst (_handle_warning_test env msg w) = Return (text_reply t) /\
     decimals t = [0; 0]%nat) /\
  (exists t,
     texts_sent (snd (_send_auto_warning env w)) = (texts_sent w ++ [t])%list /\
     decimals t = [1; 1]%nat).
Proof.
  intros env w msg.
  destruct (display_decimals env w msg 1799748000)
    as (Hstatus & Htest & Hauto).
  - intros w'. reflexivity.
  - split; [apply Hstatus; reflexivity |].
    split; [apply Htest; [reflexivity | discriminate] | exact Hauto].
Defined.

(** The three texts 70 hours into a session of 72. *)
Example texts_at_70_hours :
  let env := sample_env 1799748000 1800000000 1800000004 in
  let w := sample_world "wxid_admin" 0 in
  let msg := {| from_user_id := Some "wxid_admin"; sender_wxid := None |} in
  option_map (fun r => render (content r))
    (match fst (_handle_status_query env w) with
     | Return r => Some r | Raise _ => None end)
  = Some (Some "⚠️ 当前预警状态
您已持续在线超过70.0小时，预计2.0小时内即将掉线。") /\
  option_map (fun r => render (content r))
    (match fst (_handle_warning_test env msg w) with
     | Return r => Some r | Raise _ => None end)
  = Some (Some "⚠️ 掉线预警测试
您已持续在线超过70小时，预计2小时内即将掉线。
为避免服务中断，请手动扫码重新登录！稍后将为您发送登录二维码。") /\
  map render (texts_sent (snd (_send_auto_warning env w)))
  = [Some "⚠️ 登录状态预警

您已持续在线超过70.0小时，预计2.0小时内即将掉线。

为避免服务中断，请手动扫码重新登录！
稍后将为您发送登录二维码。"].
Proof. repeat split. Qed.

(** ** The polling loop *)

Lemma running_waiting env ticks : forall k,
  stop_at_tick env = None -> keeps running (waiting env ticks k).
Proof.
  induction ticks as [| ticks IH]; intros k Hstop; simpl; [apply keeps_ret |].
  unfold stops_at, cleared_elsewhere. rewrite Hstop.
  pose proof (IH (S k) Hstop). frame.
Qed.

Lemma running_iteration env :
  undisturbed env = true -> keeps running (iteration env).
Proof.
  unfold undisturbed. intros H.
  destruct (stop_at_tick env) eqn:Hstop; [discriminate |].
  apply negb_true_iff in H.
  pose proof (fun ticks k => running_waiting env ticks k Hstop).
  unfold iteration, iteration_body, interval_wait, int_of, backoff,
    cleared_elsewhere.
  rewrite H. frame.
Qed.

Lemma backoff_run env e w :
  exists w', backoff env e w = (Return tt, w') /\
    events w' = (events w ++ [Log ERROR "后台检查循环异常"; Sleep 60])%list.
Proof.
  unfold backoff, cleared_elsewhere, logger.
  rewrite !bind_run. cbn [emit]. rewrite bind_run. cbn [emit].
  destruct (stop_in_backoff env); cbn; eexists; split; try reflexivity;
    cbn; rewrite <- app_assoc; reflexivity.
Qed.

Lemma while_running_unfold envs w :
  while_running envs w =
  if negb (is_running (self w)) then (Return Exited, w)
  else match envs with
       | [] => (Return StillRunning, w)
       | env :: rest =>
           match iteration env w with
           | (Return _, w1) => while_running rest w1
           | (Raise e, w1) => (Raise e, w1)
           end
       end.
Proof.
  destruct envs as [| env rest]; cbn [while_running];
    rewrite bind_run; cbn [get_self];
    destruct (negb (is_running (self w))); reflexivity.
Qed.

Lemma total_while_running envs : total (while_running envs).
Proof.
  induction envs as [| env rest IH]; intros w; rewrite while_running_unfold;
    destruct (negb (is_running (self w))); try (eexists _, _; reflexivity).
  destruct (total_iteration env w) as ([] & w1 & E). rewrite E. apply IH.
Qed.

Lemma while_running_exited envs : forall w,
  fst (while_running envs w) = Return Exited ->
  is_running (self (snd (while_running envs w))) = false.
Proof.
  induction envs as [| env rest IH]; intros w; rewrite while_running_unfold;
    destruct (is_running (self w)) eqn:Hrun; cbn [negb fst snd];
    try discriminate; try (intros _; exact Hrun).
  destruct (total_iteration env w) as ([] & w1 & E). rewrite E. apply IH.
Qed.

Lemma while_running_goes_on envs : forall w,
  is_running (self w) = true -> forallb undisturbed envs = true ->
  fst (while_running envs w) = Return StillRunning.
Proof.
  induction envs as [| env rest IH]; intros w Hrun Hund;
    rewrite while_running_unfold, Hrun; cbn [negb]; [reflexivity |].
  cbn [forallb] in Hund. apply andb_true_iff in Hund as [Hu Hrest].
  pose proof (running_iteration env Hu w) as Hk. unfold running in Hk.
  destruct (total_iteration env w) as ([] & w1 & E). rewrite E in *.
  cbn [snd] in Hk. apply IH; [congruence | exact Hrest].
Qed.

(** C7: an exception raised in the body of a turn is caught and logged,
    60 seconds of backoff follow, and the loop goes on with the next turn;
    no exception leaves the loop; the loop ends only when it finds
    [is_running] cleared, and as long as nothing clears the flag it does
    not end, whatever is raised in its turns. *)
Theorem loop_survives_exceptions env rest envs w :
  (forall e w1,
     is_running (self w) = true ->
     iteration_body env w = (Raise e, w1) ->
     exists w2,
       backoff env e w1 = (Return tt, w2) /\
       events w2 = (events w1 ++ [Log ERROR "后台检查循环异常"; Sleep 60])%list /\
       while_running (env :: rest) w = while_running rest w2) /\
  total (while_running envs) /\
  (fst (while_running envs w) = Return Exited ->
   is_running (self (snd (while_running envs w))) = false) /\
  (is_running (self w) = true -> forallb undisturbed envs = true ->
   fst (while_running envs w) = Return StillRunning).
Proof.
  split; [| split; [apply total_while_running |
            split; [apply while_running_exited | apply while_running_goes_on]]].
  intros e w1 Hrun Hraise.
  destruct (backoff_run env e w1) as (w2 & E2 & Hev).
  exists w2. split; [exact E2 |]. split; [exact Hev |].
  rewrite (while_running_unfold (env :: rest)), Hrun. cbn [negb].
  unfold iteration. rewrite try_except_run, Hraise, E2. reflexivity.
Qed.

Lemma loop_survives_exceptions_witness :
  let env := sample_env 1799748000 1800000000 1800000004 in
  let w := polling_every NaN (sample_world "wxid_admin" 1799999900) in
  exists w1 w2,
    iteration_body env w = (Raise ValueError, w1) /\
    backoff env ValueError w1 = (Return tt, w2) /\
    events w2 = (events w1 ++ [Log ERROR "后台检查循环异常"; Sleep 60])%list /\
    while_running [env; env] w = while_running [env] w2 /\
    fst (while_running [env; env; env] w) = Return StillRunning.
Proof.
  intros env w.
  destruct (loop_survives_exceptions env [env] [env; env; env] w)
    as (Hcaught & _ & _ & Hon).
  assert (E : iteration_body env w
              = (Raise ValueError, snd (iteration_body env w)))
    by (vm_compute; reflexivity).
  destruct (Hcaught ValueError _ eq_refl E) as (w2 & Hback & Hev & Hnext).
  exists (snd (iteration_body env w)), w2.
  split; [exact E |]. split; [exact Hback |]. split; [exact Hev |].
  split; [exact Hnext |].
  apply Hon; reflexivity.
Defined.

(** ** Missing state files *)

Lemma no_state_files_unknown env :
  no_state_files env -> login_time_unknown env.
Proof.
  intros Hno w.
  unfold _get_real_login_time, read_login_time, possible_paths.
  cbn [first_login_time]. unfold read_login_time.
  rewrite !Hno. reflexivity.
Qed.

(** C8: with no state file there, the status and the test command answer
    that the login information cannot be had, or, when an identity is
    still cached from before, that the login time cannot be had; and the
    evaluator of the polling loop returns false, raising nothing, so that
    the turn it belongs to raises nothing either and sends no text. *)
Theorem missing_state_files env w msg :
  no_state_files env ->
  let answer :=
    text_reply (if PyStr.truthy (current_wxid (self w))
                then no_login_time else no_login_info) in
  fst (_handle_status_query env w) = Return answer /\
  fst (_handle_warning_test env msg w) = Return answer /\
  fst (_should_send_warning env w) = Return false /\
  (exists w', iteration env w = (Return tt, w') /\ quiet w' = quiet w).
Proof.
  intros Hno answer. subst answer.
  pose proof (no_state_files_unknown env Hno) as Hunknown.
  assert (Hid : identity env w = current_wxid (self w))
    by (unfold identity; rewrite Hno; reflexivity).
  split; [rewrite status_query_value, Hid, (Hunknown w); reflexivity |].
  split; [rewrite warning_test_value, Hid, (Hunknown w); reflexivity |].
  assert (Hdue : fst (_should_send_warning env w) = Return false).
  { rewrite should_send_warning_value, (Hunknown w).
    rewrite andb_false_r. reflexivity. }
  split; [exact Hdue |].
  destruct (total_iteration env w) as ([] & w' & E).
  exists w'. split; [exact E |].
  destruct (iteration_effect env w) as [Hq | (Hc & Hl & Hf)];
    rewrite E in *; cbn [snd] in *; [exact Hq |].
  exfalso.
  pose proof (iteration_run env w) as Hrun.
  destruct (total_should_send_warning env w) as (b & w1 & Eb).
  rewrite Eb in Hdue, Hrun. cbn [fst] in Hdue. injection Hdue as ->.
  pose proof (calm_should_send_warning env w) as H1.
  rewrite Eb in H1. cbn [snd] in H1. apply calm_quiet_eq in H1.
  pose proof (quiet_wait_or_backoff env w1) as H2.
  rewrite <- Hrun, E in H2. cbn [snd] in H2.
  apply quiet_fires in H1. apply quiet_fires in H2. lia.
Qed.

Lemma missing_state_files_witness :
  let env := without_state_files
               (sample_env 1799748000 1800000000 1800000004) in
  let w := sample_world "wxid_admin" 0 in
  let msg := {| from_user_id := Some "wxid_admin"; sender_wxid := None |} in
  fst (_handle_status_query env w) = Return (text_reply no_login_info) /\
  fst (_handle_warning_test env msg w) = Return (text_reply no_login_info) /\
  fst (_should_send_warning env w) = Return false /\
  (exists w', iteration env w = (Return tt, w') /\ quiet w' = quiet w).
Proof.
  intros env w msg.
  apply (missing_state_files env w msg). intros f. reflexivity.
Defined.

(** ** Cleanup of the scratch file *)

Lemma in_existsb path l : existsb (String.eqb path) l = true <-> In path l.
Proof.
  rewrite existsb_exists. split.
  - intros (x & Hin & Heq). apply String.eqb_eq in Heq. subst. exact Hin.
  - intros Hin. exists path. split; [exact Hin | apply String.eqb_refl].
Qed.

Lemma not_in_removed path l :
  ~ In path (filter (fun p => negb (String.eqb path p)) l).
Proof.
  intros Hin. apply filter_In in Hin as [_ H].
  rewrite String.eqb_refl in H. discriminate.
Qed.

Lemma scratch_writable_written env :
  scratch_writable env = true -> scratch_file env = Written.
Proof. unfold scratch_writable. destruct (scratch_file env); congruence. Qed.

(** A download that succeeds leaves the image in the scratch directory. *)
Lemma download_qr_image_run env url uuid w :
  reply_QrImage env = Response 200 (Json tt) ->
  scratch_writable env = true ->
  let path := image_path_of uuid (time_at_download env) in
  exists w1,
    _download_qr_image env url uuid w = (Return (Some path), w1) /\
    In path (scratch w1) /\
    writes w1 = (writes w ++ [FileWrite path])%list /\
    removals w1 = removals w.
Proof.
  intros Hreply Hwritable path.
  unfold _download_qr_image, create_file, logger.
  rewrite try_except_run, bind_run. cbn [emit].
  rewrite Hreply, (scratch_writable_written env Hwritable).
  cbn [Z.eqb Pos.eqb]. cbv zeta. fold path.
  rewrite !bind_run. cbn [get_scratch scratch].
  destruct (existsb (String.eqb path) (scratch w)) eqn:Hex; cbn.
  - eexists. split; [reflexivity |]. cbn.
    split; [apply in_existsb; exact Hex |].
    unfold writes, removals. cbn. rewrite !filter_app. cbn.
    rewrite !app_nil_r. split; reflexivity.
  - eexists. split; [reflexivity |]. cbn.
    split; [rewrite in_app_iff; cbn; tauto |].
    unfold writes, removals. cbn. rewrite !filter_app. cbn.
    rewrite !app_nil_r. split; reflexivity.
Qed.

Lemma scratch_send_image_message env to path :
  keeps (fun w => (scratch w, writes w, removals w))
    (_send_image_message env to path).
Proof.
  assert (keeps (fun w => (scratch w, writes w, removals w))
            (_load_current_login_info env))
    by (unfold _load_current_login_info; frame).
  unfold _send_image_message, exists_file. frame.
Qed.

Lemma total_send_image_message env to path :
  total (_send_image_message env to path).
Proof. unfold _send_image_message. repeat total_step. Qed.

(** The cleanup tries to delete a file that is there, and deletes it unless
    the deletion itself fails. *)
Lemma cleanup_run env path w :
  In path (scratch w) ->
  exists w',
    cleanup env path w = (Return tt, w') /\
    writes w' = writes w /\
    removals w' = (removals w ++ [FileRemove path])%list /\
    (remove_ok env = true -> ~ In path (scratch w')).
Proof.
  intros Hin. apply in_existsb in Hin.
  unfold cleanup, exists_file, remove_file.
  rewrite try_except_run, !bind_run. cbn [get_scratch ret].
  rewrite Hin. cbn [when]. rewrite bind_run. cbn [emit].
  destruct (remove_ok env); cbn; eexists; (split; [reflexivity |]); cbn;
    unfold writes, removals; cbn; rewrite !filter_app; cbn;
    rewrite ?app_nil_r; (split; [reflexivity |]); (split; [reflexivity |]).
  - intros _. apply not_in_removed.
  - discriminate.
Qed.

(** C9, as stated, fails where [os.remove] raises: the exception is
    swallowed, the workflow returns what the upload gave, here [True], and
    the image that was written is still in the scratch directory. *)
Lemma failed_removal_leaves_file :
  let env := with_remove_ok false
               (sample_env 1799748000 1800000000 1800000004) in
  let w := sample_world "wxid_admin" 0 in
  let path := "tmp/qr_u1_1800000000.png" in
  let r := _send_login_qr_code env "wxid_admin" w in
  ~ (In (FileWrite path) (writes (snd r)) ->
     fst r = Return true -> ~ In path (scratch (snd r))).
Proof.
  intros env w path r H.
  apply H; [vm_compute; left; reflexivity | reflexivity |].
  vm_compute. left. reflexivity.
Qed.

(** C9 (amended): once the backend has handed out a QR code and its image
    has been written to the scratch directory, [_send_login_qr_code]
    returns, whatever the answer to the image upload, only after trying
    once to delete that file, and the file is gone unless the deletion
    itself fails. *)
Theorem qr_image_cleanup env to w qr :
  reply_GetQR env = Response 200 (Json qr) ->
  Success qr = true -> QrUrl qr <> "" -> Uuid qr <> "" ->
  reply_QrImage env = Response 200 (Json tt) ->
  scratch_writable env = true ->
  let path := image_path_of (Uuid qr) (time_at_download env) in
  exists success w',
    _send_login_qr_code env to w = (Return success, w') /\
    writes w' = (writes w ++ [FileWrite path])%list /\
    removals w' = (removals w ++ [FileRemove path])%list /\
    (remove_ok env = true -> ~ In path (scratch w')).
Proof.
  intros Hqr Hsuccess Hurl Huuid Himage Hwritable path.
  unfold _send_login_qr_code.
  rewrite try_except_run. cbv zeta. rewrite bind_run. cbn [emit].
  rewrite Hqr. cbn [Z.eqb Pos.eqb negb].
  rewrite Hsuccess, (proj2 (truthy_iff _) Hurl), (proj2 (truthy_iff _) Huuid).
  cbn [andb]. rewrite bind_run.
  match goal with
  | |- context [_download_qr_image env ?url ?uuid ?w0] =>
      destruct (download_qr_image_run env url uuid w0 Himage Hwritable)
        as (w1 & E1 & Hin & Hwr1 & Hrem1)
  end.
  fold path in E1, Hin, Hwr1. rewrite E1, bind_run.
  pose proof (scratch_send_image_message env to path w1) as Hk.
  destruct (total_send_image_message env to path w1) as (success & w2 & E2).
  rewrite E2 in *. cbn [snd] in Hk. injection Hk as Hs Hwr2 Hrem2.
  rewrite bind_run.
  destruct (cleanup_run env path w2) as (w3 & E3 & Hwr3 & Hrem3 & Hgone);
    [rewrite Hs; exact Hin |].
  rewrite E3. cbn [ret].
  exists success, w3. split; [reflexivity |].
  split; [| split; [| exact Hgone]].
  - rewrite Hwr3, Hwr2, Hwr1. unfold writes. cbn.
    rewrite filter_app. cbn. rewrite app_nil_r. reflexivity.
  - rewrite Hrem3, Hrem2, Hrem1. unfold removals. cbn.
    rewrite filter_app. cbn. rewrite app_nil_r. reflexivity.
Qed.

Lemma qr_image_cleanup_witness :
  let env := with_UploadImg (Response 500 (BadBody JSONDecodeError))
               (sample_env 1799748000 1800000000 1800000004) in
  let w := sample_world "wxid_admin" 0 in
  exists w',
    _send_login_qr_code env "wxid_admin" w = (Return false, w') /\
    writes w' = [FileWrite "tmp/qr_u1_1800000000.png"] /\
    removals w' = [FileRemove "tmp/qr_u1_1800000000.png"] /\
    ~ In "tmp/qr_u1_1800000000.png" (scratch w').
Proof.
  intros env w.
  destruct (qr_image_cleanup env "wxid_admin" w
              {| Success := true; QrUrl := "http://127.0.0.1/qr.png";
                 Uuid := "u1" |})
    as (success & w' & E & Hw & Hr & Hgone);
    [reflexivity | reflexivity | discriminate | discriminate
    | reflexivity | reflexivity |].
  exists w'. split.
  - rewrite E. f_equal. f_equal.
    assert (H : fst (_send_login_qr_code env "wxid_admin" w) = Return false)
      by reflexivity.
    rewrite E in H. cbn [fst] in H. congruence.
  - split; [exact Hw |]. split; [exact Hr |]. apply Hgone. reflexivity.
Defined.

(** ** Construction *)

(** C10: constructed with no persisted configuration, the plugin has the
    warning enabled, a threshold of 2 hours, an empty target, a session
    lifetime of 72 hours and a check interval of 2 hours, and has started
    the polling thread. *)
Theorem default_construction w :
  config_truthy (config_store w) = false ->
  exists w',
    __init__ w = (Return tt, w') /\
    config (self w') = _load_default_config /\
    warning_enabled (self w') = true /\
    warning_threshold (self w') = Fin 2 /\
    warning_target (self w') = "" /\
    session_duration_hours (self w') = Fin 72 /\
    check_interval_hours (self w') = Fin 2 /\
    is_running (self w') = true /\
    events w' = (events w ++ [ ThreadStart BackgroundLoop;
                               Log INFO "后台预警检查已启动";
                               Log INFO "插件初始化完成" ])%list.
Proof.
  intros Hnone. unfold __init__, load_config. rewrite bind_run.
  assert (Hc : config_or_default (config_store w) = _load_default_config)
    by (unfold config_or_default; rewrite Hnone;
        destruct (config_store w); reflexivity).
  cbv zeta. rewrite Hc. eexists. split; [reflexivity |]. cbn.
  rewrite <- !app_assoc. cbn. repeat split.
Qed.

Lemma default_construction_witness :
  let w := {| self := attributes _load_default_config; config_store := None;
              scratch := []; events := [] |} in
  exists w',
    __init__ w = (Return tt, w') /\
    warning_enabled (self w') = true /\
    warning_threshold (self w') = Fin 2 /\
    warning_target (self w') = "" /\
    session_duration_hours (self w') = Fin 72 /\
    check_interval_hours (self w') = Fin 2 /\
    is_running (self w') = true /\
    events w' = [ ThreadStart BackgroundLoop;
                  Log INFO "后台预警检查已启动";
                  Log INFO "插件初始化完成" ].
Proof.
  intros w.
  destruct (default_construction w eq_refl)
    as (w' & E & _ & H1 & H2 & H3 & H4 & H5 & H6 & H7).
  exists w'. repeat split; assumption.
Defined.

(** * Further properties of the code *)

(** ** Where the login time comes from *)

Lemma Qle_bool_false (a b : Q) : Qle_bool a b = false <-> ~ (a <= b)%Q.
Proof.
  split.
  - intros H Hle. apply Qle_bool_iff in Hle. congruence.
  - intros H. destruct (Qle_bool a b) eqn:E; [| reflexivity].
    apply Qle_bool_iff in E. contradiction.
Qed.

Lemma read_offers env f t msg w :
  offers env f t ->
  read_login_time env f msg w = (Return (Some t), log_to [Log DEBUG msg] w).
Proof.
  intros (d & Hf & Ht & Hpos & Hmax).
  unfold read_login_time, fromtimestamp. rewrite Hf, Ht. cbn [get gt lt].
  rewrite (proj2 (Qlt_bool_iff _ _) Hpos).
  rewrite (proj2 (Qle_bool_iff _ _) Hmax). reflexivity.
Qed.

Lemma read_silent env f msg w :
  silent env f -> read_login_time env f msg w = (Return None, w).
Proof.
  intros [Hf | (d & Hf & [Ht | (x & Ht & Hx)])];
    unfold read_login_time; rewrite Hf; try reflexivity;
    rewrite Ht; cbn [get]; [reflexivity |].
  rewrite Hx. reflexivity.
Qed.

Lemma read_broken env f msg w :
  broken env f -> exists e, read_login_time env f msg w = (Raise e, w).
Proof.
  intros [(e & Hf) | (d & Hf & [Ht | [Ht | (t & Ht & Hpos & Hmax)]])];
    unfold read_login_time, fromtimestamp; rewrite Hf;
    try (eexists; reflexivity); rewrite Ht; cbn [get gt lt];
    try (eexists; reflexivity).
  rewrite (proj2 (Qlt_bool_iff _ _) Hpos).
  rewrite (proj2 (Qle_bool_false _ _) Hmax). eexists. reflexivity.
Qed.

(** Every file offers a login time, is silent, or is broken. *)
Lemma state_file_cases env f :
  (exists t, offers env f t) \/ silent env f \/ broken env f.
Proof.
  unfold offers, silent, broken.
  destruct (state_files env f) as [| e | d] eqn:Hf.
  - right. left. left. reflexivity.
  - right. right. left. exists e. reflexivity.
  - destruct (login_time d) as [[x |] |] eqn:Ht.
    + destruct (gt x (Fin 0)) eqn:Hx.
      * destruct x as [t | | |]; try discriminate.
        -- apply Qlt_bool_iff in Hx.
           destruct (Qle_bool t (timestamp_max env)) eqn:Hmax.
           ++ left. exists t, d. apply Qle_bool_iff in Hmax. auto.
           ++ right. right. right. exists d. split; [reflexivity |].
              right. right. exists t. apply Qle_bool_false in Hmax. auto.
        -- right. right. right. exists d. auto.
      * right. left. right. exists d. split; [reflexivity |].
        right. exists x. auto.
    + right. right. right. exists d. auto.
    + right. left. right. exists d. auto.
Qed.

Lemma first_login_time_offer env before f after t w :
  Forall (silent env) before -> offers env f t ->
  first_login_time env (before ++ f :: after) w
  = (Return (Some t), log_to [Log DEBUG "从备用路径获取登录时间"] w).
Proof.
  intros Hsilent Hoffer. induction Hsilent as [| g before Hg _ IH];
    cbn [app first_login_time]; rewrite bind_run.
  - rewrite (read_offers env f t _ w Hoffer). reflexivity.
  - rewrite (read_silent env g _ w Hg). exact IH.
Qed.

Lemma first_login_time_broken env before f after w :
  Forall (silent env) before -> broken env f ->
  exists e, first_login_time env (before ++ f :: after) w = (Raise e, w).
Proof.
  intros Hsilent Hbroken. induction Hsilent as [| g before Hg _ IH];
    cbn [app first_login_time]; rewrite bind_run.
  - destruct (read_broken env f "从备用路径获取登录时间" w Hbroken) as (e & ->).
    exists e. reflexivity.
  - rewrite (read_silent env g _ w Hg). exact IH.
Qed.

Lemma first_login_time_silent env paths w :
  Forall (silent env) paths ->
  first_login_time env paths w = (Return None, w).
Proof.
  intros Hsilent. induction Hsilent as [| g paths Hg _ IH];
    cbn [first_login_time]; [reflexivity |].
  rewrite bind_run, (read_silent env g _ w Hg). exact IH.
Qed.

(** A list of files starts with silent ones up to a first file that offers
    a login time or is broken, or is silent throughout. *)
Lemma search_cases env paths :
  (exists before f after t,
     paths = (before ++ f :: after)%list /\
     Forall (silent env) before /\ offers env f t) \/
  (exists before f after,
     paths = (before ++ f :: after)%list /\
     Forall (silent env) before /\ broken env f) \/
  Forall (silent env) paths.
Proof.
  induction paths as [| g paths IH]; [right; right; constructor |].
  destruct (state_file_cases env g) as [(t & Hg) | [Hg | Hg]].
  - left. exists [], g, paths, t. repeat split; [constructor | exact Hg].
  - destruct IH as [(before & f & after & t & -> & Hs & Ho)
                   | [(before & f & after & -> & Hs & Hb) | Hs]].
    + left. exists (g :: before), f, after, t.
      repeat split; [constructor; assumption | exact Ho].
    + right. left. exists (g :: before), f, after.
      repeat split; [constructor; assumption | exact Hb].
    + right. right. constructor; assumption.
  - right. left. exists [], g, paths. repeat split; [constructor | exact Hg].
Qed.

Lemma get_real_login_time_offer env before f after t :
  consulted = (before ++ f :: after)%list ->
  Forall (silent env) before -> offers env f t ->
  login_time_known env t.
Proof.
  intros Horder Hsilent Hoffer w.
  unfold _get_real_login_time. rewrite try_except_run, bind_run.
  destruct before as [| g before]; cbn [app] in Horder;
    unfold consulted in Horder; injection Horder as Hg Hrest.
  - subst f. rewrite (read_offers env _ t _ w Hoffer). reflexivity.
  - subst g. inversion Hsilent as [| ? ? Hg Hbefore]; subst.
    rewrite (read_silent env _ _ w Hg), bind_run, Hrest.
    rewrite (first_login_time_offer env before f after t w Hbefore Hoffer).
    reflexivity.
Qed.

Lemma get_real_login_time_broken env before f after :
  consulted = (before ++ f :: after)%list ->
  Forall (silent env) before -> broken env f ->
  login_time_unknown env.
Proof.
  intros Horder Hsilent Hbroken w.
  unfold _get_real_login_time. rewrite try_except_run, bind_run.
  destruct before as [| g before]; cbn [app] in Horder;
    unfold consulted in Horder; injection Horder as Hg Hrest.
  - subst f.
    destruct (read_broken env wx849_device_info "获取到登录时间" w Hbroken)
      as (e & ->).
    reflexivity.
  - subst g. inversion Hsilent as [| ? ? Hg Hbefore]; subst.
    rewrite (read_silent env _ _ w Hg), bind_run, Hrest.
    destruct (first_login_time_broken env before f after w Hbefore Hbroken)
      as (e & ->).
    reflexivity.
Qed.

Lemma get_real_login_time_silent env :
  Forall (silent env) consulted -> login_time_unknown env.
Proof.
  intros Hs w. unfold _get_real_login_time.
  rewrite try_except_run, bind_run.
  unfold consulted in Hs. inversion Hs as [| ? ? Hg Hrest]; subst.
  rewrite (read_silent env _ _ w Hg), bind_run.
  rewrite (first_login_time_silent env possible_paths w Hrest).
  reflexivity.
Qed.

(** X1: the files are consulted in the order device file, Client, Client2,
    Client3, and the first one that is not silent decides.  If it offers a
    login time, that is the login time; if it is broken, there is no login
    time, whatever the files after it hold; and if all four are silent
    (absent, without a login time, or with one that is not above zero),
    there is none. *)
Theorem login_time_resolution env before f after t :
  (consulted = (before ++ f :: after)%list ->
   Forall (silent env) before -> offers env f t ->
   login_time_known env t) /\
  (consulted = (before ++ f :: after)%list ->
   Forall (silent env) before -> broken env f ->
   login_time_unknown env) /\
  (Forall (silent env) consulted -> login_time_unknown env).
Proof.
  split; [apply get_real_login_time_offer |].
  split; [apply get_real_login_time_broken |].
  apply get_real_login_time_silent.
Qed.

(** X2: a login time that is known is positive, within the range of
    [datetime], and offered by the first file that is not silent. *)
Theorem login_time_known_source env t :
  login_time_known env t ->
  (0 < t)%Q /\ (t <= timestamp_max env)%Q /\
  exists before f after,
    consulted = (before ++ f :: after)%list /\
    Forall (silent env) before /\ offers env f t.
Proof.
  intros Hknown.
  pose (w0 := {| self := attributes _load_default_config;
                 config_store := None; scratch := []; events := [] |}).
  destruct (search_cases env consulted)
    as [(before & f & after & t' & Horder & Hs & Ho)
       | [(before & f & after & Horder & Hs & Hb) | Hs]].
  - pose proof (get_real_login_time_offer env before f after t'
                  Horder Hs Ho w0) as H.
    rewrite (Hknown w0) in H. injection H as <-.
    destruct Ho as (d & Hf & Ht & Hpos & Hmax).
    split; [exact Hpos |]. split; [exact Hmax |].
    exists before, f, after. repeat split; try assumption.
    exists d. auto.
  - pose proof (get_real_login_time_broken env before f after
                  Horder Hs Hb w0) as H.
    rewrite (Hknown w0) in H. discriminate.
  - pose proof (get_real_login_time_silent env Hs w0) as H.
    rewrite (Hknown w0) in H. discriminate.
Qed.

Lemma login_time_resolution_witness :
  let env := sample_env 1799748000 1800000000 1800000004 in
  login_time_known (with_state_files login_in_Client2 env) 1799748000 /\
  login_time_unknown (with_state_files login_time_as_string env) /\
  login_time_unknown (without_state_files env).
Proof.
  intros env. split; [| split].
  - apply (proj1 (login_time_resolution (with_state_files login_in_Client2 env)
                    [wx849_device_info; login_stat_Client]
                    login_stat_Client2 [login_stat_Client3] 1799748000)).
    + reflexivity.
    + apply Forall_cons; [| apply Forall_cons; [| apply Forall_nil]].
      * right. eexists. split; [reflexivity |]. right.
        eexists. split; reflexivity.
      * left. reflexivity.
    + eexists. split; [reflexivity |]. split; [reflexivity |].
      split; [reflexivity | vm_compute; discriminate].
  - apply (proj1 (proj2 (login_time_resolution
                           (with_state_files login_time_as_string env)
                           [] wx849_device_info possible_paths 0))).
    + reflexivity.
    + constructor.
    + right. eexists. split; [reflexivity |]. left. reflexivity.
  - apply (proj2 (proj2 (login_time_resolution (without_state_files env)
                           [] wx849_device_info [] 0))).
    unfold consulted, possible_paths.
    repeat (apply Forall_cons; [left; reflexivity |]). apply Forall_nil.
Defined.

Lemma login_time_known_source_witness :
  let env := with_state_files login_in_Client2
               (sample_env 1799748000 1800000000 1800000004) in
  (0 < 1799748000)%Q /\ (1799748000 <= timestamp_max env)%Q /\
  exists before f after,
    consulted = (before ++ f :: after)%list /\
    Forall (silent env) before /\ offers env f 1799748000.
Proof.
  intros env. apply (login_time_known_source env 1799748000).
  intros w. reflexivity.
Defined.

(** ** Attributes the delivery code leaves alone

    The code that reads the state files and talks to the backend writes no
    attribute but the cached identity and the time of the last warning. *)
Section Attributes.

Context {V : Type} (part : Plugin -> V).
Hypothesis part_login_info :
  forall a b p, part (set_login_info a b p) = part p.
Hypothesis part_last_warning_time :
  forall t p, part (set_last_warning_time t p) = part p.

Let view (w : World) : V := part (self w).

Lemma part_emit e : keeps view (emit e).
Proof. intros w. reflexivity. Qed.

Lemma part_logger l msg : keeps view (logger l msg).
Proof. intros w. reflexivity. Qed.

Lemma part_set_scratch l : keeps view (set_scratch l).
Proof. intros w. reflexivity. Qed.

Lemma part_set_login_info a b : keeps view (modify_self (set_login_info a b)).
Proof. intros w. apply part_login_info. Qed.

Lemma part_set_last_warning_time t :
  keeps view (modify_self (set_last_warning_time t)).
Proof. intros w. apply part_last_warning_time. Qed.

#[local] Hint Resolve part_emit part_logger part_set_scratch
  part_set_login_info part_set_last_warning_time : frame.

Lemma part_load_current_login_info env :
  keeps view (_load_current_login_info env).
Proof. unfold _load_current_login_info. frame. Qed.
#[local] Hint Resolve part_load_current_login_info : frame.

Lemma part_get_real_login_time env : keeps view (_get_real_login_time env).
Proof. apply blind_get_real_login_time. apply part_logger. Qed.
#[local] Hint Resolve part_get_real_login_time : frame.

Lemma part_should_send_warning env : keeps view (_should_send_warning env).
Proof. unfold _should_send_warning. frame. Qed.

Lemma part_send_text_message env to t :
  keeps view (_send_text_message env to t).
Proof. unfold _send_text_message. frame. Qed.
#[local] Hint Resolve part_send_text_message : frame.

Lemma part_download_qr_image env url uuid :
  keeps view (_download_qr_image env url uuid).
Proof. unfold _download_qr_image, create_file. frame. Qed.
#[local] Hint Resolve part_download_qr_image : frame.

Lemma part_send_image_message env to path :
  keeps view (_send_image_message env to path).
Proof. unfold _send_image_message, exists_file. frame. Qed.
#[local] Hint Resolve part_send_image_message : frame.

Lemma part_cleanup env path : keeps view (cleanup env path).
Proof. unfold cleanup, exists_file, remove_file. frame. Qed.
#[local] Hint Resolve part_cleanup : frame.

Lemma part_send_login_qr_code env to :
  keeps view (_send_login_qr_code env to).
Proof. unfold _send_login_qr_code. frame. Qed.
#[local] Hint Resolve part_send_login_qr_code : frame.

Lemma part_send_auto_warning env : keeps view (_send_auto_warning env).
Proof. unfold _send_auto_warning. frame. Qed.

Lemma part_send_qr_code_after_delay env to :
  keeps view (_send_qr_code_after_delay env to).
Proof. unfold _send_qr_code_after_delay. frame. Qed.

End Attributes.

(** ** Starting and stopping the polling loop *)

Lemma start_background_check_run w :
  _start_background_check w =
  (Return tt,
   if is_running (self w) then w
   else log_to [ThreadStart BackgroundLoop; Log INFO "后台预警检查已启动"]
          (with_self (fun s => set_background_thread true
                                 (set_is_running true s)) w)).
Proof.
  unfold _start_background_check. rewrite bind_run. cbn [get_self].
  destruct (is_running (self w)); [reflexivity |].
  unfold logger. rewrite !bind_run. cbn.
  unfold log_to, with_self, emit. cbn. rewrite <- app_assoc. reflexivity.
Qed.

Lemma start_background_check_run_when (c : bool) w :
  when c _start_background_check w =
  (Return tt, if c then snd (_start_background_check w) else w).
Proof.
  destruct c; cbn [when]; [| reflexivity].
  rewrite start_background_check_run. reflexivity.
Qed.

(** X3: [_start_background_check] leaves the loop wanted, starts a thread
    only if none was wanted before, and changes nothing when called
    again. *)
Theorem start_background_check_once w :
  let w1 := snd (_start_background_check w) in
  is_running (self w1) = true /\
  loops_started w1
  = (loops_started w + if is_running (self w) then 0 else 1)%nat /\
  _start_background_check w1 = (Return tt, w1).
Proof.
  cbv zeta. rewrite start_background_check_run. cbn [snd].
  destruct (is_running (self w)) eqn:Hrun.
  - split; [exact Hrun |]. split; [lia |].
    rewrite start_background_check_run, Hrun. reflexivity.
  - split; [reflexivity |]. split.
    + unfold loops_started, log_to, with_self. cbn [events].
      rewrite filter_app, length_app. reflexivity.
    + rewrite start_background_check_run. reflexivity.
Qed.

Lemma init_in_step w : in_step (snd (__init__ w)).
Proof.
  unfold in_step, __init__, load_config. rewrite bind_run. cbv zeta.
  generalize (config_or_default (config_store w)) as c. intros c.
  unfold _start_background_check, logger, attributes.
  destruct (get (auto_session_warning_enabled c) true) eqn:Hen;
    cbn; rewrite ?Hen; reflexivity.
Qed.

Lemma stop_background_check_run env w :
  _stop_background_check env w =
  (Return tt,
   log_to ((if background_thread (self w) && thread_alive env
            then [ThreadJoin 5] else []) ++ [Log INFO "后台预警检查已停止"])
     (with_self (set_is_running false) w)).
Proof.
  unfold _stop_background_check, logger, when.
  rewrite !bind_run. cbn [modify_self get_self self].
  rewrite bind_run. cbn.
  destruct (background_thread (self w)); destruct (thread_alive env);
    cbn; unfold log_to, with_self, emit; cbn; rewrite <- ?app_assoc;
    reflexivity.
Qed.

Lemma reload_in_step env w : in_step (snd (reload env w)).
Proof.
  unfold in_step, reload, load_config.
  rewrite bind_run, stop_background_check_run, bind_run.
  cbn [log_to with_self config_store]. cbv zeta.
  generalize (config_or_default (config_store w)) as c. intros c.
  rewrite !bind_run. cbn [modify_self get_self self].
  rewrite !bind_run. cbn [modify_self get_self self].
  unfold _start_background_check, logger, when.
  destruct (get (auto_session_warning_enabled c) true) eqn:Hen;
    cbn; rewrite ?Hen; reflexivity.
Qed.

Ltac run_steps :=
  repeat first
    [ rewrite bind_run
    | progress cbn [get_self modify_self emit store_config ret raise
                    load_config get_scratch set_scratch logger when
                    self config_store scratch events fst snd] ].

Lemma enable_warning_saved env w :
  save_config_ok env = true ->
  let w' := snd (_handle_enable_warning env w) in
  in_step w' /\ warning_enabled (self w') = true /\
  config_store w' = Some (with_enabled true (config (self w))).
Proof.
  intros Hsave.
  unfold in_step, _handle_enable_warning, save_config.
  rewrite try_except_run. run_steps. rewrite Hsave. run_steps.
  rewrite start_background_check_run. cbn [is_running set_config
    set_warning_enabled].
  destruct (is_running (self w)) eqn:Hrun; cbn; rewrite ?Hrun; auto.
Qed.

Lemma disable_warning_saved env w :
  save_config_ok env = true ->
  let w' := snd (_handle_disable_warning env w) in
  in_step w' /\ warning_enabled (self w') = false /\
  config_store w' = Some (with_enabled false (config (self w))).
Proof.
  intros Hsave.
  unfold in_step, _handle_disable_warning, save_config.
  rewrite try_except_run. run_steps. rewrite Hsave. run_steps.
  rewrite stop_background_check_run. cbn. auto.
Qed.

(** X4: the polling loop is wanted exactly when the warning is enabled
    after construction, after a reload, and after the enable and the
    disable command when the configuration could be saved; these two
    commands then also leave the flag they set in the configuration
    store. *)
Theorem loop_in_step_with_enabled env w :
  in_step (snd (__init__ w)) /\
  in_step (snd (reload env w)) /\
  (save_config_ok env = true ->
   let w' := snd (_handle_enable_warning env w) in
   in_step w' /\ warning_enabled (self w') = true /\
   config_store w' = Some (with_enabled true (config (self w))) /\
   option_map auto_session_warning_enabled (config_store w')
   = Some (Some true)) /\
  (save_config_ok env = true ->
   let w' := snd (_handle_disable_warning env w) in
   in_step w' /\ warning_enabled (self w') = false /\
   config_store w' = Some (with_enabled false (config (self w))) /\
   option_map auto_session_warning_enabled (config_store w')
   = Some (Some false)).
Proof.
  split; [apply init_in_step |]. split; [apply reload_in_step |].
  split; intros Hsave.
  - destruct (enable_warning_saved env w Hsave) as (H1 & H2 & H3).
    split; [exact H1 |]. split; [exact H2 |]. split; [exact H3 |].
    rewrite H3. reflexivity.
  - destruct (disable_warning_saved env w Hsave) as (H1 & H2 & H3).
    split; [exact H1 |]. split; [exact H2 |]. split; [exact H3 |].
    rewrite H3. reflexivity.
Qed.

Lemma loop_in_step_with_enabled_witness :
  let env := sample_env 1799748000 1800000000 1800000004 in
  let w := sample_world "wxid_admin" 0 in
  let w' := snd (_handle_disable_warning env w) in
  in_step w' /\ warning_enabled (self w') = false /\
  config_store w' = Some (with_enabled false (config (self w))) /\
  option_map auto_session_warning_enabled (config_store w')
  = Some (Some false).
Proof.
  intros env w.
  apply (proj2 (proj2 (proj2 (loop_in_step_with_enabled env w)))).
  reflexivity.
Defined.

(** ** When the configuration cannot be saved *)

(** X5: when [save_config] fails, the enable, the disable and the
    threshold command answer with their failure message and leave the
    configuration store as it was, but the change stays in memory: the
    warning is then enabled without a polling loop having been started,
    disabled without the loop having been stopped, or the new threshold is
    in force until the next start. *)
Theorem failed_save_keeps_change_in_memory env content p0 p1 x w :
  save_config_ok env = false ->
  (let w' := snd (_handle_enable_warning env w) in
   (exists e, fst (_handle_enable_warning env w)
              = Return (text_reply [Lit "❌ 启用预警失败: "; StrExn e])) /\
   warning_enabled (self w') = true /\
   is_running (self w') = is_running (self w) /\
   loops_started w' = loops_started w /\
   config_store w' = config_store w) /\
  (let w' := snd (_handle_disable_warning env w) in
   (exists e, fst (_handle_disable_warning env w)
              = Return (text_reply [Lit "❌ 禁用预警失败: "; StrExn e])) /\
   warning_enabled (self w') = false /\
   is_running (self w') = is_running (self w) /\
   config_store w' = config_store w) /\
  (PyStr.split content = [p0; p1] ->
   PyStr.endswith (PyStr.lower p1) "h" = true ->
   PyStr.parse_float (PyStr.drop_last (PyStr.lower p1)) = Some x ->
   lt x (Fin 0) = false -> gt x (Fin 72) = false ->
   let w' := snd (_handle_threshold_setting env content w) in
   (exists e, fst (_handle_threshold_setting env content w)
              = Return (text_reply [Lit "❌ 设置阈值失败: "; StrExn e])) /\
   warning_threshold (self w') = x /\
   config_store w' = config_store w).
Proof.
  intros Hsave. split; [| split].
  - unfold _handle_enable_warning, save_config.
    rewrite try_except_run. run_steps. rewrite Hsave. run_steps.
    split; [eexists; reflexivity |]. cbn.
    repeat split.
    unfold loops_started. cbn [events]. rewrite !filter_app. cbn.
    rewrite !app_nil_r. reflexivity.
  - unfold _handle_disable_warning, save_config.
    rewrite try_except_run. run_steps. rewrite Hsave. run_steps.
    split; [eexists; reflexivity |]. cbn. repeat split.
  - intros Hsplit Hend Hparse Hlt Hgt.
    unfold _handle_threshold_setting, save_config.
    rewrite try_except_run. cbv zeta.
    rewrite Hsplit, Hend, Hparse, Hlt, Hgt. cbn [negb orb].
    run_steps. rewrite Hsave. run_steps.
    split; [eexists; reflexivity |]. cbn. split; reflexivity.
Qed.

Lemma failed_save_keeps_change_in_memory_witness :
  let env := with_failing_save (sample_env 1799748000 1800000000 1800000004) in
  let w := sample_world "wxid_admin" 0 in
  let w' := snd (_handle_enable_warning env w) in
  warning_enabled (self w') = true /\
  is_running (self w') = false /\
  loops_started w' = 0%nat /\
  config_store w' = None /\
  warning_threshold
    (self (snd (_handle_threshold_setting env "$预警阈值 5h" w))) = Fin 5.
Proof.
  intros env w.
  destruct (failed_save_keeps_change_in_memory env "$预警阈值 5h"
              "$预警阈值" "5h" (Fin 5) w eq_refl)
    as ((_ & H1 & H2 & H3 & H4) & _ & Hthreshold).
  split; [exact H1 |]. split; [exact H2 |]. split; [exact H3 |].
  split; [exact H4 |].
  apply Hthreshold; reflexivity.
Defined.

(** ** Reload *)

(** X6: a reload takes the configuration from the store (or the defaults)
    and the enabled flag, the threshold and the target from it; it does not
    take up a changed session lifetime, check interval or backend address,
    and it keeps the time of the last warning and the cached identity. *)
Theorem reload_refreshes_three_settings env w :
  let c := config_or_default (config_store w) in
  let w' := snd (reload env w) in
  config (self w') = c /\
  warning_enabled (self w') = get (auto_session_warning_enabled c) true /\
  warning_threshold (self w') = get (auto_session_warning_threshold c) (Fin 2) /\
  warning_target (self w') = get (auto_session_warning_target c) "" /\
  session_duration_hours (self w') = session_duration_hours (self w) /\
  check_interval_hours (self w') = check_interval_hours (self w) /\
  (api_host (self w'), api_port (self w'), api_path_prefix (self w'))
  = (api_host (self w), api_port (self w), api_path_prefix (self w)) /\
  last_warning_time (self w') = last_warning_time (self w) /\
  current_wxid (self w') = current_wxid (self w) /\
  config_store w' = config_store w.
Proof.
  cbv zeta. unfold reload, load_config.
  rewrite bind_run, stop_background_check_run. run_steps.
  cbn [log_to with_self config_store self]. 
  generalize (config_or_default (config_store w)) as c. intros c.
  rewrite start_background_check_run_when.
  destruct (get (auto_session_warning_enabled c) true) eqn:Hen;
    cbn; rewrite ?Hen; repeat split.
Qed.

(** ** Waiting between two polls *)

Lemma log_to_with_self evs f w :
  log_to evs (with_self f w) = with_self f (log_to evs w).
Proof. reflexivity. Qed.

(** What the waiting loop does from its [k]-th turn on, the flag being
    set when it starts. *)
Lemma waiting_run env : forall ticks k w,
  is_running (self w) = true ->
  waiting env ticks k w =
  (Return tt,
   match stop_at_tick env with
   | Some n =>
       if (k <=? n)%nat && (n <? k + ticks)%nat
       then log_to (repeat (Sleep 1) (n - k))
              (with_self (set_is_running false) w)
       else log_to (repeat (Sleep 1) ticks) w
   | None => log_to (repeat (Sleep 1) ticks) w
   end).
Proof.
  induction ticks as [| ticks IH]; intros k w Hrun.
  - cbn [waiting ret repeat]. rewrite log_to_nil.
    destruct (stop_at_tick env) as [n |]; [| reflexivity].
    replace ((k <=? n)%nat && (n <? k + 0)%nat) with false; [reflexivity |].
    symmetry. apply andb_false_iff.
    destruct (Nat.leb_spec k n); [right | left; reflexivity].
    apply Nat.ltb_ge. lia.
  - cbn [waiting]. unfold cleared_elsewhere, stops_at.
    destruct (stop_at_tick env) as [n |] eqn:Hstop.
    + destruct (Nat.eqb_spec n k) as [-> | Hne].
      * run_steps. cbn [is_running set_is_running negb].
        replace ((k <=? k)%nat && (k <? k + S ticks)%nat) with true.
        -- rewrite Nat.sub_diag. cbn [repeat]. rewrite log_to_nil.
           reflexivity.
        -- symmetry. apply andb_true_iff. split;
             [apply Nat.leb_le | apply Nat.ltb_lt]; lia.
      * run_steps. rewrite Hrun. cbn [negb]. run_steps.
        rewrite IH by exact Hrun. rewrite ?Hstop. f_equal.
        replace ((S k <=? n)%nat && (n <? S k + ticks)%nat)
          with ((k <=? n)%nat && (n <? k + S ticks)%nat).
        -- destruct ((k <=? n)%nat && (n <? k + S ticks)%nat) eqn:Hin.
           ++ apply andb_true_iff in Hin as [Hle Hlt].
              apply Nat.leb_le in Hle.
              replace (n - k)%nat with (S (n - S k)) by lia.
              unfold log_to, with_self. cbn. rewrite <- app_assoc.
              reflexivity.
           ++ unfold log_to. cbn. rewrite <- app_assoc. reflexivity.
        -- destruct (Nat.leb_spec k n), (Nat.leb_spec (S k) n),
             (Nat.ltb_spec n (k + S ticks)), (Nat.ltb_spec n (S k + ticks));
             try reflexivity; lia.
    + run_steps. rewrite Hrun. cbn [negb]. run_steps.
      rewrite IH by exact Hrun. rewrite ?Hstop.
      unfold log_to. cbn. rewrite <- app_assoc. reflexivity.
Qed.

(** X7: the waiting loop sleeps one second at a time.  Left alone it
    sleeps [ticks] seconds and changes nothing; when another thread clears
    [is_running] after [n] of them, it sleeps no further second and ends
    with the flag cleared. *)
Theorem waiting_ends_when_stopped env ticks n w :
  is_running (self w) = true ->
  (stop_at_tick env = None ->
   waiting env ticks O w = (Return tt, log_to (repeat (Sleep 1) ticks) w)) /\
  (stop_at_tick env = Some n -> (n < ticks)%nat ->
   waiting env ticks O w
   = (Return tt, log_to (repeat (Sleep 1) n)
                   (with_self (set_is_running false) w))).
Proof.
  intros Hrun. split.
  - intros Hstop. rewrite (waiting_run env ticks O w Hrun), Hstop.
    reflexivity.
  - intros Hstop Hlt. rewrite (waiting_run env ticks O w Hrun), Hstop.
    cbn [Nat.leb andb Nat.add]. rewrite (proj2 (Nat.ltb_lt _ _) Hlt).
    rewrite Nat.sub_0_r. reflexivity.
Qed.

Lemma waiting_ends_when_stopped_witness :
  let env := stopped_after 3 (sample_env 1799748000 1800000000 1800000004) in
  let w := polling_every (Fin 2) (sample_world "wxid_admin" 0) in
  waiting env 60 O w
  = (Return tt, log_to [Sleep 1; Sleep 1; Sleep 1]
                  (with_self (set_is_running false) w)).
Proof.
  intros env w.
  apply (proj2 (waiting_ends_when_stopped env 60 3 w eq_refl));
    [reflexivity | lia].
Defined.

(** [int(x)] of a number below 1 is no positive number. *)
Lemma to_nat_truncation_small (x : Q) :
  (x < 1)%Q -> Z.to_nat (Z.quot (Qnum x) (Zpos (Qden x))) = O.
Proof.
  unfold Qlt. cbn [Qnum Qden]. intros H.
  assert (Hle : Z.quot (Qnum x) (Zpos (Qden x)) <= 0).
  { destruct (Z.le_gt_cases 0 (Qnum x)) as [Hpos | Hneg].
    - rewrite Z.quot_small; lia.
    - apply Z.quot_le_upper_bound; lia. }
  lia.
Qed.

Lemma interval_wait_raises env w :
  to_int (check_interval_hours (self w)) = None ->
  exists e, interval_wait env w = (Raise e, w).
Proof.
  intros Hnone. unfold interval_wait. rewrite bind_run. cbn [get_self].
  destruct (check_interval_hours (self w)); try discriminate;
    eexists; reflexivity.
Qed.

(** The seconds of a whole number of hours. *)
Lemma whole_hours_ticks (h : Z) :
  to_int (scale (Fin (inject_Z h)) 3600) = Some (h * 3600).
Proof.
  cbn [scale to_int].
  pose proof (Qred_correct (inject_Z h * 3600)) as E.
  destruct (Qred (inject_Z h * 3600)) as [num den].
  unfold Qeq in E. cbn in E. cbn [Qnum Qden].
  f_equal. replace num with (h * 3600 * Z.pos den) by lia.
  apply Z.quot_mul. lia.
Qed.



(** ** A loop that has nothing to send *)

Lemma sent_waiting env ticks k : keeps sent (waiting env ticks k).
Proof.
  revert k. induction ticks; intros k; simpl; unfold cleared_elsewhere; frame.
Qed.

Lemma gates_waiting env ticks k : keeps gates (waiting env ticks k).
Proof.
  revert k. induction ticks; intros k; simpl; unfold cleared_elsewhere; frame.
Qed.

Lemma sent_wait_or_backoff env :
  keeps sent (try_except (interval_wait env) (backoff env)).
Proof.
  pose proof (sent_waiting env).
  unfold interval_wait, int_of, backoff, cleared_elsewhere. frame.
Qed.

Lemma gates_wait_or_backoff env :
  keeps gates (try_except (interval_wait env) (backoff env)).
Proof.
  pose proof (gates_waiting env).
  unfold interval_wait, int_of, backoff, cleared_elsewhere. frame.
Qed.

Lemma gates_backoff env e : keeps gates (backoff env e).
Proof. unfold backoff, cleared_elsewhere. frame. Qed.

Lemma sent_should_send_warning env : keeps sent (_should_send_warning env).
Proof.
  assert (keeps sent (_get_real_login_time env))
    by (apply blind_get_real_login_time; intros l msg; frame).
  unfold _should_send_warning. frame.
Qed.

Lemma gates_iteration env : keeps gates (iteration env).
Proof.
  intros w. rewrite iteration_run.
  pose proof (part_should_send_warning
                (fun p => (warning_enabled p, warning_target p)) env w) as H1.
  pose proof (gates_wait_or_backoff env) as Hwait.
  pose proof (gates_backoff env) as Hback.
  destruct (_should_send_warning env w) as [[[|] | e] w1]; cbn [snd] in H1.
  - destruct (asyncio_run_ok env).
    + pose proof (part_send_auto_warning
                    (fun p => (warning_enabled p, warning_target p))
                    (fun _ _ _ => eq_refl) (fun _ _ => eq_refl) env w1) as H2.
      destruct (_send_auto_warning env w1) as [[[] | e] w2]; cbn [snd] in H2.
      * rewrite Hwait. unfold gates. congruence.
      * rewrite Hback. unfold gates. congruence.
    + rewrite Hback. exact H1.
  - rewrite Hwait. exact H1.
  - rewrite Hback. exact H1.
Qed.

Lemma iteration_sends_nothing env w :
  warning_enabled (self w) = false \/ warning_target (self w) = "" ->
  sent (snd (iteration env w)) = sent w.
Proof.
  intros Hshut. rewrite iteration_run.
  pose proof (should_send_warning_value env w) as Hv.
  pose proof (sent_should_send_warning env w) as Hs.
  assert (Hfalse : warning_enabled (self w) &&
                   PyStr.truthy (warning_target (self w)) = false)
    by (destruct Hshut as [-> | ->]; [reflexivity | apply andb_false_r]).
  rewrite Hfalse in Hv. cbn [andb] in Hv.
  destruct (_should_send_warning env w) as [[b | e] w1];
    cbn [fst snd] in Hv, Hs; [| discriminate].
  injection Hv as ->.
  rewrite (sent_wait_or_backoff env w1). exact Hs.
Qed.

(** X9: while the warning is disabled or no target is configured, as it is
    with the default configuration, the polling loop sends nothing: however
    many turns it takes, no text and no step of the QR-image part goes to
    the backend, and the two settings stay as they are. *)
Theorem loop_sends_nothing_when_shut envs : forall w,
  warning_enabled (self w) = false \/ warning_target (self w) = "" ->
  sent (snd (run (map Turn envs) w)) = sent w /\
  gates (snd (run (map Turn envs) w)) = gates w.
Proof.
  induction envs as [| env envs IH]; intros w Hshut; [split; reflexivity |].
  cbn [map]. rewrite run_cons. cbn [perform].
  pose proof (iteration_sends_nothing env w Hshut) as Hs.
  pose proof (gates_iteration env w) as Hg.
  destruct (total_iteration env w) as ([] & w1 & E).
  rewrite E in *. cbn [snd] in Hs, Hg.
  assert (Hshut1 : warning_enabled (self w1) = false \/
                   warning_target (self w1) = "").
  { unfold gates in Hg. injection Hg as He Ht. rewrite He, Ht. exact Hshut. }
  destruct (IH w1 Hshut1) as [IHs IHg].
  split; congruence.
Qed.

Lemma loop_sends_nothing_when_shut_witness :
  let env := sample_env 1799748000 1800000000 1800000004 in
  let w := polling_every (Fin (1 # 100)) (sample_world "" 0) in
  sent (snd (run (map Turn [env; env; env]) w)) = sent w /\
  gates (snd (run (map Turn [env; env; env]) w)) = gates w.
Proof.
  intros env w.
  apply (loop_sends_nothing_when_shut [env; env; env] w).
  right. reflexivity.
Defined.

(** ** A threshold that is not a number *)

Lemma ge_nan_r x : ge x NaN = false.
Proof. destruct x; reflexivity. Qed.

Lemma sub_nan_r x : sub x NaN = NaN.
Proof. destruct x; reflexivity. Qed.

(** X10: the threshold command takes [nan] (which [float] reads, and which
    is neither below 0 nor above 72) for a threshold; and with a threshold
    or a session lifetime of [nan] the evaluator never finds the warning
    due. *)
Theorem nan_threshold_never_due env content p0 p1 w :
  (PyStr.split content = [p0; p1] ->
   PyStr.endswith (PyStr.lower p1) "h" = true ->
   PyStr.parse_float (PyStr.drop_last (PyStr.lower p1)) = Some NaN ->
   save_config_ok env = true ->
   let w' := snd (_handle_threshold_setting env content w) in
   warning_threshold (self w') = NaN /\
   config_store w' = Some (with_threshold NaN (config (self w))) /\
   option_map auto_session_warning_threshold (config_store w')
   = Some (Some NaN)) /\
  (warning_threshold (self w) = NaN \/ session_duration_hours (self w) = NaN ->
   fst (_should_send_warning env w) = Return false).
Proof.
  split.
  - intros Hsplit Hend Hparse Hsave.
    destruct (threshold_setting_accepts env content p0 p1 NaN w
                Hsplit Hend Hparse eq_refl eq_refl Hsave) as (H1 & _ & H3).
    split; [exact H1 |]. split; [exact H3 |]. rewrite H3. reflexivity.
  - intros Hnan. rewrite should_send_warning_value.
    assert (Htrigger : sub (session_duration_hours (self w))
                         (warning_threshold (self w)) = NaN)
      by (destruct Hnan as [-> | ->]; [apply sub_nan_r | reflexivity]).
    rewrite Htrigger.
    destruct (fst (_get_real_login_time env w)) as [[t |] | e];
      rewrite ?ge_nan_r, ?andb_false_r; reflexivity.
Qed.

Lemma nan_threshold_never_due_witness :
  let env := sample_env 1799748000 1800000000 1800000004 in
  let w := sample_world "wxid_admin" 0 in
  let w' := snd (_handle_threshold_setting env "$预警阈值 NaNh" w) in
  (warning_threshold (self w') = NaN /\
   config_store w' = Some (with_threshold NaN (config (self w))) /\
   option_map auto_session_warning_threshold (config_store w')
   = Some (Some NaN)) /\
  fst (_should_send_warning env w') = Return false.
Proof.
  intros env w w'. split.
  - apply (proj1 (nan_threshold_never_due env "$预警阈值 NaNh"
                    "$预警阈值" "NaNh" w)); reflexivity.
  - apply (proj2 (nan_threshold_never_due env "$预警阈值 NaNh"
                    "$预警阈值" "NaNh" w')).
    left. reflexivity.
Defined.

(** ** A session past its lifetime *)

Lemma Qle_bool_Qred_l a b : Qle_bool (Qred a) b = Qle_bool a b.
Proof.
  destruct (Qle_bool a b) eqn:E.
  - apply Qle_bool_iff. rewrite Qred_correct. apply Qle_bool_iff. exact E.
  - apply Qle_bool_false. rewrite Qred_correct. apply Qle_bool_false. exact E.
Qed.



(** ** The thread of the test command *)

Lemma qr_threads_load_current_login_info env :
  keeps qr_threads (_load_current_login_info env).
Proof. unfold _load_current_login_info. frame. Qed.

Lemma qr_threads_get_real_login_time env :
  keeps qr_threads (_get_real_login_time env).
Proof. apply blind_get_real_login_time. intros l msg. frame. Qed.

(** X12: the test command starts a thread that sends the QR code, to the
    sender of the message, exactly when it answers with the test text: when
    an identity and a login time are at hand and the message names its
    sender.  In every case it leaves the cooldown record as it was. *)
Theorem test_command_starts_one_thread env msg w :
  let w' := snd (_handle_warning_test env msg w) in
  qr_threads w' =
  (qr_threads w ++
   if PyStr.truthy (identity env w) then
     match fst (_get_real_login_time env w), sender msg with
     | Return (Some _), Some to => [to]
     | _, _ => []
     end
   else [])%list /\
  quiet w' = quiet w.
Proof.
  cbv zeta. split; [| apply calm_quiet, calm_handle_warning_test].
  unfold _handle_warning_test. rewrite try_except_run, bind_run.
  destruct (load_current_login_info_run env w) as (w1 & E1 & Hid & _).
  pose proof (qr_threads_load_current_login_info env w) as T1.
  rewrite E1 in *. cbn [snd] in T1. rewrite bind_run. cbn [get_self].
  rewrite Hid.
  destruct (PyStr.truthy (identity env w)); cbn [negb ret snd];
    [| rewrite app_nil_r; exact T1].
  rewrite bind_run.
  destruct (get_real_login_time_run env w1) as (w2 & E2 & _).
  pose proof (qr_threads_get_real_login_time env w1) as T2.
  rewrite E2 in *. cbn [snd] in T2.
  rewrite (login_time_any_world env w1 w).
  destruct (total_get_real_login_time env w) as (r & w0 & Er).
  rewrite Er. cbn [fst].
  destruct r as [login_time |]; cbn [ret snd];
    [| rewrite app_nil_r; congruence].
  cbv zeta. rewrite bind_run. cbn [get_self]. unfold target_of.
  destruct (sender msg) as [to |]; run_steps.
  - unfold qr_threads at 1. cbn [events].
    rewrite flat_map_app. cbn [flat_map app].
    fold (qr_threads w2). congruence.
  - unfold logger. run_steps. unfold qr_threads at 1. cbn [events].
    rewrite flat_map_app. cbn [flat_map app]. rewrite app_nil_r.
    fold (qr_threads w2). rewrite app_nil_r. congruence.
Qed.

(** ** Sending the QR code *)

Lemma scratch_load_when env c :
  keeps scratch (when c (_load_current_login_info env)).
Proof. unfold _load_current_login_info. frame. Qed.

(** The upload of an image that is in the scratch directory succeeds
    exactly when the backend answers 200 with a body that says
    [Success]. *)
Lemma send_image_message_value env to path w :
  In path (scratch w) ->
  fst (_send_image_message env to path w) = Return (upload_ok env).
Proof.
  intros Hin. unfold _send_image_message, upload_ok, exists_file.
  rewrite try_except_run, bind_run. cbn [get_self]. rewrite bind_run.
  match goal with
  | |- context [when ?c (_load_current_login_info env) w] =>
      destruct (run_total_keeps scratch _ w (total_when_load env c)
                  (scratch_load_when env c)) as ([] & w1 & E1 & H1);
      rewrite E1
  end.
  run_steps. rewrite H1, (proj2 (in_existsb _ _) Hin). cbn [negb].
  run_steps.
  destruct (reply_UploadImg env) as [e | status [e | success]];
    [reflexivity | |].
  - destruct (status =? 200); [| reflexivity].
    destruct e; reflexivity.
  - destruct (status =? 200); [| reflexivity].
    destruct success; reflexivity.
Qed.

(** The download returns a path exactly when the image comes with status
    200 and the scratch file can be written; the file is then there. *)
Lemma download_qr_image_value env url uuid w :
  exists w1,
    _download_qr_image env url uuid w
    = (Return (if download_ok env
               then Some (image_path_of uuid (time_at_download env))
               else None), w1) /\
    (download_ok env = true ->
     In (image_path_of uuid (time_at_download env)) (scratch w1)).
Proof.
  unfold download_ok.
  destruct (reply_QrImage env) as [e | status [e | []]] eqn:Hreply.
  - unfold _download_qr_image. rewrite try_except_run. run_steps.
    rewrite Hreply. run_steps. eexists. split; [reflexivity | discriminate].
  - unfold _download_qr_image, create_file.
    rewrite try_except_run. run_steps. rewrite Hreply.
    destruct (status =? 200); [| eexists; split; [reflexivity | discriminate]].
    destruct (scratch_file env); run_steps;
      try destruct (existsb _ _); run_steps;
      eexists; (split; [reflexivity | discriminate]).
  - destruct (status =? 200) eqn:Hstatus.
    + destruct (scratch_writable env) eqn:Hwritable.
      * apply Z.eqb_eq in Hstatus. subst status.
        destruct (download_qr_image_run env url uuid w Hreply Hwritable)
          as (w1 & E & Hin & _).
        exists w1. split; [exact E | intros _; exact Hin].
      * unfold _download_qr_image, create_file.
        rewrite try_except_run. run_steps.
        rewrite Hreply, Hstatus. unfold scratch_writable in Hwritable.
        destruct (scratch_file env); [| | discriminate]; run_steps;
          try destruct (existsb _ _); run_steps;
          eexists; (split; [reflexivity | discriminate]).
    + unfold _download_qr_image. rewrite try_except_run. run_steps.
      rewrite Hreply, Hstatus. run_steps.
      eexists. split; [reflexivity | discriminate].
Qed.

Lemma total_cleanup env path : total (cleanup env path).
Proof. unfold cleanup. repeat total_step. Qed.

(** The value [_send_login_qr_code] returns. *)
Lemma send_login_qr_code_value env to w :
  fst (_send_login_qr_code env to w)
  = Return (qr_code_ok env && download_ok env && upload_ok env).
Proof.
  unfold _send_login_qr_code, qr_code_ok.
  rewrite try_except_run. cbv zeta. run_steps.
  destruct (reply_GetQR env) as [e | status [e | qr]]; [reflexivity | |].
  - destruct (status =? 200); reflexivity.
  - destruct (status =? 200); cbn [negb andb]; [| reflexivity].
    destruct (Success qr && (PyStr.truthy (QrUrl qr) &&
                             PyStr.truthy (Uuid qr))); [| reflexivity].
    cbn [andb]. rewrite bind_run.
    match goal with
    | |- context [_download_qr_image env ?url ?uuid ?w0] =>
        destruct (download_qr_image_value env url uuid w0)
          as (w1 & E1 & Hin)
    end.
    rewrite E1.
    destruct (download_ok env); [| reflexivity].
    cbn [andb]. rewrite bind_run.
    match goal with
    | |- context [_send_image_message env to ?path w1] =>
        pose proof (send_image_message_value env to path w1 (Hin eq_refl))
          as Hv;
        destruct (_send_image_message env to path w1) as [r w2];
        cbn [fst] in Hv; subst r;
        rewrite bind_run;
        destruct (total_cleanup env path w2) as ([] & w3 & E3); rewrite E3
    end.
    reflexivity.
Qed.

(** What the download leaves in the scratch directory: nothing new but
    the image file, and that file, when no path is returned, only if the
    body of the image could not be read or could not be written. *)
Lemma download_qr_image_scratch env url uuid w p :
  let path := image_path_of uuid (time_at_download env) in
  let r := _download_qr_image env url uuid w in
  In p (scratch (snd r)) ->
  In p (scratch w) \/
  (p = path /\
   (fst r = Return None ->
    scratch_file env = WriteFails \/
    exists e, reply_QrImage env = Response 200 (BadBody e))).
Proof.
  intros path r. subst r.
  unfold _download_qr_image, create_file. fold path.
  rewrite try_except_run. run_steps.
  destruct (reply_QrImage env) as [e | status b]; [left; assumption |].
  destruct (status =? 200) eqn:Hstatus; [| left; assumption].
  apply Z.eqb_eq in Hstatus. subst status.
  destruct (scratch_file env); run_steps; [left; assumption | |];
    (destruct (existsb (String.eqb path) (scratch w)) eqn:Hex; run_steps;
     [destruct b as [e | []]; cbn; left; assumption |]);
    destruct b as [e | []]; cbn; intros Hin;
    (apply in_app_or in Hin as [Hin | [Hin | []]]; [left; assumption |]);
    right; (split; [symmetry; assumption |]).
  - intros _. left. reflexivity.
  - intros _. left. reflexivity.
  - intros _. right. exists e. reflexivity.
  - discriminate.
Qed.

(** The cleanup adds nothing, and leaves the file it was given only when
    the deletion fails. *)
Lemma cleanup_scratch env path w p :
  In p (scratch (snd (cleanup env path w))) ->
  In p (scratch w) /\ (p = path -> remove_ok env = false).
Proof.
  unfold cleanup, exists_file, remove_file.
  rewrite try_except_run. run_steps.
  destruct (existsb (String.eqb path) (scratch w)) eqn:Hex; run_steps.
  - destruct (remove_ok env); cbn.
    + intros Hin. apply filter_In in Hin as [Hin Hne]. split; [exact Hin |].
      intros ->. rewrite String.eqb_refl in Hne. discriminate.
    + intros Hin. split; [exact Hin | reflexivity].
  - cbn. intros Hin. split; [exact Hin |].
    intros ->. apply in_existsb in Hin. congruence.
Qed.

(** X13: [_send_login_qr_code] always returns, and it returns [True]
    exactly when the backend has handed out a QR code with its address
    and identifier, the image has come with status 200 and could be
    written to the scratch directory, and the backend has taken the
    upload with status 200 and [Success]. *)
Theorem qr_code_sent_iff env to w :
  (exists success, fst (_send_login_qr_code env to w) = Return success) /\
  (fst (_send_login_qr_code env to w) = Return true <->
   (exists qr, reply_GetQR env = Response 200 (Json qr) /\
               Success qr = true /\ QrUrl qr <> "" /\ Uuid qr <> "") /\
   reply_QrImage env = Response 200 (Json tt) /\
   scratch_writable env = true /\
   reply_UploadImg env = Response 200 (Json true)).
Proof.
  rewrite send_login_qr_code_value. split; [eexists; reflexivity |].
  unfold qr_code_ok, download_ok, upload_ok. split.
  - intros H. injection H as H.
    apply andb_prop in H as [H Hupload]. apply andb_prop in H as [Hqr Himage].
    split; [| split; [| split]].
    + destruct (reply_GetQR env) as [e | status [e | qr]];
        [discriminate | discriminate |].
      apply andb_prop in Hqr as [Hqr Hdata].
      apply andb_prop in Hqr as [Hstatus Hsuccess].
      apply andb_prop in Hdata as [Hurl Huuid].
      apply Z.eqb_eq in Hstatus. subst status.
      exists qr. split; [reflexivity |]. split; [exact Hsuccess |].
      split; apply truthy_iff; assumption.
    + destruct (reply_QrImage env) as [e | status [e | []]];
        [discriminate | discriminate |].
      apply andb_prop in Himage as [Hstatus _].
      apply Z.eqb_eq in Hstatus. subst status. reflexivity.
    + destruct (reply_QrImage env) as [e | status [e | []]];
        [discriminate | discriminate |].
      apply andb_prop in Himage as [_ Hwritable]. exact Hwritable.
    + destruct (reply_UploadImg env) as [e | status [e | success]];
        [discriminate | discriminate |].
      apply andb_prop in Hupload as [Hstatus Hsuccess].
      apply Z.eqb_eq in Hstatus. subst. reflexivity.
  - intros ((qr & -> & -> & Hurl & Huuid) & -> & -> & ->).
    rewrite (proj2 (truthy_iff _) Hurl), (proj2 (truthy_iff _) Huuid).
    reflexivity.
Qed.

(** X14: when the image answers with status 200 but its body cannot be
    read, the scratch file has already been opened: [_send_login_qr_code]
    returns [False] and leaves that file behind, with no attempt to delete
    it and nothing uploaded. *)
Theorem failed_image_read_leaves_file env to w qr e :
  reply_GetQR env = Response 200 (Json qr) ->
  Success qr = true -> QrUrl qr <> "" -> Uuid qr <> "" ->
  reply_QrImage env = Response 200 (BadBody e) ->
  scratch_writable env = true ->
  let path := image_path_of (Uuid qr) (time_at_download env) in
  let w' := snd (_send_login_qr_code env to w) in
  fst (_send_login_qr_code env to w) = Return false /\
  In path (scratch w') /\
  removals w' = removals w /\
  qr_steps w' =
  (qr_steps w ++ [PostGetQR (_create_device_name env) (_create_device_id env);
                  GetImage (QrUrl qr)])%list.
Proof.
  intros Hqr Hsuccess Hurl Huuid Himage Hwritable path.
  unfold _send_login_qr_code, _download_qr_image, create_file.
  rewrite try_except_run. cbv zeta. run_steps.
  rewrite Hqr. cbn [Z.eqb Pos.eqb negb].
  rewrite Hsuccess, (proj2 (truthy_iff _) Hurl), (proj2 (truthy_iff _) Huuid).
  cbn [andb]. rewrite bind_run, try_except_run. run_steps.
  rewrite Himage, (scratch_writable_written env Hwritable).
  cbn [Z.eqb Pos.eqb]. run_steps. fold path.
  unfold removals, qr_steps.
  destruct (existsb (String.eqb path) (scratch w)) eqn:Hex; cbn;
    rewrite !filter_app; cbn; rewrite ?app_nil_r, <- ?app_assoc;
    (split; [reflexivity |]); (split; [| split; reflexivity]).
  - apply in_existsb. exact Hex.
  - apply in_or_app. right. left. reflexivity.
Qed.

Lemma failed_image_read_leaves_file_witness :
  let env := with_QrImage (Response 200 (BadBody ClientError))
               (sample_env 1799748000 1800000000 1800000004) in
  let w := sample_world "wxid_admin" 0 in
  let w' := snd (_send_login_qr_code env "wxid_admin" w) in
  fst (_send_login_qr_code env "wxid_admin" w) = Return false /\
  In "tmp/qr_u1_1800000000.png" (scratch w') /\
  removals w' = removals w.
Proof.
  intros env w.
  destruct (failed_image_read_leaves_file env "wxid_admin" w
              {| Success := true; QrUrl := "http://127.0.0.1/qr.png";
                 Uuid := "u1" |} ClientError)
    as (Hvalue & Hin & Hremovals & _);
    [reflexivity | reflexivity | discriminate | discriminate
    | reflexivity | reflexivity |].
  split; [exact Hvalue |]. split; [exact Hin | exact Hremovals].
Defined.

(** X15: the only file [_send_login_qr_code] can add to the scratch
    directory is the QR image, and it stays only when its deletion fails,
    or when, the file once opened, the body of the image could not be read
    or could not be written into it. *)
Theorem qr_code_leftover env to w p :
  In p (scratch (snd (_send_login_qr_code env to w))) ->
  In p (scratch w) \/
  exists qr,
    reply_GetQR env = Response 200 (Json qr) /\
    p = image_path_of (Uuid qr) (time_at_download env) /\
    (remove_ok env = false \/
     scratch_file env = WriteFails \/
     exists e, reply_QrImage env = Response 200 (BadBody e)).
Proof.
  unfold _send_login_qr_code.
  rewrite try_except_run. cbv zeta. run_steps.
  destruct (reply_GetQR env) as [e | status [e | qr]];
    [left; assumption | |].
  - destruct (status =? 200); left; assumption.
  - destruct (status =? 200) eqn:Hstatus; cbn [negb]; [| left; assumption].
    apply Z.eqb_eq in Hstatus. subst status.
    destruct (Success qr && (PyStr.truthy (QrUrl qr) &&
                             PyStr.truthy (Uuid qr))); [| left; assumption].
    rewrite bind_run.
    match goal with
    | |- context [_download_qr_image env ?url ?uuid ?w0] =>
        pose proof (download_qr_image_scratch env url uuid w0 p) as Hd;
        destruct (download_qr_image_value env url uuid w0) as (w1 & E1 & _)
    end.
    cbv zeta in Hd. rewrite E1 in Hd. cbn [fst snd] in Hd. rewrite E1.
    change (scratch (log_to _ w)) with (scratch w) in Hd.
    destruct (download_ok env).
    + rewrite bind_run.
      match goal with
      | |- context [_send_image_message env to ?path w1] =>
          pose proof (scratch_send_image_message env to path w1) as Hk;
          destruct (total_send_image_message env to path w1)
            as (success & w2 & E2);
          rewrite E2 in Hk; rewrite E2; cbn [snd] in Hk;
          injection Hk as Hk _ _;
          rewrite bind_run;
          pose proof (cleanup_scratch env path w2 p) as Hc;
          destruct (total_cleanup env path w2) as ([] & w3 & E3);
          rewrite E3 in Hc; rewrite E3; cbn [snd] in Hc
      end.
      cbn. intros Hin. destruct (Hc Hin) as [Hin2 Hrm].
      rewrite Hk in Hin2. destruct (Hd Hin2) as [Hold | [-> _]].
      * left. exact Hold.
      * right. exists qr. split; [reflexivity |]. split; [reflexivity |].
        left. apply Hrm. reflexivity.
    + cbn. intros Hin. destruct (Hd Hin) as [Hold | [-> Hwhy]].
      * left. exact Hold.
      * right. exists qr. split; [reflexivity |]. split; [reflexivity |].
        right. apply Hwhy. reflexivity.
Qed.

Lemma qr_code_leftover_witness :
  let env := with_scratch_file WriteFails
               (sample_env 1799748000 1800000000 1800000004) in
  let w := sample_world "wxid_admin" 0 in
  let p := "tmp/qr_u1_1800000000.png" in
  In p (scratch w) \/
  exists qr,
    reply_GetQR env = Response 200 (Json qr) /\
    p = image_path_of (Uuid qr) (time_at_download env) /\
    (remove_ok env = false \/
     scratch_file env = WriteFails \/
     exists e, reply_QrImage env = Response 200 (BadBody e)).
Proof.
  intros env w p.
  apply (qr_code_leftover env "wxid_admin" w p).
  vm_compute. left. reflexivity.
Defined.

(** ** The request for a text message *)

(** X16: [_send_text_message] makes exactly one request, whatever the
    backend answers, and never raises.  The sender is the cached identity
    when there is one, even if the device file has changed since; otherwise
    it is read from the device file, and the request goes out even when
    that gives an empty sender. *)
Theorem text_request_sender env to t w :
  let w' := snd (_send_text_message env to t w) in
  let wxid := if PyStr.truthy (current_wxid (self w))
              then current_wxid (self w) else identity env w in
  text_requests w' = (text_requests w ++ [PostSendTxt wxid to t])%list /\
  current_wxid (self w') = wxid /\
  exists success, fst (_send_text_message env to t w) = Return success.
Proof.
  cbv zeta. rewrite send_text_message_value.
  split; [| split; [| eexists; reflexivity]].
  - unfold _send_text_message, _load_current_login_info, identity.
    rewrite try_except_run. run_steps.
    destruct (PyStr.truthy (current_wxid (self w))); cbn [negb when].
    + run_steps.
      destruct (reply_SendTxt env) as [e | status [e | success]];
        try destruct (status =? 200); cbn; unfold text_requests; cbn;
        rewrite !filter_app; cbn; rewrite ?app_nil_r; reflexivity.
    + rewrite try_except_run.
      destruct (state_files env wx849_device_info) as [| e | d]; run_steps;
        destruct (reply_SendTxt env) as [e' | status [e' | success]];
        try destruct (status =? 200); cbn; unfold text_requests; cbn;
        rewrite !filter_app; cbn; rewrite ?app_nil_r; reflexivity.
  - unfold _send_text_message, _load_current_login_info, identity.
    rewrite try_except_run. run_steps.
    destruct (PyStr.truthy (current_wxid (self w))); cbn [negb when].
    + run_steps.
      destruct (reply_SendTxt env) as [e | status [e | success]];
        try destruct (status =? 200); reflexivity.
    + rewrite try_except_run.
      destruct (state_files env wx849_device_info) as [| e | d]; run_steps;
        destruct (reply_SendTxt env) as [e' | status [e' | success]];
        try destruct (status =? 200); reflexivity.
Qed.

(** ** Commands *)

#[local] Hint Unfold outward : views.

Lemma outward_on_handle_context env e :
  keeps outward (on_handle_context env e).
Proof.
  assert (keeps outward (_load_current_login_info env))
    by (unfold _load_current_login_info; frame).
  assert (keeps outward (_get_real_login_time env))
    by (apply blind_get_real_login_time; intros l msg; frame).
  unfold on_handle_context, _handle_status_query, _handle_config_query,
    _handle_enable_warning, _handle_disable_warning,
    _handle_threshold_setting, _handle_warning_test, target_of, save_config,
    _start_background_check, _stop_background_check.
  frame.
Qed.

Lemma total_on_handle_context env e : total (on_handle_context env e).
Proof.
  unfold on_handle_context, _handle_status_query, _handle_config_query,
    _handle_enable_warning, _handle_disable_warning,
    _handle_threshold_setting, _handle_warning_test.
  destruct (context_type e); [| auto with total].
  cbv zeta.
  repeat match goal with
         | |- total (if ?c then _ else _) => destruct c
         end;
    repeat total_step.
Qed.

Lemma answered {A} (m : M A) w :
  total m ->
  fst ((reply <- m ;; ret (Some reply)) w) = Return None -> False.
Proof.
  intros Hm. rewrite bind_run.
  destruct (Hm w) as (a & w1 & E). rewrite E. discriminate.
Qed.

(** X17: no exception leaves [on_handle_context]; a command sends no text
    and takes no step of the QR-image part itself (the test command only
    starts a thread), leaves the scratch directory and the time of the last
    warning alone; and a message that gets no reply (it is no text, or no
    command) changes nothing at all. *)
Theorem commands_send_nothing env e w :
  exists reply w',
    on_handle_context env e w = (Return reply, w') /\
    texts_sent w' = texts_sent w /\
    qr_steps w' = qr_steps w /\
    scratch w' = scratch w /\
    last_warning_time (self w') = last_warning_time (self w) /\
    (reply = None -> w' = w).
Proof.
  destruct (total_on_handle_context env e w) as (reply & w' & E).
  pose proof (outward_on_handle_context env e w) as Hout.
  pose proof (quiet_on_handle_context env e w) as Hquiet.
  rewrite E in Hout, Hquiet. cbn [snd] in Hout, Hquiet.
  injection Hout as Htexts Hqr Hscratch. injection Hquiet as Hlast _.
  exists reply, w'. split; [exact E |].
  split; [exact Htexts |]. split; [exact Hqr |]. split; [exact Hscratch |].
  split; [exact Hlast |].
  intros ->. revert E. unfold on_handle_context.
  destruct (context_type e);
    [| unfold ret; intros E; inversion E; reflexivity].
  cbv zeta.
  repeat match goal with
         | |- (if ?c then _ else _) w = _ -> _ => destruct c
         end;
    try (unfold ret; intros E; inversion E; reflexivity);
    intros E; exfalso;
    match goal with
    | E : ?m w = _ |- _ =>
        assert (Hv : fst (m w) = Return None) by (rewrite E; reflexivity)
    end;
    revert Hv; apply answered; clear;
    unfold _handle_status_query, _handle_config_query,
      _handle_enable_warning, _handle_disable_warning,
      _handle_threshold_setting, _handle_warning_test;
    repeat total_step.
Qed.

(** ** Settings over a restart *)

(** What construction and a reload read from a configuration store that
    holds a setting. *)
Lemma restart_takes_store env c w :
  config_store w = Some c -> config_truthy (Some c) = true ->
  let w1 := snd (__init__ w) in
  let w2 := snd (reload env w) in
  warning_enabled (self w1) = get (auto_session_warning_enabled c) true /\
  warning_threshold (self w1) = get (auto_session_warning_threshold c) (Fin 2) /\
  warning_enabled (self w2) = get (auto_session_warning_enabled c) true /\
  warning_threshold (self w2) = get (auto_session_warning_threshold c) (Fin 2).
Proof.
  intros Hstore Htruthy. cbv zeta.
  assert (Hc : config_or_default (config_store w) = c)
    by (rewrite Hstore; unfold config_or_default; rewrite Htruthy; reflexivity).
  split; [| split]; [| | split].
  - unfold __init__, load_config. rewrite bind_run. cbv zeta. cbn [fst snd].
    rewrite Hc. run_steps. rewrite start_background_check_run_when.
    unfold attributes at 1. cbn [warning_enabled].
    destruct (get (auto_session_warning_enabled c) true) eqn:Hen;
      cbn; rewrite ?Hen; reflexivity.
  - unfold __init__, load_config. rewrite bind_run. cbv zeta. cbn [fst snd].
    rewrite Hc. run_steps. rewrite start_background_check_run_when.
    unfold attributes at 1. cbn [warning_enabled].
    destruct (get (auto_session_warning_enabled c) true) eqn:Hen;
      cbn; reflexivity.
  - unfold reload, load_config.
    rewrite bind_run, stop_background_check_run. run_steps.
    cbn [log_to with_self config_store self]. rewrite Hc.
    rewrite start_background_check_run_when.
    destruct (get (auto_session_warning_enabled c) true) eqn:Hen;
      cbn; rewrite ?Hen; reflexivity.
  - unfold reload, load_config.
    rewrite bind_run, stop_background_check_run. run_steps.
    cbn [log_to with_self config_store self]. rewrite Hc.
    rewrite start_background_check_run_when.
    destruct (get (auto_session_warning_enabled c) true) eqn:Hen;
      cbn; reflexivity.
Qed.

Lemma truthy_with_threshold x c :
  config_truthy (Some (with_threshold x c)) = true.
Proof.
  unfold config_truthy, with_threshold. cbn.
  destruct (auto_session_warning_enabled c); reflexivity.
Qed.

(** X18: a setting that a command has saved survives a restart: after the
    threshold command has taken [x], and after the enable and the disable
    command, both a new construction of the plugin and a reload come up
    with that threshold and that flag. *)
Theorem saved_settings_survive_restart env env' content p0 p1 x w :
  save_config_ok env = true ->
  (PyStr.split content = [p0; p1] ->
   PyStr.endswith (PyStr.lower p1) "h" = true ->
   PyStr.parse_float (PyStr.drop_last (PyStr.lower p1)) = Some x ->
   lt x (Fin 0) = false -> gt x (Fin 72) = false ->
   let w1 := snd (_handle_threshold_setting env content w) in
   warning_threshold (self (snd (__init__ w1))) = x /\
   warning_threshold (self (snd (reload env' w1))) = x) /\
  (let w1 := snd (_handle_enable_warning env w) in
   warning_enabled (self (snd (__init__ w1))) = true /\
   warning_enabled (self (snd (reload env' w1))) = true) /\
  (let w1 := snd (_handle_disable_warning env w) in
   warning_enabled (self (snd (__init__ w1))) = false /\
   warning_enabled (self (snd (reload env' w1))) = false).
Proof.
  intros Hsave. split; [| split].
  - intros Hsplit Hend Hparse Hlt Hgt w1.
    destruct (threshold_setting_accepts env content p0 p1 x w
                Hsplit Hend Hparse Hlt Hgt Hsave) as (_ & _ & Hstore).
    fold w1 in Hstore.
    destruct (restart_takes_store env' _ w1 Hstore
                (truthy_with_threshold x _)) as (_ & H1 & _ & H2).
    split; assumption.
  - intros w1.
    destruct (enable_warning_saved env w Hsave) as (_ & _ & Hstore).
    fold w1 in Hstore.
    destruct (restart_takes_store env' _ w1 Hstore eq_refl)
      as (H1 & _ & H2 & _).
    split; assumption.
  - intros w1.
    destruct (disable_warning_saved env w Hsave) as (_ & _ & Hstore).
    fold w1 in Hstore.
    destruct (restart_takes_store env' _ w1 Hstore eq_refl)
      as (H1 & _ & H2 & _).
    split; assumption.
Qed.

Lemma saved_settings_survive_restart_witness :
  let env := sample_env 1799748000 1800000000 1800000004 in
  let w := sample_world "wxid_admin" 0 in
  let w1 := snd (_handle_threshold_setting env "$预警阈值 5.5h" w) in
  warning_threshold (self (snd (__init__ w1))) = Fin (11 # 2) /\
  warning_threshold (self (snd (reload env w1))) = Fin (11 # 2).
Proof.
  intros env w.
  apply (proj1 (saved_settings_survive_restart env env "$预警阈值 5.5h"
                  "$预警阈值" "5.5h" (Fin (11 # 2)) w eq_refl));
    reflexivity.
Defined.

(** ** The device of the QR request *)

Lemma length_substring : forall s n m,
  (n + m <= String.length s)%nat -> String.length (substring n m s) = m.
Proof.
  induction s as [| c s IH]; intros n m H; destruct n, m; simpl in *;
    try lia; try reflexivity; rewrite IH; lia.
Qed.

Lemma get_beyond : forall s k,
  (String.length s <= k)%nat -> String.get k s = None.
Proof.
  induction s as [| c s IH]; intros k H; [reflexivity |].
  destruct k; simpl in *; [lia | apply IH; lia].
Qed.

(** X19: the device identifier sent with the QR request is the 32
    character digest with its first two characters replaced by [49]: it
    has 32 characters, begins with [49], and agrees with the digest from
    the third character on. *)
Theorem device_id_shape env :
  String.length (random_md5 env) = 32%nat ->
  String.length (_create_device_id env) = 32%nat /\
  PyStr.startswith (_create_device_id env) "49" = true /\
  forall k, (2 <= k)%nat ->
    String.get k (_create_device_id env) = String.get k (random_md5 env).
Proof.
  unfold _create_device_id. cbv zeta.
  generalize (random_md5 env) as s. intros s Hlen. rewrite Hlen.
  split; [| split].
  - cbn [String.append String.length]. rewrite length_substring; lia.
  - reflexivity.
  - intros k Hk.
    replace k with ((k - 2) + String.length "49")%nat at 1 by (cbn; lia).
    rewrite <- append_correct2.
    destruct (Nat.lt_ge_cases (k - 2) (32 - 2)) as [Hin | Hout].
    + rewrite substring_correct1 by exact Hin. f_equal. lia.
    + rewrite substring_correct2 by exact Hout.
      symmetry. apply get_beyond. lia.
Qed.

Lemma device_id_shape_witness :
  let env := sample_env 1799748000 1800000000 1800000004 in
  String.length (_create_device_id env) = 32%nat /\
  PyStr.startswith (_create_device_id env) "49" = true.
Proof.
  intros env.
  destruct (device_id_shape env) as (Hlen & Hstart & _); [reflexivity |].
  split; [exact Hlen | exact Hstart].
Defined.
